(** * DTing sampling engine: extractors, scheduler, alerts, statistics

    A shallow embedding of [dting/core/collector.py] and
    [dting/core/apm.py].

    Conventions of the embedding:
    - Python [float] values are exact rationals ([Q]); rounding of binary
      floating point, infinities and NaN are outside the model.
    - Python [int] values are [Z].
    - [str] values are Rocq strings (ASCII text).
    - a method that mutates [self] becomes a function that takes the object
      and returns the new object next to its result;
    - an exception that can leave a block is a [Raise] result, and
      [try ... except Exception] is [catch];
    - [time.time()] and the answers of the device are inputs of each call;
      the collection loop runs on a clock that [time.sleep] and the work
      of each pass advance;
    - [print] diagnostics are not part of the model. *)

From Stdlib Require Import ZArith QArith Qround Qabs Qminmax List Bool Lia Lqa.
From Stdlib Require Import Ascii String DecimalString.
From stdpp Require Import base option strings gmap.
Import ListNotations.

Local Open Scope string_scope.
Local Open Scope Z_scope.

(** ** Exceptions and results *)

(** The exceptions met in the modelled code. A message is kept where the
    source gives it; a built-in that raises carries the empty message. *)
Inductive exn : Type :=
| ValueError (msg : string)
| IndexError
| AttributeError (attr : string)
| TypeError
| RuntimeError (msg : string)
| OverflowError.

Inductive result (A : Type) : Type :=
| Ret (a : A)
| Raise (e : exn).
Arguments Ret {A} a.
Arguments Raise {A} e.

(** State and exception monad: a raised exception keeps the mutations made
    before it, as in Python. *)
Definition M (S A : Type) : Type := S -> result A * S.

Definition mret {S A} (a : A) : M S A := fun s => (Ret a, s).
Definition mraise {S A} (e : exn) : M S A := fun s => (Raise e, s).
Definition mbind {S A B} (m : M S A) (k : A -> M S B) : M S B :=
  fun s => match m s with
           | (Ret a, s') => k a s'
           | (Raise e, s') => (Raise e, s')
           end.
Definition mget {S} : M S S := fun s => (Ret s, s).
Definition mmodify {S} (f : S -> S) : M S unit := fun s => (Ret tt, f s).
Definition lift_result {S A} (r : result A) : M S A := fun s => (r, s).

(** [try: body except Exception: handler] *)
Definition catch {S A} (body : M S A) (handler : exn -> M S A) : M S A :=
  fun s => match body s with
           | (Ret a, s') => (Ret a, s')
           | (Raise e, s') => handler e s'
           end.

(** A block whose every exception is handled ends with a value. *)
Definition run_total {S A} (body : M S A) (fallback : A) (s : S) : A * S :=
  match body s with
  | (Ret a, s') => (a, s')
  | (Raise _, s') => (fallback, s')
  end.

Declare Scope py_scope.
Delimit Scope py_scope with py.
Notation "x <~ m ; k" := (mbind m (fun x => k))
  (at level 20, m at level 100, k at level 200, only parsing) : py_scope.
Notation "m ;> k" := (mbind m (fun _ => k))
  (at level 20, k at level 200, only parsing) : py_scope.

(** ** Python string primitives on ASCII text *)

Module PyStr.

Definition newline : ascii := ascii_of_nat 10.

(** [str.isspace] on one ASCII character: TAB..CR, FS..US and space. *)
Definition is_space (c : ascii) : bool :=
  let n := nat_of_ascii c in
  ((9 <=? n)%nat && (n <=? 13)%nat) || ((28 <=? n)%nat && (n <=? 32)%nat).

Definition is_digit (c : ascii) : bool :=
  let n := nat_of_ascii c in (48 <=? n)%nat && (n <=? 57)%nat.

Definition digit_val (c : ascii) : Z := Z.of_nat (nat_of_ascii c) - 48.

Definition chars (s : string) : list ascii := list_ascii_of_string s.
Definition text (l : list ascii) : string := string_of_list_ascii l.

(** [bool(s)] for a string. *)
Definition truthy (s : string) : bool :=
  match s with EmptyString => false | _ => true end.

(** [s.split(sep)] for a one-character separator: never an empty list. *)
Fixpoint split_chars (sep : ascii) (cur : list ascii) (l : list ascii)
  : list string :=
  match l with
  | [] => [text (rev cur)]
  | c :: l' =>
      if Ascii.eqb c sep then text (rev cur) :: split_chars sep [] l'
      else split_chars sep (c :: cur) l'
  end.
Definition split_on (sep : ascii) (s : string) : list string :=
  split_chars sep [] (chars s).

(** [s.split()] : the maximal runs of non-whitespace characters. *)
Fixpoint words_chars (cur : list ascii) (l : list ascii) : list string :=
  match l with
  | [] => match cur with [] => [] | _ => [text (rev cur)] end
  | c :: l' =>
      if is_space c
      then match cur with
           | [] => words_chars [] l'
           | _ => text (rev cur) :: words_chars [] l'
           end
      else words_chars (c :: cur) l'
  end.
Definition split (s : string) : list string := words_chars [] (chars s).

Fixpoint lstrip_chars (l : list ascii) : list ascii :=
  match l with
  | c :: l' => if is_space c then lstrip_chars l' else l
  | [] => []
  end.
(** [s.strip()] *)
Definition strip (s : string) : string :=
  text (rev (lstrip_chars (rev (lstrip_chars (chars s))))).

(** [s.startswith(p)] *)
Definition startswith (p s : string) : bool := String.prefix p s.

(** [sub in s] *)
Fixpoint contains (sub s : string) : bool :=
  String.prefix sub s ||
  match s with
  | EmptyString => false
  | String _ s' => contains sub s'
  end.

(** [s.replace(c, '')] for a one-character [c]. *)
Definition remove_char (c : ascii) (s : string) : string :=
  text (List.filter (fun x => negb (Ascii.eqb x c)) (chars s)).

(** [s.isdigit()] *)
Definition isdigit (s : string) : bool :=
  truthy s && forallb is_digit (chars s).

(** [s.upper()] *)
Definition upper_char (c : ascii) : ascii :=
  let n := nat_of_ascii c in
  if (97 <=? n)%nat && (n <=? 122)%nat then ascii_of_nat (n - 32) else c.
Definition upper (s : string) : string := text (List.map upper_char (chars s)).

(** [int(s)] in base 10: surrounding whitespace, an optional sign, digits
    with single underscores between them. [None] is [ValueError]. *)
Fixpoint digits_value (acc : Z) (after_digit : bool) (l : list ascii)
  : option Z :=
  match l with
  | [] => if after_digit then Some acc else None
  | c :: l' =>
      if is_digit c then digits_value (10 * acc + digit_val c) true l'
      else if Ascii.eqb c "_"%char
           then if after_digit then digits_value acc false l' else None
           else None
  end.
Definition int (s : string) : option Z :=
  match chars (strip s) with
  | c :: l =>
      if Ascii.eqb c "-"%char then option_map Z.opp (digits_value 0 false l)
      else if Ascii.eqb c "+"%char then digits_value 0 false l
      else digits_value 0 false (c :: l)
  | [] => None
  end.

(** [re.search(r'(\d+)', s).group(1)]: the first maximal run of digits. *)
Fixpoint take_digits (l : list ascii) : list ascii :=
  match l with
  | c :: l' => if is_digit c then c :: take_digits l' else []
  | [] => []
  end.
Fixpoint search_digits_chars (l : list ascii) : option string :=
  match l with
  | [] => None
  | c :: l' =>
      if is_digit c then Some (text (take_digits l))
      else search_digits_chars l'
  end.
Definition search_digits (s : string) : option string :=
  search_digits_chars (chars s).

End PyStr.

(** ** Numbers *)

Definition Qlt_bool (x y : Q) : bool := negb (Qle_bool y x).

Definition Qsum (l : list Q) : Q := fold_left Qplus l 0%Q.

Definition Qlen {A} (l : list A) : Q := inject_Z (Z.of_nat (length l)).

(** [max(values)] for a non-empty list given as head and tail: a later
    element replaces the current one only when it is larger. *)
Definition py_max (x : Q) (l : list Q) : Q :=
  fold_left (fun m y => if Qlt_bool m y then y else m) l x.
(** [min(values)] *)
Definition py_min (x : Q) (l : list Q) : Q :=
  fold_left (fun m y => if Qlt_bool y m then y else m) l x.

(** [l[-n:]] for a positive [n]. *)
Definition lastn {A} (n : nat) (l : list A) : list A := skipn (length l - n) l.

(** [l[i]] *)
Definition index {A} (l : list A) (i : nat) : result A :=
  match nth_error l i with
  | Some a => Ret a
  | None => Raise IndexError
  end.

(** ** The device command gateway *)

(** [device.execute_adb(command)]: the text the device answers, or the
    [RuntimeError] of the transport. *)
Definition Device : Type := string -> result string.

(** One extraction call sees the device and one reading of [time.time()]. *)
Record Env : Type := { device : Device; now : Q }.

(** Values stored under the keys of a metric dictionary. *)
Inductive pyval : Type :=
| PNum (q : Q)
| PStr (s : string).

(** A Python [dict] with string keys. *)
Abbreviation dict := (gmap string pyval).

(** ** AndroidCollector *)

Module Android.

(** The dictionary [current_data] kept in [last_network_data]. *)
Record NetData : Type :=
  { rx_bytes : Z; tx_bytes : Z; timestamp : Q }.

Record AndroidCollector : Type :=
  { package_name : string;
    pid : option string;
    last_network_data : option NetData;
    last_cpu_data : option (Z * Z) }.

(** [AndroidCollector(device, package_name)] *)
Definition init (package : string) : AndroidCollector :=
  {| package_name := package; pid := None;
     last_network_data := None; last_cpu_data := None |}.

Definition set_pid (p : string) (c : AndroidCollector) : AndroidCollector :=
  {| package_name := package_name c; pid := Some p;
     last_network_data := last_network_data c;
     last_cpu_data := last_cpu_data c |}.
Definition set_last_cpu_data (d : Z * Z) (c : AndroidCollector)
  : AndroidCollector :=
  {| package_name := package_name c; pid := pid c;
     last_network_data := last_network_data c;
     last_cpu_data := Some d |}.
Definition set_last_network_data (d : NetData) (c : AndroidCollector)
  : AndroidCollector :=
  {| package_name := package_name c; pid := pid c;
     last_network_data := Some d;
     last_cpu_data := last_cpu_data c |}.

(** The value of [self.pid] when [if self.pid:] holds. *)
Definition pid_value (c : AndroidCollector) : option string :=
  match pid c with
  | Some p => if PyStr.truthy p then Some p else None
  | None => None
  end.

Definition execute_adb (e : Env) (command : string)
  : M AndroidCollector string :=
  lift_result (device e command).

Definition lines (output : string) : list string :=
  PyStr.split_on PyStr.newline output.

Definition int (s : string) : result Z :=
  match PyStr.int s with
  | Some z => Ret z
  | None => Raise (ValueError "")
  end.

Local Open Scope py_scope.

Definition get_pid (e : Env) : M AndroidCollector (option string) :=
  c <~ mget;
  if negb (PyStr.truthy (package_name c)) then mret None
  else
    catch
      (output <~ execute_adb e ("shell pidof " ++ package_name c);
       if PyStr.truthy output then
         p <~ lift_result (index (PyStr.split (PyStr.strip output)) 0);
         mmodify (set_pid p) ;> mret (Some p)
       else mret None)
      (fun _ => mret None).

(** [if self.package_name and not self.pid: self.get_pid()] *)
Definition ensure_pid (e : Env) : M AndroidCollector unit :=
  c <~ mget;
  if PyStr.truthy (package_name c) && negb (bool_decide (is_Some (pid_value c)))
  then get_pid e ;> mret tt
  else mret tt.

(** The first line of [/proc/stat] that starts with ["cpu "]. *)
Definition cpu_line (ls : list string) : option string :=
  List.find (PyStr.startswith "cpu ") ls.

(** [sum(int(x) for x in fields)] *)
Fixpoint sum_ints (acc : Z) (fields : list string) : result Z :=
  match fields with
  | [] => Ret acc
  | x :: rest =>
      match int x with
      | Ret z => sum_ints (acc + z) rest
      | Raise e => Raise e
      end
  end.

(** [(total_time, idle_time)] of a ["cpu "] line. *)
Definition cpu_counters (line : string) : result (Z * Z) :=
  let fields := PyStr.split line in
  match sum_ints 0 (tl fields) with
  | Raise e => Raise e
  | Ret total_time =>
      match index fields 4 with
      | Raise e => Raise e
      | Ret f4 =>
          match int f4 with
          | Raise e => Raise e
          | Ret idle_time => Ret (total_time, idle_time)
          end
      end
  end.

(** Lines 99-110: the delta against the stored baseline. *)
Definition cpu_delta (total_time idle_time : Z) : M AndroidCollector Q :=
  c <~ mget;
  let first_sample := mmodify (set_last_cpu_data (total_time, idle_time)) ;> mret 0%Q in
  match last_cpu_data c with
  | Some (last_total, last_idle) =>
      let total_diff := total_time - last_total in
      let idle_diff := idle_time - last_idle in
      if 0 <? total_diff then
        let cpu_usage :=
          (100 * inject_Z (total_diff - idle_diff) / inject_Z total_diff)%Q in
        mmodify (set_last_cpu_data (total_time, idle_time)) ;> mret cpu_usage
      else first_sample
  | None => first_sample
  end.

Section WithFloat.

(** [float(s)] restricted to its finite results; [None] is [ValueError].
    The strings that Python reads as an infinity or a NaN (['inf'], ['nan']
    and the like) have no value here: an output that holds one where a
    number is read is outside the model. *)
Variable py_float : string -> option Q.

Definition float (s : string) : result Q :=
  match py_float s with
  | Some q => Ret q
  | None => Raise (ValueError "")
  end.

(** The inner loop over [parts] of the [top] line: [Some r] when a part
    with a percentage is reached, [r] being what [float] gives. *)
Fixpoint top_parts (parts : list string) : option (result Q) :=
  match parts with
  | [] => None
  | part :: rest =>
      if PyStr.contains "%" part &&
         PyStr.isdigit (PyStr.remove_char "." (PyStr.remove_char "%" part))
      then Some (float (PyStr.remove_char "%" part))
      else top_parts rest
  end.

Fixpoint top_lines (p : string) (ls : list string) : option (result Q) :=
  match ls with
  | [] => None
  | line :: rest =>
      if PyStr.contains p line && PyStr.contains "%" line then
        match top_parts (PyStr.split line) with
        | Some r => Some r
        | None => top_lines p rest
        end
      else top_lines p rest
  end.

Definition collect_cpu_body (e : Env) : M AndroidCollector Q :=
  ensure_pid e ;>
  c <~ mget;
  match pid_value c with
  | Some p =>
      output <~ execute_adb e ("shell top -p " ++ p ++ " -n 1");
      match top_lines p (lines output) with
      | Some r => lift_result r
      | None => mret 0%Q
      end
  | None =>
      output <~ execute_adb e "shell cat /proc/stat";
      match cpu_line (lines output) with
      | Some line =>
          counters <~ lift_result (cpu_counters line);
          cpu_delta (fst counters) (snd counters)
      | None => mret 0%Q
      end
  end.

Definition collect_cpu (e : Env) (c : AndroidCollector)
  : Q * AndroidCollector :=
  run_total (collect_cpu_body e) 0%Q c.


(** *** Memory *)

(** [float(match.group(1))] for a match of [\d+]: digits always parse. *)
Definition float_of_digits (s : string) : Q :=
  match PyStr.int s with
  | Some z => inject_Z z
  | None => 0%Q
  end.

Fixpoint meminfo_total (ls : list string) : option Q :=
  match ls with
  | [] => None
  | line :: rest =>
      if PyStr.contains "TOTAL" line && PyStr.contains "kB" line then
        match PyStr.search_digits line with
        | Some d => Some (float_of_digits d / 1024)%Q
        | None => meminfo_total rest
        end
      else meminfo_total rest
  end.

(** The loop over [/proc/meminfo]: [(mem_total, mem_available)]. *)
Fixpoint meminfo_scan (mem_total mem_available : Z) (ls : list string)
  : result (Z * Z) :=
  match ls with
  | [] => Ret (mem_total, mem_available)
  | line :: rest =>
      if PyStr.startswith "MemTotal:" line then
        match index (PyStr.split line) 1 with
        | Raise e => Raise e
        | Ret tok => match int tok with
                     | Raise e => Raise e
                     | Ret v => meminfo_scan v mem_available rest
                     end
        end
      else if PyStr.startswith "MemAvailable:" line then
        match index (PyStr.split line) 1 with
        | Raise e => Raise e
        | Ret tok => match int tok with
                     | Raise e => Raise e
                     | Ret v => meminfo_scan mem_total v rest
                     end
        end
      else meminfo_scan mem_total mem_available rest
  end.

Definition collect_memory_body (e : Env) : M AndroidCollector Q :=
  ensure_pid e ;>
  c <~ mget;
  match pid_value c with
  | Some p =>
      output <~ execute_adb e ("shell dumpsys meminfo " ++ p);
      match meminfo_total (lines output) with
      | Some v => mret v
      | None => mret 0%Q
      end
  | None =>
      output <~ execute_adb e "shell cat /proc/meminfo";
      m <~ lift_result (meminfo_scan 0 0 (lines output));
      let '(mem_total, mem_available) := m in
      if 0 <? mem_total
      then mret (inject_Z (mem_total - mem_available) / 1024)%Q
      else mret 0%Q
  end.

Definition collect_memory (e : Env) (c : AndroidCollector)
  : Q * AndroidCollector :=
  run_total (collect_memory_body e) 0%Q c.

Definition detail_entry (key : string) (line : string) (d : dict) : dict :=
  match PyStr.search_digits line with
  | Some m => <[key := PNum (float_of_digits m / 1024)]> d
  | None => d
  end.

Fixpoint memory_detail_scan (d : dict) (ls : list string) : dict :=
  match ls with
  | [] => d
  | raw :: rest =>
      let line := PyStr.strip raw in
      if PyStr.contains "Pss Total" line
      then memory_detail_scan (detail_entry "pss_total" line d) rest
      else if PyStr.contains "Private Dirty" line
      then memory_detail_scan (detail_entry "private_dirty" line d) rest
      else if PyStr.contains "Private Clean" line
      then memory_detail_scan (detail_entry "private_clean" line d) rest
      else memory_detail_scan d rest
  end.

Definition collect_memory_detail_body (e : Env) : M AndroidCollector dict :=
  ensure_pid e ;>
  c <~ mget;
  match pid_value c with
  | Some p =>
      output <~ execute_adb e ("shell dumpsys meminfo " ++ p);
      mret (memory_detail_scan ∅ (lines output))
  | None => mret ∅
  end.

Definition collect_memory_detail (e : Env) (c : AndroidCollector)
  : dict * AndroidCollector :=
  run_total (collect_memory_detail_body e) ∅ c.

(** *** Network *)

(** The loop that looks for the [Uid:] line of [/proc/<pid>/status]. *)
Fixpoint find_uid (ls : list string) : result (option string) :=
  match ls with
  | [] => Ret None
  | line :: rest =>
      if PyStr.startswith "Uid:" line then
        match index (PyStr.split line) 1 with
        | Ret u => Ret (Some u)
        | Raise e => Raise e
        end
      else find_uid rest
  end.

(** The loop that sums columns 5 and 7 of the [xt_qtaguid] rows. *)
Fixpoint qtaguid_sum (rx tx : Z) (ls : list string) : result (Z * Z) :=
  match ls with
  | [] => Ret (rx, tx)
  | line :: rest =>
      if PyStr.truthy (PyStr.strip line) then
        let parts := PyStr.split line in
        if (8 <=? length parts)%nat then
          match index parts 5 with
          | Raise e => Raise e
          | Ret p5 =>
              match int p5 with
              | Raise e => Raise e
              | Ret r =>
                  match index parts 7 with
                  | Raise e => Raise e
                  | Ret p7 =>
                      match int p7 with
                      | Raise e => Raise e
                      | Ret t => qtaguid_sum (rx + r) (tx + t) rest
                      end
                  end
              end
          end
        else qtaguid_sum rx tx rest
      else qtaguid_sum rx tx rest
  end.

Definition net_usage (rx_speed tx_speed rx_total tx_total : Q) : dict :=
  {[ "rx_speed" := PNum rx_speed; "tx_speed" := PNum tx_speed;
     "rx_total" := PNum rx_total; "tx_total" := PNum tx_total ]}.

Definition net_zero : dict := net_usage 0 0 0 0.

(** Lines 207-227. [Some d] is the [return] inside the [try]; [None]
    leaves the block after the baseline is stored. *)
Definition network_delta (e : Env) (rx tx : Z)
  : M AndroidCollector (option dict) :=
  let current_data := {| rx_bytes := rx; tx_bytes := tx; timestamp := now e |} in
  c <~ mget;
  let store := mmodify (set_last_network_data current_data) in
  match last_network_data c with
  | Some last =>
      let time_diff := (timestamp current_data - timestamp last)%Q in
      if Qlt_bool 0 time_diff then
        let rx_speed := (inject_Z (rx - rx_bytes last) / time_diff / 1024)%Q in
        let tx_speed := (inject_Z (tx - tx_bytes last) / time_diff / 1024)%Q in
        store ;>
        mret (Some (net_usage rx_speed tx_speed
                      (inject_Z rx / 1024) (inject_Z tx / 1024)))
      else store ;> mret None
  | None => store ;> mret None
  end.

Definition collect_network_body (e : Env)
  : M AndroidCollector (option dict) :=
  ensure_pid e ;>
  c <~ mget;
  match pid_value c with
  | Some p =>
      uid_output <~ execute_adb e ("shell cat /proc/" ++ p ++ "/status");
      uid <~ lift_result (find_uid (lines uid_output));
      match uid with
      | Some u =>
          if PyStr.truthy u then
            rx_output <~ execute_adb e
              ("shell cat /proc/net/xt_qtaguid/stats | grep " ++ u);
            totals <~ lift_result (qtaguid_sum 0 0 (lines rx_output));
            network_delta e (fst totals) (snd totals)
          else mret None
      | None => mret None
      end
  | None => mret None
  end.

Definition collect_network (e : Env) (c : AndroidCollector)
  : dict * AndroidCollector :=
  match run_total (collect_network_body e) None c with
  | (Some d, c') => (d, c')
  | (None, c') => (net_zero, c')
  end.

(** *** FPS *)

(** The loop over the [gfxinfo] lines: [frame_times] when it ends. *)
Fixpoint frame_scan (in_frame_stats : bool) (frame_times : list Q)
  (ls : list string) : list Q :=
  match ls with
  | [] => frame_times
  | line :: rest =>
      if PyStr.contains "Total frames rendered:" line
      then frame_scan true frame_times rest
      else
        let after (ft : list Q) :=
          if (120 <=? length ft)%nat then ft
          else frame_scan in_frame_stats ft rest in
        if in_frame_stats && PyStr.truthy (PyStr.strip line) then
          match index (PyStr.split (PyStr.strip line)) 0 with
          | Raise _ => frame_scan in_frame_stats frame_times rest
          | Ret tok =>
              match float tok with
              | Raise _ => frame_scan in_frame_stats frame_times rest
              | Ret time_value =>
                  if Qlt_bool 0 time_value
                  then after (frame_times ++ [time_value])%list
                  else after frame_times
              end
          end
        else after frame_times
  end.

(** [frame_times] as [collect_fps] has it after its loop. *)
Definition frame_times_of (output : string) : list Q :=
  frame_scan false [] (lines output).

(** [min(fps, 60.0)] *)
Definition cap60 (fps : Q) : Q := if Qlt_bool 60 fps then 60%Q else fps.

(** Lines 262-266; [None] when no [return] is reached. *)
Definition fps_of_frames (frame_times : list Q) : option Q :=
  match frame_times with
  | [] => None
  | _ =>
      let recent := lastn 60 frame_times in
      let avg_frame_time := (Qsum recent / Qlen recent)%Q in
      if Qlt_bool 0 avg_frame_time
      then Some (cap60 (1000 / avg_frame_time)%Q)
      else None
  end.

Definition collect_fps_body (e : Env) : M AndroidCollector Q :=
  c <~ mget;
  if negb (PyStr.truthy (package_name c)) then mret 0%Q
  else
    output <~ execute_adb e ("shell dumpsys gfxinfo " ++ package_name c);
    match fps_of_frames (frame_times_of output) with
    | Some fps => mret fps
    | None => mret 0%Q
    end.

Definition collect_fps (e : Env) (c : AndroidCollector)
  : Q * AndroidCollector :=
  run_total (collect_fps_body e) 0%Q c.

(** *** Battery, GPU, thermal *)

(** [line.split(':')[1].strip()] *)
Definition after_colon (line : string) : result string :=
  match index (PyStr.split_on ":" line) 1 with
  | Ret v => Ret (PyStr.strip v)
  | Raise e => Raise e
  end.

Definition int_after_colon (line : string) : result Z :=
  match after_colon line with
  | Ret v => int v
  | Raise e => Raise e
  end.

Fixpoint battery_scan (battery_info : dict) (ls : list string)
  : result dict :=
  match ls with
  | [] => Ret battery_info
  | raw :: rest =>
      let line := PyStr.strip raw in
      let store_int (key : string) (conv : Z -> Q) :=
        match int_after_colon line with
        | Ret v => battery_scan (<[key := PNum (conv v)]> battery_info) rest
        | Raise e => Raise e
        end in
      if PyStr.contains "level:" line then store_int "level" inject_Z
      else if PyStr.contains "temperature:" line
      then store_int "temperature" (fun v => inject_Z v / 10)%Q
      else if PyStr.contains "voltage:" line then store_int "voltage" inject_Z
      else if PyStr.contains "current now:" line then store_int "current" inject_Z
      else if PyStr.contains "status:" line then
        match after_colon line with
        | Ret v => battery_scan (<["status" := PStr v]> battery_info) rest
        | Raise e => Raise e
        end
      else battery_scan battery_info rest
  end.

(** Lines 291-292. *)
Definition battery_power (battery_info : dict) : result dict :=
  match battery_info !! "voltage", battery_info !! "current" with
  | Some v, Some i =>
      match v, i with
      | PNum voltage, PNum current =>
          Ret (<["power" := PNum (Qabs (voltage * current / 1000000))]> battery_info)
      | _, _ => Raise TypeError
      end
  | _, _ => Ret battery_info
  end.

Definition collect_battery_body (e : Env) : M AndroidCollector dict :=
  output <~ execute_adb e "shell dumpsys battery";
  battery_info <~ lift_result (battery_scan ∅ (lines output));
  lift_result (battery_power battery_info).

Definition collect_battery (e : Env) (c : AndroidCollector)
  : dict * AndroidCollector :=
  run_total (collect_battery_body e) ∅ c.

(** [busy_time, total_time = map(int, tokens)] *)
Definition two_ints (tokens : list string) : result (Z * Z) :=
  match tokens with
  | [a; b] =>
      match int a with
      | Raise e => Raise e
      | Ret x => match int b with
                 | Raise e => Raise e
                 | Ret y => Ret (x, y)
                 end
      end
  | _ => Raise (ValueError "")
  end.

(** [re.search(r'(\d+)%', s).group(1)] *)
Fixpoint search_percent_chars (l : list ascii) : option string :=
  match l with
  | [] => None
  | c :: l' =>
      if PyStr.is_digit c then
        let digits := PyStr.take_digits l in
        match skipn (length digits) l with
        | "%"%char :: _ => Some (PyStr.text digits)
        | _ => search_percent_chars l'
        end
      else search_percent_chars l'
  end.
Definition search_percent (s : string) : option string :=
  search_percent_chars (PyStr.chars s).

Definition collect_gpu_body (e : Env) : M AndroidCollector Q :=
  catch
    (output <~ execute_adb e "shell cat /sys/class/kgsl/kgsl-3d0/gpubusy";
     if PyStr.truthy output then
       t <~ lift_result (two_ints (PyStr.split output));
       let '(busy_time, total_time) := t in
       if 0 <? total_time
       then mret (inject_Z busy_time / inject_Z total_time * 100)%Q
       else mret 0%Q
     else mret 0%Q)
    (fun _ =>
       catch
         (output <~ execute_adb e "shell cat /proc/mali/utilization";
          if PyStr.truthy output && PyStr.contains "%" output then
            match search_percent output with
            | Some m => mret (float_of_digits m)
            | None => mret 0%Q
            end
          else mret 0%Q)
         (fun _ => mret 0%Q)).

Definition collect_gpu (e : Env) (c : AndroidCollector)
  : Q * AndroidCollector :=
  run_total (collect_gpu_body e) 0%Q c.

Fixpoint zone_temperatures (ls : list string) : list Q :=
  match ls with
  | [] => []
  | line :: rest =>
      if PyStr.isdigit (PyStr.strip line)
      then (float_of_digits (PyStr.strip line) / 1000)%Q :: zone_temperatures rest
      else zone_temperatures rest
  end.

Definition collect_thermal_body (e : Env) : M AndroidCollector dict :=
  thermal_info <~
    catch
      (output <~ execute_adb e "shell cat /sys/class/thermal/thermal_zone*/temp";
       match zone_temperatures (lines output) with
       | [] => mret (∅ : dict)
       | t :: ts => mret ({[ "cpu_temp" := PNum (py_max t ts) ]} : dict)
       end)
      (fun _ => mret ∅);
  battery_info <~ (fun c => let '(b, c') := collect_battery e c in (Ret b, c'));
  match battery_info !! "temperature" with
  | Some t => mret (<["battery_temp" := t]> thermal_info)
  | None => mret thermal_info
  end.

Definition collect_thermal (e : Env) (c : AndroidCollector)
  : dict * AndroidCollector :=
  run_total (collect_thermal_body e) ∅ c.

(** The durations that one call of [collect_fps] retains. *)
Definition retained_frames (e : Env) (c : AndroidCollector) : list Q :=
  if PyStr.truthy (package_name c) then
    match device e ("shell dumpsys gfxinfo " ++ package_name c) with
    | Ret output => frame_times_of output
    | Raise _ => []
    end
  else [].

End WithFloat.

(** *** What a call observes on the device *)

(** No process id is known after the lookup step of a call. *)
Definition no_pid (e : Env) (c : AndroidCollector) : Prop :=
  pid (snd (ensure_pid e c)) = None.

(** The cumulative [(total, idle)] tick counters read from [/proc/stat]. *)
Definition proc_stat_counters (e : Env) : option (Z * Z) :=
  match device e "shell cat /proc/stat" with
  | Ret output =>
      match cpu_line (lines output) with
      | Some line =>
          match cpu_counters line with
          | Ret counters => Some counters
          | Raise _ => None
          end
      | None => None
      end
  | Raise _ => None
  end.

(** The cumulative [(rx_bytes, tx_bytes)] counters read for process [p]. *)
Definition net_counters (e : Env) (p : string) : option (Z * Z) :=
  match device e ("shell cat /proc/" ++ p ++ "/status") with
  | Ret uid_output =>
      match find_uid (lines uid_output) with
      | Ret (Some u) =>
          if PyStr.truthy u then
            match device e ("shell cat /proc/net/xt_qtaguid/stats | grep " ++ u) with
            | Ret rx_output =>
                match qtaguid_sum 0 0 (lines rx_output) with
                | Ret totals => Some totals
                | Raise _ => None
                end
            | Raise _ => None
            end
          else None
      | _ => None
      end
  | Raise _ => None
  end.

End Android.

(** ** PerformanceData *)

Record PerformanceData : Type :=
  { timestamp : Q;
    cpu_usage : Q;
    memory_usage : Q;
    memory_detail : dict;
    network_usage : dict;
    fps : Q;
    battery_info : dict;
    gpu_usage : Q;
    thermal_info : dict;
    jank_info : dict }.

(** [PerformanceData()] at clock reading [stamp]. *)
Definition new_PerformanceData (stamp : Q) : PerformanceData :=
  {| timestamp := stamp; cpu_usage := 0; memory_usage := 0;
     memory_detail := ∅; network_usage := ∅; fps := 0;
     battery_info := ∅; gpu_usage := 0; thermal_info := ∅; jank_info := ∅ |}.

Definition set_cpu_usage (v : Q) (d : PerformanceData) : PerformanceData :=
  {| timestamp := timestamp d; cpu_usage := v; memory_usage := memory_usage d;
     memory_detail := memory_detail d; network_usage := network_usage d;
     fps := fps d; battery_info := battery_info d; gpu_usage := gpu_usage d;
     thermal_info := thermal_info d; jank_info := jank_info d |}.
Definition set_memory_usage (v : Q) (d : PerformanceData) : PerformanceData :=
  {| timestamp := timestamp d; cpu_usage := cpu_usage d; memory_usage := v;
     memory_detail := memory_detail d; network_usage := network_usage d;
     fps := fps d; battery_info := battery_info d; gpu_usage := gpu_usage d;
     thermal_info := thermal_info d; jank_info := jank_info d |}.
Definition set_memory_detail (v : dict) (d : PerformanceData) : PerformanceData :=
  {| timestamp := timestamp d; cpu_usage := cpu_usage d;
     memory_usage := memory_usage d;
     memory_detail := v; network_usage := network_usage d;
     fps := fps d; battery_info := battery_info d; gpu_usage := gpu_usage d;
     thermal_info := thermal_info d; jank_info := jank_info d |}.
Definition set_network_usage (v : dict) (d : PerformanceData) : PerformanceData :=
  {| timestamp := timestamp d; cpu_usage := cpu_usage d;
     memory_usage := memory_usage d;
     memory_detail := memory_detail d; network_usage := v;
     fps := fps d; battery_info := battery_info d; gpu_usage := gpu_usage d;
     thermal_info := thermal_info d; jank_info := jank_info d |}.
Definition set_fps (v : Q) (d : PerformanceData) : PerformanceData :=
  {| timestamp := timestamp d; cpu_usage := cpu_usage d;
     memory_usage := memory_usage d;
     memory_detail := memory_detail d; network_usage := network_usage d;
     fps := v; battery_info := battery_info d; gpu_usage := gpu_usage d;
     thermal_info := thermal_info d; jank_info := jank_info d |}.
Definition set_battery_info (v : dict) (d : PerformanceData) : PerformanceData :=
  {| timestamp := timestamp d; cpu_usage := cpu_usage d;
     memory_usage := memory_usage d;
     memory_detail := memory_detail d; network_usage := network_usage d;
     fps := fps d; battery_info := v; gpu_usage := gpu_usage d;
     thermal_info := thermal_info d; jank_info := jank_info d |}.
Definition set_gpu_usage (v : Q) (d : PerformanceData) : PerformanceData :=
  {| timestamp := timestamp d; cpu_usage := cpu_usage d;
     memory_usage := memory_usage d;
     memory_detail := memory_detail d; network_usage := network_usage d;
     fps := fps d; battery_info := battery_info d; gpu_usage := v;
     thermal_info := thermal_info d; jank_info := jank_info d |}.
Definition set_thermal_info (v : dict) (d : PerformanceData) : PerformanceData :=
  {| timestamp := timestamp d; cpu_usage := cpu_usage d;
     memory_usage := memory_usage d;
     memory_detail := memory_detail d; network_usage := network_usage d;
     fps := fps d; battery_info := battery_info d; gpu_usage := gpu_usage d;
     thermal_info := v; jank_info := jank_info d |}.

(** ** The collector capabilities

    [DataCollector] holds an [AndroidCollector] or an [IOSCollector] and
    calls its methods by name. A capability that the class does not define
    is [None]: calling it raises [AttributeError], and [hasattr] tests it.
    [IOSCollector] defines cpu, memory, network, fps and battery only. *)

Class Collector (C : Type) : Type :=
  { cap_collect_cpu : option (Env -> M C Q);
    cap_collect_memory : option (Env -> M C Q);
    cap_collect_memory_detail : option (Env -> M C dict);
    cap_collect_network : option (Env -> M C dict);
    cap_collect_fps : option (Env -> M C Q);
    cap_collect_battery : option (Env -> M C dict);
    cap_collect_gpu : option (Env -> M C Q);
    cap_collect_thermal : option (Env -> M C dict) }.

(** [self.collector.<name>()] *)
Definition call {C A} (name : string) (cap : option (Env -> M C A)) (e : Env)
  : M C A :=
  match cap with
  | Some f => f e
  | None => mraise (AttributeError name)
  end.

(** [hasattr(self.collector, name)] *)
Definition hasattr {C A} (cap : option (Env -> M C A)) : bool :=
  match cap with Some _ => true | None => false end.

(** A method that always returns. *)
Definition returns {C A} (f : Env -> C -> A * C) : option (Env -> M C A) :=
  Some (fun e c => let '(a, c') := f e c in (Ret a, c')).

Definition android_collector (py_float : string -> option Q)
  : Collector Android.AndroidCollector :=
  {| cap_collect_cpu := returns (Android.collect_cpu py_float);
     cap_collect_memory := returns Android.collect_memory;
     cap_collect_memory_detail := returns Android.collect_memory_detail;
     cap_collect_network := returns Android.collect_network;
     cap_collect_fps := returns (Android.collect_fps py_float);
     cap_collect_battery := returns Android.collect_battery;
     cap_collect_gpu := returns Android.collect_gpu;
     cap_collect_thermal := returns Android.collect_thermal |}.

(** ** Configuration

    The entries of the global [config] read by the sampling engine, with
    [config.get(key, default)] as a field. *)

Record Config : Type :=
  { monitoring_interval : Q;
    data_buffer_size : Z;
    alert_cpu_threshold : Q;
    alert_memory_threshold : Q;
    alert_fps_threshold : Q;
    alert_battery_temp_threshold : Q }.

Definition default_config : Config :=
  {| monitoring_interval := 1;
     data_buffer_size := 1000;
     alert_cpu_threshold := 80;
     alert_memory_threshold := 80;
     alert_fps_threshold := 30;
     alert_battery_temp_threshold := 45 |}.

(** What a call typed [Any] returns: [None], a number or a dictionary. *)
Inductive pyobj : Type :=
| PyNone
| PyFloat (q : Q)
| PyDict (d : dict).

(** ** DataCollector *)

(** [threading.Thread(target=self._collection_loop, args=(interval, duration))] *)
Record Thread : Type :=
  { th_interval : Q;
    th_duration : option Q;
    started : bool;
    alive : bool }.

(** What one pass of the [while] loop observes of its environment. *)
Record TickEnv : Type :=
  { stop_requested : bool;  (* another thread has cleared [is_collecting] *)
    stamp : Q;              (* [time.time()] inside [PerformanceData()] *)
    env : Env;
    work : Q;               (* the time from the duration check to the call
                               of [time.sleep] *)
    overshoot : Q }.        (* the time from the end of the suspension asked
                               for to the next duration check *)

(** The longest suspension that [time.sleep] accepts: CPython keeps the
    length as a signed 64-bit count of nanoseconds, rounded up. *)
Definition sleep_max : Q := (9223372036854775807 # 1000000000)%Q.

(** [time.sleep(secs)] on the clock: [ValueError] for a negative length,
    [OverflowError] for one above [sleep_max]; otherwise the clock moves on
    by the length and by [late]. *)
Definition time_sleep (secs late : Q) : M Q unit :=
  if Qlt_bool secs 0 then mraise (ValueError "sleep length must be non-negative")
  else if Qlt_bool sleep_max secs then mraise OverflowError
  else mmodify (fun now => (now + secs + late)%Q).

Section DataCollector.

Context {C : Type} {ops : Collector C}.
(** The state that the registered callbacks work on. *)
Context {W : Type}.

Record DataCollector : Type :=
  { collector : C;
    is_collecting : bool;
    collection_thread : option Thread;
    data_buffer : list PerformanceData;
    max_buffer_size : Z;
    callbacks : list (PerformanceData -> M W unit) }.

(** [DataCollector(device, package_name)] once the platform collector is
    chosen. *)
Definition new_DataCollector (cfg : Config) (c : C) : DataCollector :=
  {| collector := c; is_collecting := false; collection_thread := None;
     data_buffer := []; max_buffer_size := data_buffer_size cfg;
     callbacks := [] |}.

Definition set_collector (c : C) (dc : DataCollector) : DataCollector :=
  {| collector := c; is_collecting := is_collecting dc;
     collection_thread := collection_thread dc;
     data_buffer := data_buffer dc; max_buffer_size := max_buffer_size dc;
     callbacks := callbacks dc |}.
Definition set_is_collecting (b : bool) (dc : DataCollector) : DataCollector :=
  {| collector := collector dc; is_collecting := b;
     collection_thread := collection_thread dc;
     data_buffer := data_buffer dc; max_buffer_size := max_buffer_size dc;
     callbacks := callbacks dc |}.
Definition set_collection_thread (t : option Thread) (dc : DataCollector)
  : DataCollector :=
  {| collector := collector dc; is_collecting := is_collecting dc;
     collection_thread := t;
     data_buffer := data_buffer dc; max_buffer_size := max_buffer_size dc;
     callbacks := callbacks dc |}.
Definition set_data_buffer (b : list PerformanceData) (dc : DataCollector)
  : DataCollector :=
  {| collector := collector dc; is_collecting := is_collecting dc;
     collection_thread := collection_thread dc;
     data_buffer := b; max_buffer_size := max_buffer_size dc;
     callbacks := callbacks dc |}.
Definition set_callbacks (cbs : list (PerformanceData -> M W unit))
  (dc : DataCollector) : DataCollector :=
  {| collector := collector dc; is_collecting := is_collecting dc;
     collection_thread := collection_thread dc;
     data_buffer := data_buffer dc; max_buffer_size := max_buffer_size dc;
     callbacks := cbs |}.

Definition add_callback (cb : PerformanceData -> M W unit)
  (dc : DataCollector) : DataCollector :=
  set_callbacks (callbacks dc ++ [cb]) dc.

Local Open Scope py_scope.

(** The [try] block of [collect_single]. *)
Definition collect_single_body (target : string) (e : Env) : M C pyobj :=
  if String.eqb target "cpu" then
    v <~ call "collect_cpu" cap_collect_cpu e; mret (PyFloat v)
  else if String.eqb target "memory" then
    v <~ call "collect_memory" cap_collect_memory e; mret (PyFloat v)
  else if String.eqb target "memory_detail" then
    v <~ call "collect_memory_detail" cap_collect_memory_detail e; mret (PyDict v)
  else if String.eqb target "network" then
    v <~ call "collect_network" cap_collect_network e; mret (PyDict v)
  else if String.eqb target "fps" then
    v <~ call "collect_fps" cap_collect_fps e; mret (PyFloat v)
  else if String.eqb target "battery" then
    v <~ call "collect_battery" cap_collect_battery e; mret (PyDict v)
  else if String.eqb target "gpu" then
    v <~ call "collect_gpu" cap_collect_gpu e; mret (PyFloat v)
  else if String.eqb target "thermal" then
    v <~ call "collect_thermal" cap_collect_thermal e; mret (PyDict v)
  else mraise (ValueError ("Unknown target: " ++ target)).

(** A method of [self.collector] run from a method of [DataCollector]. *)
Definition on_platform {A} (m : M C A) : M DataCollector A :=
  fun dc => let '(r, c') := m (collector dc) in (r, set_collector c' dc).

(** [collect_single]: whatever the block raises is handled by
    [except Exception], which returns [None]. *)
Definition collect_single (target : string) (e : Env) : M DataCollector pyobj :=
  catch (on_platform (collect_single_body target e))
        (fun _ => mret PyNone).

(** [collect_all]: the sample under construction is part of the state, so
    the fields assigned before an exception keep their values. *)
Definition on_collector {A} (m : M C A) : M (PerformanceData * C) A :=
  fun s => let '(r, c') := m (snd s) in (r, (fst s, c')).
Definition assign (f : PerformanceData -> PerformanceData)
  : M (PerformanceData * C) unit :=
  mmodify (fun s => (f (fst s), snd s)).

Definition collect_all_body (e : Env) : M (PerformanceData * C) unit :=
  v <~ on_collector (call "collect_cpu" cap_collect_cpu e);
  assign (set_cpu_usage v) ;>
  v <~ on_collector (call "collect_memory" cap_collect_memory e);
  assign (set_memory_usage v) ;>
  v <~ on_collector (call "collect_memory_detail" cap_collect_memory_detail e);
  assign (set_memory_detail v) ;>
  v <~ on_collector (call "collect_network" cap_collect_network e);
  assign (set_network_usage v) ;>
  v <~ on_collector (call "collect_fps" cap_collect_fps e);
  assign (set_fps v) ;>
  v <~ on_collector (call "collect_battery" cap_collect_battery e);
  assign (set_battery_info v) ;>
  (if hasattr cap_collect_gpu then
     v <~ on_collector (call "collect_gpu" cap_collect_gpu e);
     assign (set_gpu_usage v)
   else mret tt) ;>
  (if hasattr cap_collect_thermal then
     v <~ on_collector (call "collect_thermal" cap_collect_thermal e);
     assign (set_thermal_info v)
   else mret tt).

Definition collect_all (stamp : Q) (e : Env) (c : C) : PerformanceData * C :=
  snd (run_total (collect_all_body e) tt (new_PerformanceData stamp, c)).

(** [start_continuous_collection]: the second component is the thread it
    starts, if any. *)
Definition start_continuous_collection (interval : Q) (duration : option Q)
  (dc : DataCollector) : DataCollector * option Thread :=
  if is_collecting dc then (dc, None)
  else
    let th := {| th_interval := interval; th_duration := duration;
                 started := true; alive := true |} in
    (set_collection_thread (Some th) (set_is_collecting true dc), Some th).

(** The loop thread has returned. *)
Definition finished (th : Thread) : Thread :=
  {| th_interval := th_interval th; th_duration := th_duration th;
     started := started th; alive := false |}.

(** [Thread.join()] from the controlling thread: the loop, which sees
    [is_collecting] cleared at its next test, has returned afterwards. A
    thread that was never started cannot be joined. *)
Definition join (th : Thread) : result Thread :=
  if started th then Ret (finished th)
  else Raise (RuntimeError "cannot join thread before it is started").

Definition stop_continuous_collection : M DataCollector unit :=
  mmodify (set_is_collecting false) ;>
  dc <~ mget;
  match collection_thread dc with
  | Some th =>
      th' <~ lift_result (join th);
      mmodify (set_collection_thread (Some th'))
  | None => mret tt
  end.

(** Lines 585-589: append, then drop the head when over capacity. *)
Definition buffer_push (max_size : Z) (buf : list PerformanceData)
  (data : PerformanceData) : list PerformanceData :=
  let buf' := (buf ++ [data])%list in
  if max_size <? Z.of_nat (length buf') then tl buf' else buf'.

(** Lines 592-596: an exception of a callback is caught and the next
    callback runs. *)
Fixpoint run_callbacks (cbs : list (PerformanceData -> M W unit))
  (data : PerformanceData) (w : W) : W :=
  match cbs with
  | [] => w
  | cb :: rest => run_callbacks rest data (snd (cb data w))
  end.

(** One pass of the loop body after the duration check, up to the
    callbacks (lines 581-596). [collect_all] and the loop over the
    callbacks handle their exceptions themselves; [time.sleep(interval)],
    which ends the [try] block and can raise, is [pause]. *)
Definition tick (t : TickEnv) (dc : DataCollector) (w : W)
  : PerformanceData * DataCollector * W :=
  let '(data, c') := collect_all (stamp t) (env t) (collector dc) in
  let dc' := set_data_buffer
               (buffer_push (max_buffer_size dc) (data_buffer dc) data)
               (set_collector c' dc) in
  (data, dc', run_callbacks (callbacks dc) data w).

(** [duration and (time.time() - start_time) >= duration] *)
Definition duration_elapsed (duration : option Q) (start_time now : Q) : bool :=
  match duration with
  | Some d => negb (Qeq_bool d 0) && Qle_bool d (now - start_time)
  | None => false
  end.

(** The statement after the loop, and the end of the thread. *)
Definition loop_exit (dc : DataCollector) : DataCollector :=
  set_collection_thread (option_map finished (collection_thread dc))
    (set_is_collecting false dc).

(** The end of the thread by an exception that leaves the loop: the
    statement after the loop is not reached. *)
Definition loop_abort (dc : DataCollector) : DataCollector :=
  set_collection_thread (option_map finished (collection_thread dc)) dc.

(** Lines 598-603: the [time.sleep(interval)] that ends the [try] block,
    and the one of the handler that catches its exception. An exception
    of the second leaves the loop. *)
Definition pause (interval : Q) (t : TickEnv) : M Q unit :=
  catch (time_sleep interval (overshoot t))
        (fun _ => time_sleep interval (overshoot t)).

(** The passes of the [while] loop from clock reading [now] on. [sched]
    lists what the successive passes observe. The result holds the samples
    assembled, in order; [None] when the schedule ends before the loop
    does. *)
Fixpoint loop_passes (interval : Q) (duration : option Q)
  (start_time now : Q) (sched : list TickEnv) (dc : DataCollector) (w : W)
  : option (list PerformanceData * DataCollector * W) :=
  if is_collecting dc then
    match sched with
    | [] => None
    | t :: rest =>
        if stop_requested t then Some ([], loop_exit dc, w)
        else if duration_elapsed duration start_time now
        then Some ([], loop_exit dc, w)
        else
          let '(data, dc', w') := tick t dc w in
          match pause interval t (now + work t)%Q with
          | (Ret _, now') =>
              match loop_passes interval duration start_time now' rest dc' w' with
              | Some (samples, dc'', w'') => Some (data :: samples, dc'', w'')
              | None => None
              end
          | (Raise _, _) => Some ([data], loop_abort dc', w')
          end
    end
  else Some ([], loop_exit dc, w).

(** [_collection_loop], entered at clock reading [start_time], which the
    first duration check still reads. *)
Definition _collection_loop (interval : Q) (duration : option Q)
  (start_time : Q) (sched : list TickEnv) (dc : DataCollector) (w : W)
  : option (list PerformanceData * DataCollector * W) :=
  loop_passes interval duration start_time start_time sched dc w.

End DataCollector.

Arguments DataCollector C W : clear implicits.

(** ** AppPerformanceMonitor *)

Module APM.

(** The dictionary appended to [self.alerts]. *)
Record Alert : Type :=
  { alert_timestamp : Q;
    alert_metric : string;
    alert_value : Q;
    alert_threshold : Q;
    alert_message : string }.

(** The attributes of the monitor that its own methods and its callback
    change. Device discovery and logging belong to collaborators. The
    flags of the constructor are read by no method and are left out; one
    of them is stored as [self.collect_all] (line 54) and hides the method
    of that name on every instance. *)
Record Monitor : Type :=
  { package_name : string;
    duration : Z;
    is_monitoring : bool;
    start_time : Q;
    performance_data : list PerformanceData;
    alerts : list Alert }.

Definition set_is_monitoring (b : bool) (m : Monitor) : Monitor :=
  {| package_name := package_name m; duration := duration m;
     is_monitoring := b; start_time := start_time m;
     performance_data := performance_data m; alerts := alerts m |}.
Definition set_start_time (t : Q) (m : Monitor) : Monitor :=
  {| package_name := package_name m; duration := duration m;
     is_monitoring := is_monitoring m; start_time := t;
     performance_data := performance_data m; alerts := alerts m |}.
Definition set_performance_data (l : list PerformanceData) (m : Monitor)
  : Monitor :=
  {| package_name := package_name m; duration := duration m;
     is_monitoring := is_monitoring m; start_time := start_time m;
     performance_data := l; alerts := alerts m |}.
Definition set_alerts (l : list Alert) (m : Monitor) : Monitor :=
  {| package_name := package_name m; duration := duration m;
     is_monitoring := is_monitoring m; start_time := start_time m;
     performance_data := performance_data m; alerts := l |}.

(** [AppPerformanceMonitor.__init__] after a successful [_initialize]. *)
Definition new_Monitor (package : string) (duration : Z) : Monitor :=
  {| package_name := package; duration := duration; is_monitoring := false;
     start_time := 0; performance_data := []; alerts := [] |}.

Section WithCollector.

Context {C : Type} {ops : Collector C}.

(** [str(x)] of a number inside an f-string. *)
Variable format_number : Q -> string.

Variable cfg : Config.

(** The monitor together with [self.collector]. *)
Record AppPerformanceMonitor : Type :=
  { monitor : Monitor;
    collector : option (DataCollector C Monitor) }.

Definition thresholds : gmap string Q :=
  {[ "cpu" := alert_cpu_threshold cfg;
     "memory" := alert_memory_threshold cfg;
     "fps" := alert_fps_threshold cfg;
     "battery_temp" := alert_battery_temp_threshold cfg ]}.

Definition alert_text (metric : string) (value threshold : Q) : string :=
  PyStr.upper metric ++ " " ++
  (if String.eqb metric "fps" then "below" else "above") ++
  " threshold: " ++ format_number value ++ " " ++
  (if String.eqb metric "fps" then "<" else ">") ++ " " ++
  format_number threshold.

(** [_check_alert(metric, value)] at clock reading [t]. *)
Definition _check_alert (t : Q) (metric : string) (value : Q) (m : Monitor)
  : Monitor :=
  match thresholds !! metric with
  | Some threshold =>
      let is_alert :=
        if String.eqb metric "fps" then Qlt_bool value threshold
        else Qlt_bool threshold value in
      if is_alert then
        let alert := {| alert_timestamp := t; alert_metric := metric;
                        alert_value := value; alert_threshold := threshold;
                        alert_message := alert_text metric value threshold |} in
        set_alerts (alerts m ++ [alert])%list m
      else m
  | None => m
  end.

(** A number metric read through [collect_single], [None] replaced by
    0.0, checked against its threshold. A dictionary cannot be compared
    with the threshold. *)
Definition collect_number (target : string) (e : Env) (t : Q)
  (a : AppPerformanceMonitor) : result Q * AppPerformanceMonitor :=
  match collector a with
  | None => (Ret 0%Q, a)
  | Some dc =>
      let '(r, dc') := collect_single target e dc in
      let keep (m : Monitor) := {| monitor := m; collector := Some dc' |} in
      let checked (v : Q) :=
        (Ret v, keep (_check_alert t target v (monitor a))) in
      match r with
      | Ret PyNone => checked 0%Q
      | Ret (PyFloat v) => checked v
      | Ret (PyDict _) => (Raise TypeError, keep (monitor a))
      | Raise x => (Raise x, keep (monitor a))
      end
  end.

Definition collect_cpu := collect_number "cpu".
Definition collect_memory := collect_number "memory".
Definition collect_fps := collect_number "fps".

Definition collect_battery (e : Env) (t : Q) (a : AppPerformanceMonitor)
  : result dict * AppPerformanceMonitor :=
  match collector a with
  | None => (Ret ∅, a)
  | Some dc =>
      let '(r, dc') := collect_single "battery" e dc in
      let keep (m : Monitor) := {| monitor := m; collector := Some dc' |} in
      match r with
      | Ret PyNone => (Ret ∅, keep (monitor a))
      | Ret (PyDict battery_info) =>
          match battery_info !! "temperature" with
          | Some (PNum temperature) =>
              (Ret battery_info,
               keep (_check_alert t "battery_temp" temperature (monitor a)))
          | Some (PStr _) => (Raise TypeError, keep (monitor a))
          | None => (Ret battery_info, keep (monitor a))
          end
      | Ret (PyFloat _) => (Raise TypeError, keep (monitor a))
      | Raise x => (Raise x, keep (monitor a))
      end
  end.

(** [_on_data_collected], the callback that [collect_all] registers. *)
Definition _on_data_collected (data : PerformanceData) : M Monitor unit :=
  mmodify (fun m => set_performance_data (performance_data m ++ [data])%list m).

Local Open Scope py_scope.

Definition stop_monitoring : M AppPerformanceMonitor unit :=
  a <~ mget;
  if negb (is_monitoring (monitor a)) then mret tt
  else
    let m := set_is_monitoring false (monitor a) in
    match collector a with
    | Some dc =>
        let '(r, dc') := stop_continuous_collection dc in
        fun _ => (r, {| monitor := m; collector := Some dc' |})
    | None => fun _ => (Ret tt, {| monitor := m; collector := None |})
    end.

(** The method [collect_all] (lines 279-332), as a call through the class,
    [AppPerformanceMonitor.collect_all(monitor)], runs it; on an instance
    the name gives the constructor's flag, and [monitor.collect_all()]
    raises [TypeError] before any of this. The callback is registered, the
    loop thread runs through [sched] next to the waiting caller, and the
    monitor is stopped. [t_start] and [loop_start] are the clock readings
    of the caller and of the loop; [None] when the schedule ends before
    the loop does. Whatever is raised is handled, and the report is a
    collaborator's. *)
Definition collect_all (t_start loop_start : Q) (sched : list TickEnv)
  (a : AppPerformanceMonitor) : option AppPerformanceMonitor :=
  match collector a with
  | None => Some a
  | Some dc =>
      let dc := add_callback _on_data_collected dc in
      let m := set_start_time t_start (set_is_monitoring true (monitor a)) in
      let interval := monitoring_interval cfg in
      let dur := if 0 <? duration m then Some (inject_Z (duration m)) else None in
      let '(dc, th) := start_continuous_collection interval dur dc in
      let looped :=
        match th with
        | Some _ => _collection_loop interval dur loop_start sched dc m
        | None => Some ([], dc, m)
        end in
      match looped with
      | Some (_, dc', m') =>
          Some (snd (stop_monitoring {| monitor := m'; collector := Some dc' |}))
      | None => None
      end
  end.

Definition stats_dict (mn mx avg count : Q) : dict :=
  {[ "min" := PNum mn; "max" := PNum mx;
     "avg" := PNum avg; "count" := PNum count ]}.

Definition _calculate_stats (values : list Q) : dict :=
  match values with
  | [] => stats_dict 0 0 0 0
  | x :: rest =>
      stats_dict (py_min x rest) (py_max x rest)
                 (Qsum values / Qlen values) (Qlen values)
  end.

(** [[f(d) for d in data if f(d) > 0]] *)
Definition positive_values (f : PerformanceData -> Q)
  (data : list PerformanceData) : list Q :=
  List.filter (Qlt_bool 0) (List.map f data).

(** The dictionary of [get_summary] without its ['device'] entry, which
    copies the device record. *)
Record Summary : Type :=
  { summary_package_name : string;
    summary_duration : Q;
    data_points : nat;
    alerts_count : nat;
    stats_cpu : dict;
    stats_memory : dict;
    stats_fps : dict }.

(** [get_summary] at clock reading [t]; [None] is the empty dictionary. *)
Definition get_summary (t : Q) (m : Monitor) : option Summary :=
  match performance_data m with
  | [] => None
  | _ =>
      let cpu_values := positive_values cpu_usage (performance_data m) in
      let memory_values := positive_values memory_usage (performance_data m) in
      let fps_values := positive_values fps (performance_data m) in
      Some {| summary_package_name := package_name m;
              summary_duration :=
                if Qeq_bool (start_time m) 0 then 0 else t - start_time m;
              data_points := length (performance_data m);
              alerts_count := length (alerts m);
              stats_cpu := _calculate_stats cpu_values;
              stats_memory := _calculate_stats memory_values;
              stats_fps := _calculate_stats fps_values |}
  end.

End WithCollector.

Arguments AppPerformanceMonitor C : clear implicits.

End APM.

(** ** IOSCollector *)

Module IOS.

(** The dictionary kept in [last_network_data]: totals in KB. *)
Record NetData : Type :=
  { rx_total : Q; tx_total : Q; timestamp : Q }.

Record IOSCollector : Type :=
  { package_name : string;
    last_network_data : option NetData }.

(** [IOSCollector(device, package_name)] *)
Definition init (package : string) : IOSCollector :=
  {| package_name := package; last_network_data := None |}.

Definition set_last_network_data (d : NetData) (c : IOSCollector) : IOSCollector :=
  {| package_name := package_name c; last_network_data := Some d |}.

(** [device.execute_ios_command(command)] *)
Definition execute_ios_command (e : Env) (command : string)
  : M IOSCollector string :=
  lift_result (device e command).

Definition lines (output : string) : list string :=
  PyStr.split_on PyStr.newline output.

(** A match of [\d+\.?\d*] at the head of [l], with what follows it. *)
Definition number_prefix (l : list ascii) : option (list ascii * list ascii) :=
  match PyStr.take_digits l with
  | [] => None
  | d1 =>
      match skipn (length d1) l with
      | "."%char :: r =>
          let d2 := PyStr.take_digits r in
          Some ((d1 ++ "."%char :: d2)%list, skipn (length d2) r)
      | r => Some (d1, r)
      end
  end.

(** [re.search(pattern, s).group(1)] for a pattern made of the group
    [\d+\.?\d*] and a suffix, the suffix being given by the test [follows]
    on the text after the number. *)
Fixpoint search_number_chars (follows : list ascii -> bool) (l : list ascii)
  : option string :=
  match l with
  | [] => None
  | _ :: l' =>
      match number_prefix l with
      | Some (m, rest) =>
          if follows rest then Some (PyStr.text m)
          else search_number_chars follows l'
      | None => search_number_chars follows l'
      end
  end.
Definition search_number (follows : list ascii -> bool) (s : string)
  : option string :=
  search_number_chars follows (PyStr.chars s).

(** The suffixes [%], [\s*MB], [\s*fps] and the empty one. *)
Definition then_percent (rest : list ascii) : bool :=
  match rest with "%"%char :: _ => true | _ => false end.
Definition then_unit (unit_name : string) (rest : list ascii) : bool :=
  String.prefix unit_name (PyStr.text (PyStr.lstrip_chars rest)).
Definition then_anything (rest : list ascii) : bool := true.

(** [float(m)] for a match [m] of [\d+\.?\d*]. *)
Definition decimal_value (m : string) : Q :=
  match PyStr.split_on "." m with
  | [i] => Android.float_of_digits i
  | i :: f :: _ =>
      if PyStr.truthy f
      then (Android.float_of_digits i +
            Android.float_of_digits f / inject_Z (10 ^ Z.of_nat (String.length f)))%Q
      else Android.float_of_digits i
  | [] => 0%Q
  end.

(** The loops of [collect_cpu] and [collect_memory]: the first line that
    has the marker and a match. *)
Fixpoint first_match (marker : string) (follows : list ascii -> bool)
  (ls : list string) : option Q :=
  match ls with
  | [] => None
  | line :: rest =>
      if PyStr.contains marker line then
        match search_number follows line with
        | Some m => Some (decimal_value m)
        | None => first_match marker follows rest
        end
      else first_match marker follows rest
  end.

Local Open Scope py_scope.

Definition or_zero (r : option Q) : M IOSCollector Q :=
  match r with Some v => mret v | None => mret 0%Q end.

Definition collect_cpu_body (e : Env) : M IOSCollector Q :=
  c <~ mget;
  if PyStr.truthy (package_name c) then
    output <~ execute_ios_command e ("proc_info " ++ package_name c);
    or_zero (first_match "CPU" then_percent (lines output))
  else
    output <~ execute_ios_command e "sysinfo";
    or_zero (first_match "CPU Usage" then_percent (lines output)).

Definition collect_cpu (e : Env) (c : IOSCollector) : Q * IOSCollector :=
  run_total (collect_cpu_body e) 0%Q c.

Definition collect_memory_body (e : Env) : M IOSCollector Q :=
  c <~ mget;
  if PyStr.truthy (package_name c) then
    output <~ execute_ios_command e ("proc_info " ++ package_name c);
    or_zero (first_match "Memory" (then_unit "MB") (lines output))
  else
    output <~ execute_ios_command e "sysinfo";
    or_zero (first_match "Memory" (then_unit "MB") (lines output)).

Definition collect_memory (e : Env) (c : IOSCollector) : Q * IOSCollector :=
  run_total (collect_memory_body e) 0%Q c.

(** [int(match.group(1)) / 1024] for a match of [\d+]. *)
Definition kilobytes (line : string) (previous : Q) : Q :=
  match PyStr.search_digits line with
  | Some m => (Android.float_of_digits m / 1024)%Q
  | None => previous
  end.

(** The loop over the lines of [network_info]: [(rx_total, tx_total)]. *)
Fixpoint network_totals (rx tx : Q) (ls : list string) : Q * Q :=
  match ls with
  | [] => (rx, tx)
  | line :: rest =>
      if PyStr.contains "RX:" line then network_totals (kilobytes line rx) tx rest
      else if PyStr.contains "TX:" line then network_totals rx (kilobytes line tx) rest
      else network_totals rx tx rest
  end.

Definition collect_network_body (e : Env) : M IOSCollector dict :=
  output <~ execute_ios_command e "network_info";
  let '(rx, tx) := network_totals 0 0 (lines output) in
  let current_time := now e in
  c <~ mget;
  let speeds :=
    match last_network_data c with
    | Some last =>
        let time_diff := (current_time - timestamp last)%Q in
        if Qlt_bool 0 time_diff
        then (((rx - rx_total last) / time_diff)%Q,
              ((tx - tx_total last) / time_diff)%Q)
        else (0%Q, 0%Q)
    | None => (0%Q, 0%Q)
    end in
  mmodify (set_last_network_data
             {| rx_total := rx; tx_total := tx; timestamp := current_time |}) ;>
  mret (Android.net_usage (fst speeds) (snd speeds) rx tx).

Definition collect_network (e : Env) (c : IOSCollector) : dict * IOSCollector :=
  run_total (collect_network_body e) Android.net_zero c.

Definition collect_fps_body (e : Env) : M IOSCollector Q :=
  c <~ mget;
  if PyStr.truthy (package_name c) then
    output <~ execute_ios_command e ("fps " ++ package_name c);
    match search_number (then_unit "fps") output with
    | Some m => mret (decimal_value m)
    | None => mret 0%Q
    end
  else mret 0%Q.

Definition collect_fps (e : Env) (c : IOSCollector) : Q * IOSCollector :=
  run_total (collect_fps_body e) 0%Q c.

Section WithLevel.

(** [int(float(m) * 100)] in binary floating point, which the exact
    rationals of the model do not determine. *)
Variable percent_of : string -> Z.

Definition battery_entry (key : string) (follows : list ascii -> bool)
  (conv : string -> Q) (line : string) (d : dict) : dict :=
  match search_number follows line with
  | Some m => <[key := PNum (conv m)]> d
  | None => d
  end.

Fixpoint battery_scan (battery_info : dict) (ls : list string) : dict :=
  match ls with
  | [] => battery_info
  | line :: rest =>
      if PyStr.contains "BatteryLevel" line then
        battery_scan
          (battery_entry "level" then_anything
             (fun m => inject_Z (percent_of m)) line battery_info) rest
      else if PyStr.contains "Temperature" line then
        battery_scan
          (battery_entry "temperature" then_anything decimal_value line
             battery_info) rest
      else if PyStr.contains "Voltage" line then
        battery_scan
          (match PyStr.search_digits line with
           | Some m => <["voltage" := PNum (Android.float_of_digits m)]> battery_info
           | None => battery_info
           end) rest
      else battery_scan battery_info rest
  end.

Definition collect_battery_body (e : Env) : M IOSCollector dict :=
  output <~ execute_ios_command e "battery";
  mret (battery_scan ∅ (lines output)).

Definition collect_battery (e : Env) (c : IOSCollector) : dict * IOSCollector :=
  run_total (collect_battery_body e) ∅ c.

End WithLevel.

End IOS.

(** The capabilities of [IOSCollector]: it has no [collect_memory_detail],
    [collect_gpu] or [collect_thermal]. *)
Definition ios_collector (percent_of : string -> Z) : Collector IOS.IOSCollector :=
  {| cap_collect_cpu := returns IOS.collect_cpu;
     cap_collect_memory := returns IOS.collect_memory;
     cap_collect_memory_detail := None;
     cap_collect_network := returns IOS.collect_network;
     cap_collect_fps := returns IOS.collect_fps;
     cap_collect_battery := returns (IOS.collect_battery percent_of);
     cap_collect_gpu := None;
     cap_collect_thermal := None |}.

(** ** DataCollector: reading the buffer *)

(** [l[start:]] for an integer [start], negative ones counting from the
    end. *)
Definition slice_from {A} (start : Z) (l : list A) : list A :=
  let n := Z.of_nat (length l) in
  let first := if start <? 0 then Z.max (n + start) 0 else Z.min start n in
  skipn (Z.to_nat first) l.

Section DataCollectorBuffer.

Context {C : Type} {W : Type}.

(** [get_recent_data(count)] *)
Definition get_recent_data (count : Z) (dc : DataCollector C W)
  : list PerformanceData :=
  if count <=? Z.of_nat (length (data_buffer dc))
  then slice_from (- count) (data_buffer dc)
  else data_buffer dc.

(** [clear_buffer()] *)
Definition clear_buffer (dc : DataCollector C W) : DataCollector C W :=
  set_data_buffer [] dc.

End DataCollectorBuffer.

(** ** PerformanceService *)

Module Service.

Section WithCollector.

Context {C : Type} {ops : Collector C}.

(** [self.monitors] is a dictionary: the pairs are in insertion order and
    an identifier occurs once. *)
Record PerformanceService : Type :=
  { monitors : list (string * APM.AppPerformanceMonitor C);
    is_running : bool }.

(** [PerformanceService()] *)
Definition new_service : PerformanceService :=
  {| monitors := []; is_running := false |}.

(** [self.monitors.get(monitor_id)] *)
Definition get_monitor (monitor_id : string) (s : PerformanceService)
  : option (APM.AppPerformanceMonitor C) :=
  option_map snd
    (List.find (fun p => String.eqb (fst p) monitor_id) (monitors s)).

(** [list(self.monitors.keys())] *)
Definition list_monitors (s : PerformanceService) : list string :=
  List.map fst (monitors s).

(** [del d[monitor_id]] *)
Definition remove_entry (monitor_id : string)
  (l : list (string * APM.AppPerformanceMonitor C))
  : list (string * APM.AppPerformanceMonitor C) :=
  List.filter (fun p => negb (String.eqb (fst p) monitor_id)) l.

(** The object stored under [monitor_id] after one of its methods ran. *)
Definition replace_entry (monitor_id : string) (m : APM.AppPerformanceMonitor C)
  (l : list (string * APM.AppPerformanceMonitor C))
  : list (string * APM.AppPerformanceMonitor C) :=
  List.map (fun p => if String.eqb (fst p) monitor_id then (fst p, m) else p) l.

(** [start_monitor]: [created] is what the constructor of
    [AppPerformanceMonitor] gives when it is called, a monitor or the
    exception of a failed initialisation. *)
Definition start_monitor (monitor_id : string)
  (created : result (APM.AppPerformanceMonitor C)) (s : PerformanceService)
  : bool * PerformanceService :=
  match get_monitor monitor_id s with
  | Some _ => (false, s)
  | None =>
      match created with
      | Ret m =>
          (true, {| monitors := (monitors s ++ [(monitor_id, m)])%list;
                    is_running := true |})
      | Raise _ => (false, s)
      end
  end.

(** [stop_monitor] *)
Definition stop_monitor (monitor_id : string) (s : PerformanceService)
  : bool * PerformanceService :=
  match get_monitor monitor_id s with
  | None => (false, s)
  | Some m =>
      match APM.stop_monitoring m with
      | (Ret _, _) =>
          let rest := remove_entry monitor_id (monitors s) in
          (true, {| monitors := rest;
                    is_running :=
                      match rest with [] => false | _ => is_running s end |})
      | (Raise _, m') =>
          (false, {| monitors := replace_entry monitor_id m' (monitors s);
                     is_running := is_running s |})
      end
  end.

(** [stop_all] *)
Definition stop_all (s : PerformanceService) : PerformanceService :=
  let s' := fold_left (fun acc monitor_id => snd (stop_monitor monitor_id acc))
              (list_monitors s) s in
  {| monitors := monitors s'; is_running := false |}.

End WithCollector.

Arguments PerformanceService C : clear implicits.

End Service.

(** ** Config

    The configuration is a tree of values. [Config.get] returns and
    [Config.set] stores the dictionary object itself, so that one
    dictionary can come to sit under two keys; such sharing, and what a
    [set] under one of the keys then does to the other, is outside this
    model. *)

Module ConfigStore.

Section WithLeaves.

(** The values that are not dictionaries. *)
Variable A : Type.

#[warnings="-register-all"]
Inductive value : Type :=
| Leaf (a : A)
| Dict (d : gmap string value).

(** [value = value[k]] for each key in turn; [None] when it raises
    [KeyError] (no such key) or [TypeError] (not a dictionary). *)
Fixpoint lookup_path (keys : list string) (v : value) : option value :=
  match keys with
  | [] => Some v
  | k :: rest =>
      match v with
      | Dict d =>
          match d !! k with
          | Some v' => lookup_path rest v'
          | None => None
          end
      | Leaf _ => None
      end
  end.

(** [Config.get(key, default)] *)
Definition get (key : string) (default : value) (config : gmap string value)
  : value :=
  match lookup_path (PyStr.split_on "." key) (Dict config) with
  | Some v => v
  | None => default
  end.

(** The body of [Config.set] on the dictionary [config], which is changed
    in place: a missing key on the way gets an empty dictionary before the
    descent, and a value that is not a dictionary raises [TypeError]. *)
Fixpoint set_path (keys : list string) (v : value) (config : gmap string value)
  : result unit * gmap string value :=
  match keys with
  | [] => (Raise IndexError, config)
  | [k] => (Ret tt, <[k := v]> config)
  | k :: rest =>
      match config !! k with
      | None =>
          let '(r, child) := set_path rest v ∅ in
          (r, <[k := Dict child]> config)
      | Some (Dict child) =>
          let '(r, child') := set_path rest v child in
          (r, <[k := Dict child']> config)
      | Some (Leaf _) => (Raise TypeError, config)
      end
  end.

(** [Config.set(key, value, save)]; writing the file is a collaborator's. *)
Definition set (key : string) (v : value) : M (gmap string value) unit :=
  set_path (PyStr.split_on "." key) v.

End WithLeaves.

Arguments Leaf {A} a.
Arguments Dict {A} d.
Arguments lookup_path {A} keys v.
Arguments get {A} key default config.
Arguments set_path {A} keys v config.
Arguments set {A} key v.

End ConfigStore.

(** ** Specification vocabulary *)

(** The arithmetic mean of a list. *)
Definition mean (l : list Q) : Q := (Qsum l / Qlen l)%Q.

(** Frame durations that are all positive. *)
Definition positive_durations (l : list Q) : Prop :=
  Forall (fun t => (0 < t)%Q) l.

(** The sum of a list, by recursion on it. *)
Fixpoint total (l : list Q) : Q :=
  match l with
  | [] => 0%Q
  | x :: l' => (x + total l')%Q
  end.


(** Every thread held by the collector went through [start()]. *)
Definition thread_started {C W} (dc : DataCollector C W) : Prop :=
  forall th, collection_thread dc = Some th -> started th = true.

(** No collection is running. *)
Definition idle {C W} (dc : DataCollector C W) : Prop :=
  is_collecting dc = false /\
  forall th, collection_thread dc = Some th -> started th = true /\ alive th = false.

(** The eight metric targets. *)
Definition known_target (target : string) : Prop :=
  In target ["cpu"; "memory"; "memory_detail"; "network"; "fps"; "battery";
             "gpu"; "thermal"].

(** The device fails every command of the call. *)
Definition silent (e : Env) : Prop :=
  forall command, exists x, device e command = Raise x.

(** The invariant of the monitor registry: identifiers are distinct, and
    the service runs only while it holds a monitor. *)
Definition service_ok {C} (s : Service.PerformanceService C) : Prop :=
  NoDup (Service.list_monitors s) /\
  (Service.is_running s = true -> Service.monitors s <> []).

(** What the loop of [collect_battery] can have stored: no power, and
    numbers under ['voltage'] and ['current']. *)
Definition battery_scanned (d : dict) : Prop :=
  d !! "power" = None /\
  (forall x, d !! "voltage" = Some x -> exists q, x = PNum q) /\
  (forall x, d !! "current" = Some x -> exists q, x = PNum q).

(** The four numeric markers of [dumpsys battery]. *)
Definition numeric_battery_line (line : string) : bool :=
  PyStr.contains "level:" line || PyStr.contains "temperature:" line ||
  PyStr.contains "voltage:" line || PyStr.contains "current now:" line.

(** ** Devices and readers used in the examples *)

Module Fixtures.

(** A reader of unsigned decimal literals such as ["16.5"]. *)
Definition dec_float (s : string) : option Q :=
  match PyStr.split_on "." s with
  | [i] =>
      if PyStr.isdigit i then option_map inject_Z (PyStr.int i) else None
  | [i; f] =>
      if PyStr.isdigit i && PyStr.isdigit f then
        match PyStr.int i, PyStr.int f with
        | Some a, Some b =>
            Some (inject_Z a + inject_Z b / inject_Z (10 ^ Z.of_nat (String.length f)))%Q
        | _, _ => None
        end
      else None
  | _ => None
  end.

Definition nl : string := String PyStr.newline "".

(** A device that answers one command and fails every other one. *)
Definition answers (command output : string) : Device :=
  fun cmd => if String.eqb cmd command then Ret output
             else Raise (RuntimeError "ADB command failed").

(** A device that fails every command. *)
Definition unreachable : Device :=
  fun _ => Raise (RuntimeError "ADB command timeout").

Definition proc_stat (user idle_ticks : string) : Device :=
  answers "shell cat /proc/stat"
    ("cpu  " ++ user ++ " 0 0 " ++ idle_ticks ++ " 0 0 0" ++ nl ++ "cpu0 1 2 3 4").

(** A device with process 4242 of uid 10123 and one traffic row. *)
Definition traffic (rx tx : string) : Device :=
  fun cmd =>
    if String.eqb cmd "shell cat /proc/4242/status"
    then Ret ("Name:   app" ++ nl ++ "Uid:    10123   10123   10123")
    else if String.eqb cmd "shell cat /proc/net/xt_qtaguid/stats | grep 10123"
    then Ret ("2 wlan0 0x0 10123 0 " ++ rx ++ " 10 " ++ tx ++ " 12")
    else Raise (RuntimeError "ADB command failed").

Definition gfxinfo (package : string) (rows : list string) : Device :=
  answers ("shell dumpsys gfxinfo " ++ package)
    (fold_right (fun r acc => r ++ nl ++ acc) "" ("Total frames rendered: 3" :: rows)).

Definition at_time (d : Device) (t : Q) : Env := {| device := d; now := t |}.

Definition with_pid (p : string) : Android.AndroidCollector :=
  Android.set_pid p (Android.init "com.example.app").


(** The Android capabilities with [dec_float] for [float]. *)
#[global] Instance android : Collector Android.AndroidCollector :=
  android_collector dec_float.

Definition config_with_buffer (capacity : Z) : Config :=
  {| monitoring_interval := monitoring_interval default_config;
     data_buffer_size := capacity;
     alert_cpu_threshold := alert_cpu_threshold default_config;
     alert_memory_threshold := alert_memory_threshold default_config;
     alert_fps_threshold := alert_fps_threshold default_config;
     alert_battery_temp_threshold := alert_battery_temp_threshold default_config |}.

(** A collector without subscriber, with a buffer of [capacity] samples,
    after [start_continuous_collection(1.0)]. *)
Definition running_collector (capacity : Z)
  : DataCollector Android.AndroidCollector unit :=
  fst (start_continuous_collection 1 None
         (new_DataCollector (config_with_buffer capacity) (Android.init ""))).

(** A pass of the loop whose sample is stamped [t], the device being
    silent. In the passes of these examples the work takes no time and
    the suspension lasts as long as asked. *)
Definition pass (t : Q) : TickEnv :=
  {| stop_requested := false; stamp := t; env := at_time unreachable t;
     work := 0; overshoot := 0 |}.

(** A pass that finds [is_collecting] cleared. *)
Definition stop_at (t : Q) : TickEnv :=
  {| stop_requested := true; stamp := t; env := at_time unreachable t;
     work := 0; overshoot := 0 |}.

(** A pass of the loop whose sample is stamped [t], on device [d]. *)
Definition reading (d : Device) (t : Q) : TickEnv :=
  {| stop_requested := false; stamp := t; env := at_time d t;
     work := 0; overshoot := 0 |}.

(** A number printed by its integer part. *)
Definition show_floor (q : Q) : string :=
  NilEmpty.string_of_int (Z.to_int (Qfloor q)).

(** A monitor of the whole device, as [AppPerformanceMonitor("")] leaves
    it after initialisation. *)
Definition device_monitor : APM.AppPerformanceMonitor Android.AndroidCollector :=
  {| APM.monitor := APM.new_Monitor "" 0;
     APM.collector := Some (new_DataCollector default_config (Android.init "")) |}.

(** A monitor of one application on an Android device. *)
Definition app_monitor : APM.AppPerformanceMonitor Android.AndroidCollector :=
  {| APM.monitor := APM.new_Monitor "com.example.app" 0;
     APM.collector :=
       Some (new_DataCollector default_config (Android.init "com.example.app")) |}.

(** Answers of [dumpsys battery], [/proc/meminfo], the GPU files and [top]. *)
Definition battery_device : Device :=
  answers "shell dumpsys battery"
    ("Current Battery Service state:" ++ nl ++ "  level: 85" ++ nl ++
     "  status: 2" ++ nl ++ "  voltage: 4200" ++ nl ++
     "  temperature: 312" ++ nl ++ "  current now: -500").

Definition meminfo_device : Device :=
  answers "shell cat /proc/meminfo"
    ("MemTotal:  4096 kB" ++ nl ++ "MemFree: 100 kB" ++ nl ++
     "MemAvailable: 1024 kB").

Definition kgsl_device : Device :=
  answers "shell cat /sys/class/kgsl/kgsl-3d0/gpubusy" "  250  1000".

Definition mali_device : Device :=
  answers "shell cat /proc/mali/utilization" "gpu util 37% busy".

Definition top_device : Device :=
  fun cmd =>
    if String.eqb cmd "shell pidof com.example.app" then Ret "4242 4300"
    else if String.eqb cmd "shell top -p 4242 -n 1"
    then Ret ("Tasks: 1 total" ++ nl ++
              " 4242 u0_a1 10 -10 1.2G 100M 50M S 12.5% 3.1 0:01.00 com.example.app")
    else Raise (RuntimeError "ADB command failed").

(** A configuration with the one entry [server.port]. *)
Definition small_config : gmap string (ConfigStore.value Z) :=
  <["server" := ConfigStore.Dict (<["port" := ConfigStore.Leaf 8080%Z]> ∅)]> ∅.

End Fixtures.

(** * Properties *)

(** ** The model on concrete text *)

Example split_on_ex :
  PyStr.split_on PyStr.newline (String "a" (String PyStr.newline "")) = ["a"; ""].
Proof. reflexivity. Qed.
Example split_ex : PyStr.split "  cpu  12 3 " = ["cpu"; "12"; "3"].
Proof. reflexivity. Qed.
Example int_ex : PyStr.int " -1_000" = Some (-1000).
Proof. reflexivity. Qed.
Example int_bad : PyStr.int "1__0" = None /\ PyStr.int "_1" = None /\ PyStr.int "1_" = None.
Proof. repeat split; reflexivity. Qed.

Example collect_battery_ex :
  map_to_list
    (fst (Android.collect_battery
            (Fixtures.at_time Fixtures.battery_device 0) (Android.init "")))
  = [("status", PStr "2"); ("current", PNum (-500)); ("voltage", PNum 4200);
     ("level", PNum 85); ("temperature", PNum (312 / 10));
     ("power", PNum (Qabs (4200 * -500 / 1000000)))].
Proof. reflexivity. Qed.

Example collect_thermal_ex :
  fst (Android.collect_thermal
         (Fixtures.at_time Fixtures.battery_device 0) (Android.init ""))
  = {[ "battery_temp" := PNum (312 / 10) ]}.
Proof. reflexivity. Qed.

Example collect_memory_ex :
  fst (Android.collect_memory
         (Fixtures.at_time Fixtures.meminfo_device 0) (Android.init ""))
  = (inject_Z (4096 - 1024) / 1024)%Q.
Proof. reflexivity. Qed.

Example collect_gpu_ex :
  fst (Android.collect_gpu
         (Fixtures.at_time Fixtures.kgsl_device 0) (Android.init ""))
  = (250 / 1000 * 100)%Q /\
  fst (Android.collect_gpu
         (Fixtures.at_time Fixtures.mali_device 0) (Android.init ""))
  = 37%Q.
Proof. split; reflexivity. Qed.

Example collect_cpu_process_ex :
  Android.collect_cpu Fixtures.dec_float
    (Fixtures.at_time Fixtures.top_device 0) (Android.init "com.example.app")
  = ((12 + 5 / 10)%Q,
     Android.set_pid "4242" (Android.init "com.example.app")).
Proof. reflexivity. Qed.

Example default_capacity :
  max_buffer_size
    (new_DataCollector (W := unit) default_config (Android.init "")) = 1000.
Proof. reflexivity. Qed.

(** ** Booleans of [Q] *)

Lemma Qlt_bool_iff (x y : Q) : Qlt_bool x y = true <-> (x < y)%Q.
Proof.
  unfold Qlt_bool. rewrite negb_true_iff. split.
  - intros H. apply Qnot_le_lt. intros Hle.
    apply Qle_bool_iff in Hle. congruence.
  - intros H. destruct (Qle_bool y x) eqn:E; [|reflexivity].
    apply Qle_bool_iff in E. exfalso. exact (Qlt_not_le _ _ H E).
Qed.

Lemma Qlt_bool_false_iff (x y : Q) : Qlt_bool x y = false <-> (y <= x)%Q.
Proof.
  unfold Qlt_bool. rewrite negb_false_iff. apply Qle_bool_iff.
Qed.

(** ** Shared facts *)

Lemma lastn_all {A} (n : nat) (l : list A) :
  (length l <= n)%nat -> lastn n l = l.
Proof.
  intros H. unfold lastn. replace (length l - n)%nat with 0%nat by lia.
  reflexivity.
Qed.

Lemma lastn_length {A} (n : nat) (l : list A) :
  length (lastn n l) = Nat.min n (length l).
Proof. unfold lastn. rewrite length_skipn. lia. Qed.

Lemma Qlen_pos {A} (l : list A) : l <> [] -> (0 < Qlen l)%Q.
Proof.
  intros H. unfold Qlen. change 0%Q with (inject_Z 0). rewrite <- Zlt_Qlt.
  destruct l; [congruence|simpl; lia].
Qed.

Section LoopFacts.

Context {C : Type} {ops : Collector C} {W : Type}.
Implicit Types (dc : DataCollector C W) (w : W).

(** One unfolding of the loop. *)
Lemma loop_cons interval duration start_time now t rest dc w :
  loop_passes interval duration start_time now (t :: rest) dc w =
  if is_collecting dc then
    if stop_requested t then Some ([], loop_exit dc, w)
    else if duration_elapsed duration start_time now
    then Some ([], loop_exit dc, w)
    else
      let '(data, dc', w') := tick t dc w in
      match pause interval t (now + work t)%Q with
      | (Ret _, now') =>
          match loop_passes interval duration start_time now' rest dc' w' with
          | Some (samples, dc'', w'') => Some (data :: samples, dc'', w'')
          | None => None
          end
      | (Raise _, _) => Some ([data], loop_abort dc', w')
      end
  else Some ([], loop_exit dc, w).
Proof. reflexivity. Qed.



(** What a tick changes in the collector. *)
Lemma tick_buffer (t : TickEnv) dc (w : W) :
  data_buffer (snd (fst (tick t dc w))) =
    buffer_push (max_buffer_size dc) (data_buffer dc) (fst (fst (tick t dc w)))
  /\ max_buffer_size (snd (fst (tick t dc w))) = max_buffer_size dc
  /\ is_collecting (snd (fst (tick t dc w))) = is_collecting dc
  /\ collection_thread (snd (fst (tick t dc w))) = collection_thread dc
  /\ callbacks (snd (fst (tick t dc w))) = callbacks dc.
Proof.
  unfold tick. destruct (collect_all _ _ _) as [data c']. simpl. auto.
Qed.

End LoopFacts.

(** ** The lookup step *)

Module AndroidFacts.
Import Android.

Lemma get_pid_state (e : Env) (c : AndroidCollector) :
  snd (get_pid e c) = c \/ exists p, snd (get_pid e c) = set_pid p c.
Proof.
  unfold get_pid, mbind, mget, catch, execute_adb, lift_result, mmodify, mret.
  simpl.
  destruct (PyStr.truthy (package_name c)); simpl; [|now left].
  destruct (device e _) as [output|x]; simpl; [|now left].
  destruct (PyStr.truthy output); simpl; [|now left].
  destruct (index _ 0) as [p|x]; simpl; [|now left].
  right. now exists p.
Qed.

Lemma ensure_pid_ret (e : Env) (c : AndroidCollector) :
  fst (ensure_pid e c) = Ret tt.
Proof.
  unfold ensure_pid, mbind, mget, mret. simpl.
  destruct (_ && _); [|reflexivity].
  unfold get_pid, mbind, mget, catch, execute_adb, lift_result, mmodify, mret.
  simpl.
  destruct (PyStr.truthy (package_name c)); simpl; [|reflexivity].
  destruct (device e _) as [output|x]; simpl; [|reflexivity].
  destruct (PyStr.truthy output); simpl; [|reflexivity].
  destruct (index _ 0) as [p|x]; reflexivity.
Qed.

Lemma ensure_pid_state (e : Env) (c : AndroidCollector) :
  snd (ensure_pid e c) = c \/ exists p, snd (ensure_pid e c) = set_pid p c.
Proof.
  unfold ensure_pid, mbind, mget, mret. simpl.
  destruct (_ && _); [|now left].
  pose proof (get_pid_state e c) as H.
  destruct (get_pid e c) as [[r|x] c']; simpl in *; exact H.
Qed.

(** A call that finds no process id leaves the collector as it was. *)
Lemma no_pid_unchanged (e : Env) (c : AndroidCollector) :
  no_pid e c -> ensure_pid e c = (Ret tt, c) /\ pid_value c = None.
Proof.
  unfold no_pid. intros H.
  pose proof (ensure_pid_ret e c) as Hr.
  destruct (ensure_pid_state e c) as [Hs|[p Hs]].
  - rewrite Hs in H. split.
    + destruct (ensure_pid e c); simpl in *; congruence.
    + unfold pid_value. now rewrite H.
  - rewrite Hs in H. discriminate.
Qed.

(** The lookup step reads the package name and the pid only. *)
Lemma ensure_pid_set_last_cpu_data (e : Env) (c : AndroidCollector) d :
  ensure_pid e (set_last_cpu_data d c) =
  (fst (ensure_pid e c), set_last_cpu_data d (snd (ensure_pid e c))).
Proof.
  unfold ensure_pid, mbind, mget, mret. simpl.
  replace (pid_value (set_last_cpu_data d c)) with (pid_value c) by reflexivity.
  destruct (_ && _); [|reflexivity].
  unfold get_pid, mbind, mget, catch, execute_adb, lift_result, mmodify, mret.
  simpl.
  destruct (PyStr.truthy (package_name c)); simpl; [|reflexivity].
  destruct (device e _) as [output|x]; simpl; [|reflexivity].
  destruct (PyStr.truthy output); simpl; [|reflexivity].
  destruct (index _ 0) as [p|x]; reflexivity.
Qed.

Lemma no_pid_set_last_cpu_data (e : Env) (c : AndroidCollector) d :
  no_pid e c -> no_pid e (set_last_cpu_data d c).
Proof.
  unfold no_pid. rewrite ensure_pid_set_last_cpu_data. simpl. auto.
Qed.

(** The global path of [collect_cpu], once the counters are read. *)
Lemma collect_cpu_global py_float (e : Env) (c : AndroidCollector) counters :
  no_pid e c ->
  proc_stat_counters e = Some counters ->
  collect_cpu py_float e c =
  (let '(v, c') := cpu_delta (fst counters) (snd counters) c in
   (match v with Ret q => q | Raise _ => 0%Q end, c')).
Proof.
  intros Hn Hc. destruct (no_pid_unchanged e c Hn) as [He Hp].
  unfold proc_stat_counters in Hc.
  unfold collect_cpu, run_total, collect_cpu_body, mbind.
  rewrite He. unfold mget. rewrite Hp.
  unfold execute_adb, lift_result.
  destruct (device e "shell cat /proc/stat") as [output|x]; [|discriminate].
  destruct (cpu_line (lines output)) as [line|]; [|discriminate].
  destruct (cpu_counters line) as [k|x]; [|discriminate].
  injection Hc as ->.
  destruct (cpu_delta (fst counters) (snd counters) c) as [[q|x] c']; reflexivity.
Qed.

End AndroidFacts.

(** ** C1: global CPU usage from two consecutive readings *)

(** C1. On the global path of [AndroidCollector.collect_cpu] (no process
    id), the first call ever returns 0.0 and only records the counters it
    read; a second call that reads [(total2, idle2)] with [total2 > total1]
    returns [100 * ((total2 - total1) - (idle2 - idle1)) / (total2 - total1)]
    and stores [(total2, idle2)] as the new baseline. *)
Theorem collect_cpu_two_readings
  (py_float : string -> option Q) (e1 e2 : Env) (c : Android.AndroidCollector)
  (total1 idle1 total2 idle2 : Z) :
  Android.last_cpu_data c = None ->
  Android.no_pid e1 c ->
  Android.no_pid e2 c ->
  Android.proc_stat_counters e1 = Some (total1, idle1) ->
  Android.proc_stat_counters e2 = Some (total2, idle2) ->
  total1 < total2 ->
  let first := Android.collect_cpu py_float e1 c in
  let second := Android.collect_cpu py_float e2 (snd first) in
  first = (0%Q, Android.set_last_cpu_data (total1, idle1) c) /\
  second =
    ((100 * inject_Z ((total2 - total1) - (idle2 - idle1))
      / inject_Z (total2 - total1))%Q,
     Android.set_last_cpu_data (total2, idle2) c).
Proof.
  intros Hfirst Hn1 Hn2 H1 H2 Hlt first second.
  assert (Ef : first = (0%Q, Android.set_last_cpu_data (total1, idle1) c)).
  { subst first. rewrite (AndroidFacts.collect_cpu_global _ _ _ _ Hn1 H1).
    unfold Android.cpu_delta, mbind, mget, mmodify, mret. simpl.
    rewrite Hfirst. reflexivity. }
  split; [exact Ef|].
  subst second. rewrite Ef. simpl snd.
  rewrite (AndroidFacts.collect_cpu_global _ _ _ _
             (AndroidFacts.no_pid_set_last_cpu_data _ _ _ Hn2) H2).
  unfold Android.cpu_delta, mbind, mget, mmodify, mret. simpl.
  assert (Hpos : (0 <? total2 - total1) = true) by (apply Z.ltb_lt; lia).
  rewrite Hpos. reflexivity.
Qed.

Lemma collect_cpu_two_readings_witness :
  let e1 := Fixtures.at_time (Fixtures.proc_stat "100" "10") 0 in
  let e2 := Fixtures.at_time (Fixtures.proc_stat "190" "20") 1 in
  let first := Android.collect_cpu Fixtures.dec_float e1 (Android.init "") in
  let second := Android.collect_cpu Fixtures.dec_float e2 (snd first) in
  first = (0%Q, Android.set_last_cpu_data (110, 10) (Android.init "")) /\
  second =
    ((100 * inject_Z ((210 - 110) - (20 - 10)) / inject_Z (210 - 110))%Q,
     Android.set_last_cpu_data (210, 20) (Android.init "")).
Proof.
  apply (collect_cpu_two_readings Fixtures.dec_float
           (Fixtures.at_time (Fixtures.proc_stat "100" "10") 0)
           (Fixtures.at_time (Fixtures.proc_stat "190" "20") 1)
           (Android.init "") 110 10 210 20);
    try reflexivity; lia.
Defined.

(** ** C2: regressing counters *)

Module NetworkFacts.
Import Android.

Lemma ensure_pid_known (e : Env) (c : AndroidCollector) p :
  pid_value c = Some p -> ensure_pid e c = (Ret tt, c).
Proof.
  intros H. unfold ensure_pid, mbind, mget, mret. simpl. rewrite H.
  rewrite andb_comm. reflexivity.
Qed.

(** [collect_network] once the byte counters of the process are read. *)
Lemma collect_network_counters (e : Env) (c : AndroidCollector) p rx tx :
  pid_value c = Some p ->
  net_counters e p = Some (rx, tx) ->
  collect_network e c =
  match network_delta e rx tx c with
  | (Ret (Some d), c') => (d, c')
  | (_, c') => (net_zero, c')
  end.
Proof.
  intros Hp Hc. unfold net_counters in Hc.
  unfold collect_network, run_total, collect_network_body, mbind.
  rewrite (ensure_pid_known e c p Hp). unfold mget. rewrite Hp.
  unfold execute_adb, lift_result.
  destruct (device e ("shell cat /proc/" ++ p ++ "/status")) as [uo|x];
    [|discriminate].
  destruct (find_uid (lines uo)) as [[u|]|x]; try discriminate.
  destruct (PyStr.truthy u); [|discriminate].
  destruct (device e _) as [ro|x]; [|discriminate].
  destruct (qtaguid_sum 0 0 (lines ro)) as [k|x]; [|discriminate].
  injection Hc as ->. simpl.
  destruct (network_delta e rx tx c) as [[[d|]|x] c']; reflexivity.
Qed.

Lemma speed_negative (delta : Z) (dt : Q) :
  delta < 0 -> (0 < dt)%Q -> (inject_Z delta / dt / 1024 < 0)%Q.
Proof.
  intros Hd Ht.
  apply Qlt_shift_div_r; [reflexivity|].
  apply Qlt_shift_div_r; [exact Ht|].
  assert (Hz : (0 * 1024 * dt == 0)%Q) by ring.
  rewrite Hz. change 0%Q with (inject_Z 0).
  rewrite <- Zlt_Qlt. exact Hd.
Qed.

End NetworkFacts.

(** C2 as stated fails for the network counters: a reading whose rx counter
    is below the stored baseline, taken one second later, is reported as a
    negative speed. *)
Lemma network_regression_negative_speed :
  let c := Android.set_last_network_data
             {| Android.rx_bytes := 5000; Android.tx_bytes := 3000;
                Android.timestamp := 10 |}
             (Fixtures.with_pid "4242") in
  let e := Fixtures.at_time (Fixtures.traffic "1000" "3000") 11 in
  Android.net_counters e "4242" = Some (1000, 3000) /\
  exists v, fst (Android.collect_network e c) !! "rx_speed" = Some (PNum v) /\
            (v < 0)%Q /\ ~ (v == 0)%Q.
Proof.
  split; [reflexivity|].
  eexists. split; [vm_compute; reflexivity|].
  split; [reflexivity|discriminate].
Qed.

(** C2, amended. On the global path of [collect_cpu], a reading whose total
    tick counter is not above the stored baseline returns 0.0 and resets
    the baseline to the new reading. In [collect_network] a reading is
    dropped (zero speeds, baseline reset) when its timestamp is not after
    the baseline's; when the clock has advanced the baseline is reset too
    and the speed is the quotient of the counter difference by the elapsed
    time, over 1024: finite, and negative when the counter regressed. *)
Theorem regression_resets_baseline
  (py_float : string -> option Q)
  (e : Env) (c : Android.AndroidCollector)
  (total1 idle1 total2 idle2 : Z)
  (e' : Env) (c' : Android.AndroidCollector) (p : string)
  (last : Android.NetData) (rx tx : Z) :
  Android.last_cpu_data c = Some (total1, idle1) ->
  Android.no_pid e c ->
  Android.proc_stat_counters e = Some (total2, idle2) ->
  total2 <= total1 ->
  Android.pid_value c' = Some p ->
  Android.last_network_data c' = Some last ->
  Android.net_counters e' p = Some (rx, tx) ->
  let current := {| Android.rx_bytes := rx; Android.tx_bytes := tx;
                    Android.timestamp := now e' |} in
  let dt := (now e' - Android.timestamp last)%Q in
  let rx_speed := (inject_Z (rx - Android.rx_bytes last) / dt / 1024)%Q in
  let tx_speed := (inject_Z (tx - Android.tx_bytes last) / dt / 1024)%Q in
  Android.collect_cpu py_float e c =
    (0%Q, Android.set_last_cpu_data (total2, idle2) c) /\
  snd (Android.collect_network e' c') =
    Android.set_last_network_data current c' /\
  ((dt <= 0)%Q -> fst (Android.collect_network e' c') = Android.net_zero) /\
  ((0 < dt)%Q ->
     fst (Android.collect_network e' c') =
       Android.net_usage rx_speed tx_speed
         (inject_Z rx / 1024) (inject_Z tx / 1024) /\
     (rx < Android.rx_bytes last -> (rx_speed < 0)%Q) /\
     (tx < Android.tx_bytes last -> (tx_speed < 0)%Q)).
Proof.
  intros Hlast Hn Hc Hle Hp Hnet Hk current dt rx_speed tx_speed.
  split.
  { rewrite (AndroidFacts.collect_cpu_global _ _ _ _ Hn Hc).
    unfold Android.cpu_delta, mbind, mget, mmodify, mret. simpl.
    rewrite Hlast.
    assert (Hneg : (0 <? total2 - total1) = false) by (apply Z.ltb_ge; lia).
    rewrite Hneg. reflexivity. }
  rewrite (NetworkFacts.collect_network_counters _ _ _ _ _ Hp Hk).
  unfold Android.network_delta, mbind, mget, mmodify, mret. simpl.
  rewrite Hnet. fold dt.
  destruct (Qlt_bool 0 dt) eqn:E; simpl.
  - apply Qlt_bool_iff in E. split; [reflexivity|]. split.
    + intros Hd. exfalso. exact (Qlt_not_le _ _ E Hd).
    + intros _. split; [reflexivity|]. split; intros Hr.
      * apply NetworkFacts.speed_negative; [lia|exact E].
      * apply NetworkFacts.speed_negative; [lia|exact E].
  - apply Qlt_bool_false_iff in E. split; [reflexivity|]. split.
    + intros _. reflexivity.
    + intros Hd. exfalso. exact (Qlt_not_le _ _ Hd E).
Qed.

Lemma regression_resets_baseline_witness :
  let c := Android.set_last_cpu_data (210, 20) (Android.init "") in
  let e := Fixtures.at_time (Fixtures.proc_stat "40" "5") 2 in
  let c' := Android.set_last_network_data
              {| Android.rx_bytes := 5000; Android.tx_bytes := 3000;
                 Android.timestamp := 10 |}
              (Fixtures.with_pid "4242") in
  let e' := Fixtures.at_time (Fixtures.traffic "1000" "3000") 11 in
  Android.collect_cpu Fixtures.dec_float e c =
    (0%Q, Android.set_last_cpu_data (45, 5) c) /\
  snd (Android.collect_network e' c') =
    Android.set_last_network_data
      {| Android.rx_bytes := 1000; Android.tx_bytes := 3000;
         Android.timestamp := 11 |} c' /\
  (inject_Z (1000 - 5000) / (11 - 10) / 1024 < 0)%Q.
Proof.
  intros c e c' e'.
  destruct (regression_resets_baseline Fixtures.dec_float e c 210 20 45 5
              e' c' "4242"
              {| Android.rx_bytes := 5000; Android.tx_bytes := 3000;
                 Android.timestamp := 10 |} 1000 3000)
    as (Hcpu & Hbase & _ & Hadv);
    try reflexivity; try lia.
  split; [exact Hcpu|]. split; [exact Hbase|].
  destruct Hadv as (_ & Hrx & _); [reflexivity|].
  apply Hrx. simpl. lia.
Defined.

(** ** C3: the sample buffer *)

Section BufferFacts.

Context {C : Type} {ops : Collector C} {W : Type}.
Implicit Types (dc : DataCollector C W) (buf : list PerformanceData).

Lemma lastn_app_lastn {A} (n : nat) (l s : list A) :
  lastn n (lastn n l ++ s) = lastn n (l ++ s).
Proof.
  destruct (Nat.le_gt_cases (length l) n) as [Hle|Hgt].
  - now rewrite (lastn_all n l Hle).
  - unfold lastn at 1 3. rewrite !length_app, lastn_length.
    replace (Nat.min n (length l) + length s - n)%nat with (length s) by lia.
    replace (length l + length s - n)%nat
      with (length s + (length l - n))%nat by lia.
    rewrite <- skipn_skipn. f_equal.
    rewrite skipn_app.
    replace (length l - n - length l)%nat with 0%nat by lia.
    reflexivity.
Qed.

(** Appending with eviction keeps the most recent [max_size] samples. *)
Lemma buffer_push_lastn (max_size : Z) buf data :
  0 <= max_size ->
  Z.of_nat (length buf) <= max_size ->
  buffer_push max_size buf data = lastn (Z.to_nat max_size) (buf ++ [data]).
Proof.
  intros Hmax Hlen. unfold buffer_push.
  destruct (max_size <? _) eqn:E.
  - apply Z.ltb_lt in E. rewrite length_app in E. simpl in E.
    unfold lastn. rewrite length_app. simpl.
    replace (length buf + 1 - Z.to_nat max_size)%nat with 1%nat by lia.
    reflexivity.
  - apply Z.ltb_ge in E. rewrite lastn_all; [reflexivity|lia].
Qed.

Lemma loop_buffer interval duration start_time sched :
  forall now dc (w : W) samples dc' w',
    0 <= max_buffer_size dc ->
    Z.of_nat (length (data_buffer dc)) <= max_buffer_size dc ->
    loop_passes interval duration start_time now sched dc w
      = Some (samples, dc', w') ->
    max_buffer_size dc' = max_buffer_size dc /\
    data_buffer dc' =
      lastn (Z.to_nat (max_buffer_size dc)) (data_buffer dc ++ samples).
Proof.
  induction sched as [|t rest IH]; intros now dc w samples dc' w' Hmax Hlen Hrun.
  - simpl in Hrun. destruct (is_collecting dc); [discriminate|].
    injection Hrun as <- <- <-. simpl. rewrite app_nil_r.
    split; [reflexivity|]. symmetry. apply lastn_all. lia.
  - rewrite loop_cons in Hrun.
    assert (Hexit : forall (x : W),
               Some (@nil PerformanceData, loop_exit dc, x) = Some (samples, dc', w') ->
               max_buffer_size dc' = max_buffer_size dc /\
               data_buffer dc' =
                 lastn (Z.to_nat (max_buffer_size dc)) (data_buffer dc ++ samples)).
    { intros x Hx. injection Hx as <- <- <-. simpl. rewrite app_nil_r.
      split; [reflexivity|]. symmetry. apply lastn_all. lia. }
    destruct (is_collecting dc); [|now apply (Hexit w)].
    destruct (stop_requested t); [now apply (Hexit w)|].
    destruct (duration_elapsed _ _ _); [now apply (Hexit w)|].
    destruct (tick_buffer t dc w) as (Hb & Hm & _).
    destruct (tick t dc w) as [[data dc1] w1]. simpl in Hb, Hm.
    assert (Hb1 : data_buffer dc1 =
                  lastn (Z.to_nat (max_buffer_size dc)) (data_buffer dc ++ [data])).
    { rewrite Hb. now apply buffer_push_lastn. }
    destruct (pause interval t _) as [[[]|x] now'];
      [|injection Hrun as <- <- <-; simpl; split; [exact Hm|exact Hb1]].
    destruct (loop_passes _ _ _ now' rest dc1 w1) as [[[tr dc2] w2]|] eqn:E;
      [|discriminate].
    injection Hrun as <- <- <-.
    destruct (IH now' dc1 w1 tr dc2 w2) as [Hm2 Hb2]; try exact E.
    + lia.
    + rewrite Hm, Hb1, lastn_length. lia.
    + split; [congruence|].
      rewrite Hb2, Hm, Hb1, lastn_app_lastn, <- app_assoc. reflexivity.
Qed.

End BufferFacts.

(** C3. A tick appends the new sample at the tail and evicts at the head
    only, so the buffer never grows past its capacity; when the loop ends
    the buffer holds the most recent [capacity] samples of what it held
    followed by what was assembled, in their order. From an empty buffer,
    [capacity + k] samples leave exactly the last [capacity] of them. *)
Theorem buffer_keeps_most_recent
  {C : Type} {ops : Collector C} {W : Type}
  (interval : Q) (duration : option Q) (start_time : Q)
  (sched : list TickEnv) (t : TickEnv)
  (dc dc' : DataCollector C W) (w w' : W) (samples : list PerformanceData) :
  0 <= max_buffer_size dc ->
  Z.of_nat (length (data_buffer dc)) <= max_buffer_size dc ->
  _collection_loop interval duration start_time sched dc w
    = Some (samples, dc', w') ->
  let capacity := Z.to_nat (max_buffer_size dc) in
  let '(data, dc1, _) := tick t dc w in
  (data_buffer dc1 = lastn capacity (data_buffer dc ++ [data]) /\
   (length (data_buffer dc1) <= capacity)%nat) /\
  (data_buffer dc' = lastn capacity (data_buffer dc ++ samples) /\
   (length (data_buffer dc') <= capacity)%nat) /\
  (forall k : nat,
     data_buffer dc = [] -> length samples = (capacity + k)%nat ->
     data_buffer dc' = skipn k samples /\ length (data_buffer dc') = capacity).
Proof.
  intros Hmax Hlen Hrun capacity.
  destruct (tick_buffer t dc w) as (Hb & _).
  destruct (tick t dc w) as [[data dc1] w1]. simpl in Hb.
  destruct (loop_buffer _ _ _ _ _ _ _ _ _ _ Hmax Hlen Hrun) as [_ Hfinal].
  fold capacity in Hfinal.
  split; [|split].
  - rewrite Hb, buffer_push_lastn by assumption. fold capacity.
    split; [reflexivity|]. rewrite lastn_length. lia.
  - split; [exact Hfinal|]. rewrite Hfinal, lastn_length. lia.
  - intros k Hempty Hk. rewrite Hfinal, Hempty. simpl.
    unfold lastn. rewrite Hk.
    replace (capacity + k - capacity)%nat with k by lia.
    split; [reflexivity|]. rewrite length_skipn. lia.
Qed.

Lemma buffer_keeps_most_recent_witness :
  let dc := Fixtures.running_collector 2 in
  let sched := [Fixtures.pass 1; Fixtures.pass 2; Fixtures.pass 3; Fixtures.stop_at 4] in
  match _collection_loop 1 None 0 sched dc tt with
  | Some (samples, dc', _) =>
      List.map timestamp samples = [1; 2; 3]%Q /\
      data_buffer dc' = skipn 1 samples /\
      List.map timestamp (data_buffer dc') = [2; 3]%Q
  | None => False
  end.
Proof.
  intros dc sched.
  destruct (_collection_loop 1 None 0 sched dc tt) as [[[samples dc'] w']|] eqn:E;
    [|vm_compute in E; discriminate].
  assert (Hs : List.map timestamp samples = [1; 2; 3]%Q).
  { pose proof E as E'. vm_compute in E'. injection E' as <- _ _. reflexivity. }
  assert (Hcap : 0 <= max_buffer_size dc) by (vm_compute; congruence).
  assert (Hlen : Z.of_nat (length (data_buffer dc)) <= max_buffer_size dc)
    by (vm_compute; congruence).
  pose proof (buffer_keeps_most_recent 1 None 0 sched (Fixtures.pass 5)
                dc dc' tt w' samples Hcap Hlen E) as H.
  cbv zeta in H. destruct (tick (Fixtures.pass 5) dc tt) as [[data dc1] w1].
  destruct H as (_ & _ & H).
  destruct (H 1%nat) as [Hb _]; [reflexivity| |].
  - rewrite <- (length_map timestamp), Hs. reflexivity.
  - split; [exact Hs|]. split; [exact Hb|].
    rewrite Hb. destruct samples as [|s samples]; [discriminate|].
    injection Hs as _ Hs. exact Hs.
Defined.

(** ** C6: a bounded run *)

Section BoundedRun.

Context {C : Type} {ops : Collector C} {W : Type}.
Implicit Types (dc : DataCollector C W) (w : W).





End BoundedRun.




(** ** C9: start and stop are idempotent *)

Section StartStop.

Context {C : Type} {ops : Collector C} {W : Type}.
Implicit Types (dc : DataCollector C W).

Lemma finished_dead (th : Thread) : alive th = false -> finished th = th.
Proof. destruct th. simpl. intros ->. reflexivity. Qed.

Lemma stop_result dc :
  thread_started dc ->
  stop_continuous_collection dc =
  (Ret tt, set_collection_thread (option_map finished (collection_thread dc))
             (set_is_collecting false dc)).
Proof.
  intros Hs. unfold stop_continuous_collection, mbind, mmodify, mget, mret,
    lift_result, join. simpl.
  destruct (collection_thread dc) as [th|] eqn:E; simpl.
  - rewrite (Hs th E). reflexivity.
  - unfold set_collection_thread, set_is_collecting. simpl.
    rewrite E. reflexivity.
Qed.

(** The threads a collector holds come from [start_continuous_collection],
    which starts them. *)
Lemma thread_started_new cfg (c : C) :
  thread_started (new_DataCollector (W := W) cfg c).
Proof. intros th H. discriminate. Qed.

Lemma thread_started_start interval duration dc :
  thread_started dc ->
  thread_started (fst (start_continuous_collection interval duration dc)).
Proof.
  intros Hs. unfold start_continuous_collection.
  destruct (is_collecting dc); simpl; [exact Hs|].
  intros th H. injection H as <-. reflexivity.
Qed.

Lemma thread_started_stop dc :
  thread_started dc -> thread_started (snd (stop_continuous_collection dc)).
Proof.
  intros Hs. rewrite (stop_result dc Hs). simpl.
  intros th H. destruct (collection_thread dc) as [t0|] eqn:E; [|discriminate].
  simpl in H. injection H as <-. simpl. exact (Hs t0 E).
Qed.

Lemma thread_started_passes interval duration start_time sched :
  forall now dc (w : W) samples dc' w',
    thread_started dc ->
    loop_passes interval duration start_time now sched dc w
      = Some (samples, dc', w') ->
    thread_started dc'.
Proof.
  assert (Hexit : forall dc, thread_started dc -> thread_started (loop_exit dc)).
  { intros dc Hs th H. unfold loop_exit in H. simpl in H.
    destruct (collection_thread dc) as [t0|] eqn:E; [|discriminate].
    simpl in H. injection H as <-. simpl. exact (Hs t0 E). }
  assert (Habort : forall dc, thread_started dc -> thread_started (loop_abort dc)).
  { intros dc Hs th H. unfold loop_abort in H. simpl in H.
    destruct (collection_thread dc) as [t0|] eqn:E; [|discriminate].
    simpl in H. injection H as <-. simpl. exact (Hs t0 E). }
  induction sched as [|t rest IH]; intros now dc w samples dc' w' Hs Hrun.
  - simpl in Hrun. destruct (is_collecting dc); [discriminate|].
    injection Hrun as _ <- _. now apply Hexit.
  - rewrite loop_cons in Hrun.
    destruct (is_collecting dc);
      [|injection Hrun as _ <- _; now apply Hexit].
    destruct (stop_requested t);
      [injection Hrun as _ <- _; now apply Hexit|].
    destruct (duration_elapsed _ _ _);
      [injection Hrun as _ <- _; now apply Hexit|].
    destruct (tick_buffer t dc w) as (_ & _ & _ & Ht & _).
    destruct (tick t dc w) as [[data dc1] w1]. simpl in Ht.
    assert (Hs1 : thread_started dc1).
    { intros th H. rewrite Ht in H. exact (Hs th H). }
    destruct (pause interval t _) as [[[]|x] now'];
      [|injection Hrun as _ <- _; now apply Habort].
    destruct (loop_passes _ _ _ now' rest dc1 w1) as [[[tr dc2] w2]|] eqn:E;
      [|discriminate].
    injection Hrun as _ <- _.
    exact (IH now' dc1 w1 tr dc2 w2 Hs1 E).
Qed.

Lemma thread_started_loop interval duration start_time sched :
  forall dc (w : W) samples dc' w',
    thread_started dc ->
    _collection_loop interval duration start_time sched dc w
      = Some (samples, dc', w') ->
    thread_started dc'.
Proof.
  intros dc w samples dc' w'. apply thread_started_passes.
Qed.

End StartStop.

(** C9. [start_continuous_collection] on a collector that is collecting
    changes nothing and starts no thread. [stop_continuous_collection]
    returns without raising and leaves the collector idle; on an idle
    collector, so also when called a second time, it changes nothing. *)
Theorem start_stop_idempotent
  {C : Type} {ops : Collector C} {W : Type}
  (interval : Q) (duration : option Q) (dc : DataCollector C W) :
  thread_started dc ->
  (is_collecting dc = true ->
   start_continuous_collection interval duration dc = (dc, None)) /\
  (idle dc -> stop_continuous_collection dc = (Ret tt, dc)) /\
  (exists dc1,
     stop_continuous_collection dc = (Ret tt, dc1) /\
     idle dc1 /\
     stop_continuous_collection dc1 = (Ret tt, dc1)).
Proof.
  intros Hs.
  assert (Hidle : forall d : DataCollector C W,
             idle d -> stop_continuous_collection d = (Ret tt, d)).
  { intros d [Hc Ht].
    assert (Hsd : thread_started d) by (intros th H; apply (Ht th H)).
    rewrite (stop_result d Hsd). f_equal.
    destruct d as [c ic th buf mx cbs]. simpl in *. subst ic.
    unfold set_collection_thread, set_is_collecting. simpl.
    destruct th as [th|]; [|reflexivity]. simpl.
    rewrite finished_dead; [reflexivity|]. apply (Ht th eq_refl). }
  split; [|split].
  - intros Hc. unfold start_continuous_collection. rewrite Hc. reflexivity.
  - apply Hidle.
  - eexists. split; [apply (stop_result dc Hs)|].
    assert (Hi : idle (set_collection_thread
                         (option_map finished (collection_thread dc))
                         (set_is_collecting false dc))).
    { split; [reflexivity|]. simpl. intros th H.
      destruct (collection_thread dc) as [t0|] eqn:E; [|discriminate].
      simpl in H. injection H as <-. simpl. split; [|reflexivity].
      exact (Hs t0 E). }
    split; [exact Hi|]. apply Hidle, Hi.
Qed.

Lemma start_stop_idempotent_witness :
  let dc := Fixtures.running_collector 1000 in
  start_continuous_collection 2 (Some 5%Q) dc = (dc, None) /\
  exists dc1,
    stop_continuous_collection dc = (Ret tt, dc1) /\
    idle dc1 /\
    stop_continuous_collection dc1 = (Ret tt, dc1).
Proof.
  intros dc.
  destruct (start_stop_idempotent 2 (Some 5%Q) dc) as (Hstart & _ & Hstop).
  - intros th H. injection H as <-. reflexivity.
  - split; [apply Hstart; reflexivity|exact Hstop].
Defined.

(** ** C5: an unknown metric target *)

Section UnknownTarget.

Context {C : Type} {ops : Collector C} {W : Type}.

Lemma set_collector_same (dc : DataCollector C W) :
  set_collector (collector dc) dc = dc.
Proof. destruct dc. reflexivity. Qed.

Lemma unknown_target_raises (target : string) (e : Env) (c : C) :
  ~ known_target target ->
  collect_single_body target e c =
  (Raise (ValueError ("Unknown target: " ++ target)), c).
Proof.
  intros Hk. unfold collect_single_body.
  repeat match goal with
  | |- context [String.eqb target ?s] =>
      destruct (String.eqb_spec target s) as [->|_];
      [exfalso; apply Hk; unfold known_target; simpl; tauto|]
  end.
  reflexivity.
Qed.

End UnknownTarget.

(** C5 as stated fails: for the target ["disk"], which is none of the eight
    metrics, the call returns [None]; no exception reaches the caller. *)
Lemma unknown_target_returns_none :
  let dc := Fixtures.running_collector 1000 in
  let e := Fixtures.at_time Fixtures.unreachable 0 in
  ~ known_target "disk" /\
  fst (collect_single "disk" e dc) = Ret PyNone /\
  forall x, fst (collect_single "disk" e dc) <> Raise x.
Proof.
  split.
  - unfold known_target. simpl. intros H.
    repeat (destruct H as [H|H]; [discriminate|]). exact H.
  - split; [reflexivity|]. intros x H. discriminate.
Qed.

(** C5, amended. For a target that is none of the eight metrics, the
    [ValueError] raised inside [collect_single] is caught by the same call:
    the collector is left as it was, no exception reaches the caller, and
    the call returns [None]. *)
Theorem unknown_target_swallowed
  {C : Type} {ops : Collector C} {W : Type}
  (target : string) (e : Env) (dc : DataCollector C W) :
  ~ known_target target ->
  collect_single_body target e (collector dc) =
    (Raise (ValueError ("Unknown target: " ++ target)), collector dc) /\
  collect_single target e dc = (Ret PyNone, dc).
Proof.
  intros Hk. split; [now apply unknown_target_raises|].
  unfold collect_single, catch, on_platform.
  rewrite (unknown_target_raises target e (collector dc) Hk).
  rewrite set_collector_same. reflexivity.
Qed.

Lemma unknown_target_swallowed_witness :
  let dc := Fixtures.running_collector 1000 in
  let e := Fixtures.at_time Fixtures.unreachable 0 in
  collect_single_body "disk" e (collector dc) =
    (Raise (ValueError "Unknown target: disk"), collector dc) /\
  collect_single "disk" e dc = (Ret PyNone, dc).
Proof.
  intros dc e. apply (unknown_target_swallowed "disk" e dc).
  unfold known_target. simpl. intros H.
  repeat (destruct H as [H|H]; [discriminate|]). exact H.
Defined.

(** ** C7: statistics *)

Section Statistics.

Lemma py_min_spec (l : list Q) : forall x,
  In (py_min x l) (x :: l) /\ forall v, In v (x :: l) -> (py_min x l <= v)%Q.
Proof.
  induction l as [|y l IH]; intros x.
  - simpl. split; [now left|]. intros v [<-|[]]. apply Qle_refl.
  - unfold py_min. simpl. fold (py_min (if Qlt_bool y x then y else x) l).
    destruct (IH (if Qlt_bool y x then y else x)) as [Hin Hle].
    destruct (Qlt_bool y x) eqn:E.
    + apply Qlt_bool_iff in E. split.
      * destruct Hin as [<-|Hin]; [right; now left|right; now right].
      * intros v [<-|[<-|Hv]].
        -- apply Qle_trans with y; [apply Hle; now left|now apply Qlt_le_weak].
        -- apply Hle. now left.
        -- apply Hle. now right.
    + apply Qlt_bool_false_iff in E. split.
      * destruct Hin as [<-|Hin]; [now left|right; now right].
      * intros v [<-|[<-|Hv]].
        -- apply Hle. now left.
        -- apply Qle_trans with x; [apply Hle; now left|exact E].
        -- apply Hle. now right.
Qed.

Lemma py_max_spec (l : list Q) : forall x,
  In (py_max x l) (x :: l) /\ forall v, In v (x :: l) -> (v <= py_max x l)%Q.
Proof.
  induction l as [|y l IH]; intros x.
  - simpl. split; [now left|]. intros v [<-|[]]. apply Qle_refl.
  - unfold py_max. simpl. fold (py_max (if Qlt_bool x y then y else x) l).
    destruct (IH (if Qlt_bool x y then y else x)) as [Hin Hle].
    destruct (Qlt_bool x y) eqn:E.
    + apply Qlt_bool_iff in E. split.
      * destruct Hin as [<-|Hin]; [right; now left|right; now right].
      * intros v [<-|[<-|Hv]].
        -- apply Qle_trans with y; [now apply Qlt_le_weak|apply Hle; now left].
        -- apply Hle. now left.
        -- apply Hle. now right.
    + apply Qlt_bool_false_iff in E. split.
      * destruct Hin as [<-|Hin]; [now left|right; now right].
      * intros v [<-|[<-|Hv]].
        -- apply Hle. now left.
        -- apply Qle_trans with x; [exact E|apply Hle; now left].
        -- apply Hle. now right.
Qed.

Lemma fold_plus_total (l : list Q) : forall a,
  (fold_left Qplus l a == a + total l)%Q.
Proof.
  induction l as [|x l IH]; intros a; simpl.
  - ring.
  - rewrite IH. ring.
Qed.

Lemma Qsum_total (l : list Q) : (Qsum l == total l)%Q.
Proof. unfold Qsum. rewrite fold_plus_total. ring. Qed.

Lemma mean_times_length (l : list Q) :
  l <> [] -> (mean l * Qlen l == total l)%Q.
Proof.
  intros H. unfold mean. rewrite <- Qsum_total.
  pose proof (Qlen_pos l H) as Hp. field. intros Hz.
  rewrite Hz in Hp. exact (Qlt_irrefl 0 Hp).
Qed.

Lemma positive_values_spec (f : PerformanceData -> Q) data (v : Q) :
  In v (APM.positive_values f data) <-> In v (List.map f data) /\ (0 < v)%Q.
Proof.
  unfold APM.positive_values. rewrite filter_In, Qlt_bool_iff. reflexivity.
Qed.

End Statistics.

(** C7. [_calculate_stats] returns zeros with count 0 on the empty
    list and, on a non-empty one, an element that is its minimum, an
    element that is its maximum, its arithmetic mean and its length.
    [get_summary] aggregates the CPU, memory and FPS series from which the
    values equal to the sentinel 0 are left out: a value is aggregated
    exactly when it is greater than zero. *)
Theorem calculate_stats_correct (values : list Q) (t : Q) (m : APM.Monitor) :
  APM._calculate_stats [] = APM.stats_dict 0 0 0 0 /\
  (values <> [] ->
   exists mn mx avg,
     APM._calculate_stats values = APM.stats_dict mn mx avg (Qlen values) /\
     In mn values /\ In mx values /\
     (forall v, In v values -> (mn <= v)%Q /\ (v <= mx)%Q) /\
     (avg * Qlen values == total values)%Q) /\
  (forall s, APM.get_summary t m = Some s ->
     let series f := APM.positive_values f (APM.performance_data m) in
     APM.stats_cpu s = APM._calculate_stats (series cpu_usage) /\
     APM.stats_memory s = APM._calculate_stats (series memory_usage) /\
     APM.stats_fps s = APM._calculate_stats (series fps) /\
     forall f v,
       (In v (series f) <->
        In v (List.map f (APM.performance_data m)) /\ (0 < v)%Q) /\
       ((v == 0)%Q -> ~ In v (series f))).
Proof.
  split; [reflexivity|]. split.
  - intros Hne. destruct values as [|x rest]; [congruence|].
    exists (py_min x rest), (py_max x rest), (mean (x :: rest)).
    split; [reflexivity|].
    destruct (py_min_spec rest x) as [Hmin Hle].
    destruct (py_max_spec rest x) as [Hmax Hge].
    repeat split; auto.
    apply mean_times_length. discriminate.
  - intros s Hs series. unfold APM.get_summary in Hs.
    destruct (APM.performance_data m) as [|d data] eqn:E; [discriminate|].
    injection Hs as <-. cbn [APM.stats_cpu APM.stats_memory APM.stats_fps].
    split; [reflexivity|]. split; [reflexivity|]. split; [reflexivity|].
    intros f v. split; [apply positive_values_spec|].
    intros Hz Hin. apply positive_values_spec in Hin. destruct Hin as [_ Hp].
    rewrite Hz in Hp. exact (Qlt_irrefl 0 Hp).
Qed.

Lemma calculate_stats_correct_witness :
  let d (v : Q) := set_fps v (set_cpu_usage v (new_PerformanceData 0)) in
  let m := APM.set_performance_data [d 10; d 0; d 30]%Q (APM.new_Monitor "app" 0) in
  (exists mn mx avg,
     APM._calculate_stats [10; 20; 30]%Q = APM.stats_dict mn mx avg (Qlen [10; 20; 30]%Q) /\
     In mn [10; 20; 30]%Q /\ In mx [10; 20; 30]%Q /\
     (forall v, In v [10; 20; 30]%Q -> (mn <= v)%Q /\ (v <= mx)%Q) /\
     (avg * Qlen [10; 20; 30]%Q == total [10; 20; 30]%Q)%Q) /\
  (exists s, APM.get_summary 5 m = Some s /\
     APM.stats_cpu s = APM._calculate_stats [10; 30]%Q).
Proof.
  intros d m.
  destruct (calculate_stats_correct [10; 20; 30]%Q 5 m) as (_ & Hstats & Hsum).
  split; [apply Hstats; discriminate|].
  eexists. split; [reflexivity|].
  destruct (Hsum _ eq_refl) as (Hcpu & _). exact Hcpu.
Defined.

Example calculate_stats_10_20_30 :
  APM._calculate_stats [10; 20; 30]%Q
  = APM.stats_dict 10 30 ((0 + 10 + 20 + 30) / inject_Z 3) (inject_Z 3)
  /\ ((0 + 10 + 20 + 30) / inject_Z 3 == 20)%Q.
Proof. split; reflexivity. Qed.

(** ** C8: frames per second *)

Section FrameRate.

Variable py_float : string -> option Q.

(** The loop keeps positive durations only and stops at 120 of them. *)
Lemma frame_scan_retained (ls : list string) :
  forall in_stats acc,
    (length acc < 120)%nat -> positive_durations acc ->
    (length (Android.frame_scan py_float in_stats acc ls) <= 120)%nat /\
    positive_durations (Android.frame_scan py_float in_stats acc ls).
Proof.
  induction ls as [|line rest IH]; intros in_stats acc Hlen Hpos.
  - simpl. split; [lia|exact Hpos].
  - simpl. destruct (PyStr.contains _ line); [now apply IH|].
    assert (Hafter : forall b ft,
               (length ft <= 120)%nat -> positive_durations ft ->
               (length (if (120 <=? length ft)%nat then ft
                        else Android.frame_scan py_float b ft rest) <= 120)%nat /\
               positive_durations
                 (if (120 <=? length ft)%nat then ft
                  else Android.frame_scan py_float b ft rest)).
    { intros b ft Hl Hp. destruct (120 <=? length ft)%nat eqn:E.
      - split; assumption.
      - apply Nat.leb_gt in E. now apply IH. }
    destruct (in_stats && PyStr.truthy (PyStr.strip line));
      [|apply Hafter; [lia|exact Hpos]].
    destruct (index _ 0) as [tok|x]; [|now apply IH].
    destruct (Android.float py_float tok) as [time_value|x]; [|now apply IH].
    destruct (Qlt_bool 0 time_value) eqn:E.
    + apply Qlt_bool_iff in E. apply Hafter.
      * rewrite length_app. simpl. lia.
      * apply Forall_app. split; [exact Hpos|]. now constructor.
    + apply Hafter; [lia|exact Hpos].
Qed.

Lemma retained_frames_bound (e : Env) (c : Android.AndroidCollector) :
  (length (Android.retained_frames py_float e c) <= 120)%nat /\
  positive_durations (Android.retained_frames py_float e c).
Proof.
  unfold Android.retained_frames.
  destruct (PyStr.truthy _); [|split; [simpl; lia|constructor]].
  destruct (device e _) as [output|x]; [|split; [simpl; lia|constructor]].
  apply frame_scan_retained; [simpl; lia|constructor].
Qed.

Lemma fold_plus_positive (l : list Q) : forall a,
  positive_durations l -> (0 <= a)%Q -> (a <= fold_left Qplus l a)%Q.
Proof.
  induction l as [|x l IH]; intros a Hp Ha; simpl.
  - apply Qle_refl.
  - inversion Hp as [|? ? Hx Hl]; subst.
    apply Qle_trans with (a + x)%Q; [lra|]. apply IH; [exact Hl|lra].
Qed.

Lemma mean_positive (l : list Q) :
  l <> [] -> positive_durations l -> (0 < mean l)%Q.
Proof.
  intros Hne Hp. unfold mean.
  apply Qlt_shift_div_l; [now apply Qlen_pos|].
  destruct l as [|x l]; [congruence|].
  inversion Hp as [|? ? Hx Hl]; subst.
  unfold Qsum. simpl.
  pose proof (fold_plus_positive l (0 + x)%Q Hl) as H.
  assert (H0 : (0 <= 0 + x)%Q) by lra. specialize (H H0). lra.
Qed.

Lemma lastn_nonempty {A} (n : nat) (l : list A) :
  (0 < n)%nat -> l <> [] -> lastn n l <> [].
Proof.
  intros Hn Hl H. apply (f_equal (@length A)) in H.
  rewrite lastn_length in H. destruct l; [congruence|]. simpl in H. lia.
Qed.

Lemma lastn_positive (n : nat) (l : list Q) :
  positive_durations l -> positive_durations (lastn n l).
Proof.
  unfold positive_durations, lastn. rewrite !List.Forall_forall.
  intros H x Hx. apply H. revert Hx.
  generalize (length l - n)%nat. intros k.
  revert l H. induction k as [|k IH]; intros l H Hx; [exact Hx|].
  destruct l as [|y l]; [exact Hx|]. right. simpl in Hx.
  apply IH; [|exact Hx]. intros z Hz. apply H. now right.
Qed.

Lemma cap60_min (x : Q) : Android.cap60 x = Qmin x 60.
Proof.
  unfold Android.cap60, Qmin, GenericMinMax.gmin.
  destruct (Qlt_bool 60 x) eqn:E.
  - apply Qlt_bool_iff in E. apply Qgt_alt in E. now rewrite E.
  - apply Qlt_bool_false_iff in E.
    destruct (x ?= 60)%Q eqn:Ec; try reflexivity.
    exfalso. apply Qgt_alt in Ec. exact (Qlt_not_le _ _ Ec E).
Qed.

Lemma collect_fps_frames (e : Env) (c : Android.AndroidCollector) :
  Android.collect_fps py_float e c =
  (match Android.fps_of_frames (Android.retained_frames py_float e c) with
   | Some v => v
   | None => 0%Q
   end, c).
Proof.
  unfold Android.collect_fps, run_total, Android.collect_fps_body, mbind, mget,
    mret, Android.execute_adb, lift_result, Android.retained_frames.
  destruct (PyStr.truthy (Android.package_name c)); simpl; [|reflexivity].
  destruct (device e _) as [output|x]; [|reflexivity].
  destruct (Android.fps_of_frames _); reflexivity.
Qed.

End FrameRate.

(** C8. A call of [AndroidCollector.collect_fps] retains at most 120
    durations, all positive. When it retains at least one, it returns 1000
    over the mean of the last 60 of them (of all of them when fewer),
    limited to 60; when it retains none it returns 0.0. *)
Theorem collect_fps_value
  (py_float : string -> option Q) (e : Env) (c : Android.AndroidCollector) :
  let frames := Android.retained_frames py_float e c in
  let recent := lastn 60 frames in
  (length frames <= 120)%nat /\
  (length recent <= 60)%nat /\
  (frames <> [] ->
   Android.collect_fps py_float e c = (Qmin (1000 / mean recent) 60, c)) /\
  (frames = [] -> Android.collect_fps py_float e c = (0%Q, c)).
Proof.
  intros frames recent. subst recent.
  destruct (retained_frames_bound py_float e c) as [Hlen Hpos].
  rewrite collect_fps_frames. fold frames in Hlen, Hpos |- *.
  clearbody frames.
  split; [exact Hlen|]. split; [rewrite lastn_length; lia|]. split.
  - intros Hne. unfold Android.fps_of_frames.
    destruct frames as [|x l]; [congruence|].
    set (recent := lastn 60 (x :: l)). fold (mean recent).
    assert (Hm : (0 < mean recent)%Q).
    { apply mean_positive.
      - apply lastn_nonempty; [lia|exact Hne].
      - now apply lastn_positive. }
    apply Qlt_bool_iff in Hm. rewrite Hm, cap60_min. reflexivity.
  - intros ->. reflexivity.
Qed.

Lemma collect_fps_value_witness :
  let c := Android.init "com.example.app" in
  let e := Fixtures.at_time
             (Fixtures.gfxinfo "com.example.app" ["Janky frames: 1"; "16.0"; "0"; "24.0"]) 0 in
  Android.retained_frames Fixtures.dec_float e c = [(16 + 0 / 10)%Q; (24 + 0 / 10)%Q] /\
  Android.collect_fps Fixtures.dec_float e c
  = (Qmin (1000 / mean [(16 + 0 / 10)%Q; (24 + 0 / 10)%Q]) 60, c) /\
  (Qmin (1000 / mean [(16 + 0 / 10)%Q; (24 + 0 / 10)%Q]) 60 == 50)%Q.
Proof.
  intros c e.
  destruct (collect_fps_value Fixtures.dec_float e c) as (_ & _ & Hsome & _).
  split; [reflexivity|]. split; [|reflexivity].
  apply Hsome. discriminate.
Defined.

Example collect_fps_capped :
  let c := Android.init "com.example.app" in
  let e := Fixtures.at_time
             (Fixtures.gfxinfo "com.example.app" ["8.0"; "12.0"]) 0 in
  fst (Android.collect_fps Fixtures.dec_float e c) = 60%Q.
Proof. reflexivity. Qed.

Example collect_fps_nothing_retained :
  let c := Android.init "com.example.app" in
  let e := Fixtures.at_time
             (Fixtures.gfxinfo "com.example.app" ["Janky frames: 1"; "0"]) 0 in
  Android.collect_fps Fixtures.dec_float e c = (0%Q, c).
Proof. reflexivity. Qed.

(** ** Alerts *)

Section Alerts.

Context {C : Type} {ops : Collector C}.
Variable format_number : Q -> string.
Variable cfg : Config.

(** The alert that [_check_alert] builds. *)
Lemma check_alert_fires (t : Q) (metric : string) (value threshold : Q)
  (m : APM.Monitor) :
  APM.thresholds cfg !! metric = Some threshold ->
  (if String.eqb metric "fps" then Qlt_bool value threshold
   else Qlt_bool threshold value) = true ->
  APM._check_alert format_number cfg t metric value m =
  APM.set_alerts
    (APM.alerts m ++
     [{| APM.alert_timestamp := t; APM.alert_metric := metric;
         APM.alert_value := value; APM.alert_threshold := threshold;
         APM.alert_message :=
           APM.alert_text format_number metric value threshold |}])%list m.
Proof.
  intros Ht Hc. unfold APM._check_alert. rewrite Ht, Hc. reflexivity.
Qed.

Lemma check_alert_quiet (t : Q) (metric : string) (value threshold : Q)
  (m : APM.Monitor) :
  APM.thresholds cfg !! metric = Some threshold ->
  (if String.eqb metric "fps" then Qlt_bool value threshold
   else Qlt_bool threshold value) = false ->
  APM._check_alert format_number cfg t metric value m = m.
Proof.
  intros Ht Hc. unfold APM._check_alert. rewrite Ht, Hc. reflexivity.
Qed.

Lemma thresholds_lookup :
  APM.thresholds cfg !! "cpu" = Some (alert_cpu_threshold cfg) /\
  APM.thresholds cfg !! "memory" = Some (alert_memory_threshold cfg) /\
  APM.thresholds cfg !! "fps" = Some (alert_fps_threshold cfg) /\
  APM.thresholds cfg !! "battery_temp" = Some (alert_battery_temp_threshold cfg).
Proof. repeat split; reflexivity. Qed.

(** The registered callback stores the sample and nothing else. *)
Lemma run_callbacks_alerts (cbs : list (PerformanceData -> M APM.Monitor unit))
  (data : PerformanceData) :
  Forall (fun cb => cb = APM._on_data_collected) cbs ->
  forall m, APM.alerts (run_callbacks cbs data m) = APM.alerts m.
Proof.
  induction 1 as [|cb cbs Hcb _ IH]; intros m; simpl; [reflexivity|].
  rewrite IH. subst cb. reflexivity.
Qed.

Lemma tick_alerts (t : TickEnv) (dc : DataCollector C APM.Monitor)
  (m : APM.Monitor) :
  Forall (fun cb => cb = APM._on_data_collected) (callbacks dc) ->
  APM.alerts (snd (tick t dc m)) = APM.alerts m.
Proof.
  intros H. unfold tick. destruct (collect_all _ _ _) as [data c']. simpl.
  now apply run_callbacks_alerts.
Qed.

Lemma loop_alerts interval duration start_time sched :
  forall now (dc : DataCollector C APM.Monitor) m samples dc' m',
    Forall (fun cb => cb = APM._on_data_collected) (callbacks dc) ->
    loop_passes interval duration start_time now sched dc m
      = Some (samples, dc', m') ->
    APM.alerts m' = APM.alerts m.
Proof.
  induction sched as [|t rest IH]; intros now dc m samples dc' m' Hcb Hrun.
  - simpl in Hrun. destruct (is_collecting dc); [discriminate|].
    now injection Hrun as _ _ <-.
  - rewrite loop_cons in Hrun.
    destruct (is_collecting dc); [|now injection Hrun as _ _ <-].
    destruct (stop_requested t); [now injection Hrun as _ _ <-|].
    destruct (duration_elapsed _ _ _); [now injection Hrun as _ _ <-|].
    pose proof (tick_alerts t dc m Hcb) as Ha.
    destruct (tick_buffer t dc m) as (_ & _ & _ & _ & Hc).
    destruct (tick t dc m) as [[data dc1] m1]. simpl in Ha, Hc.
    destruct (pause interval t _) as [[[]|x] now'];
      [|injection Hrun as _ _ <-; exact Ha].
    destruct (loop_passes _ _ _ now' rest dc1 m1) as [[[tr dc2] m2]|] eqn:E;
      [|discriminate].
    injection Hrun as _ _ <-.
    rewrite (IH now' dc1 m1 tr dc2 m2); [exact Ha| |exact E].
    rewrite Hc. exact Hcb.
Qed.

Lemma stop_monitoring_alerts (a : APM.AppPerformanceMonitor C) :
  APM.alerts (APM.monitor (snd (APM.stop_monitoring a)))
  = APM.alerts (APM.monitor a).
Proof.
  unfold APM.stop_monitoring, mbind, mget, mret. simpl.
  destruct (APM.is_monitoring (APM.monitor a)); simpl; [|reflexivity].
  destruct (APM.collector a) as [dc|]; [|reflexivity].
  destruct (stop_continuous_collection dc) as [r dc']. reflexivity.
Qed.

(** A whole monitoring run leaves the alert list as it was. *)
Lemma collect_all_alerts (t_start loop_start : Q) (sched : list TickEnv)
  (a a' : APM.AppPerformanceMonitor C) :
  (forall dc, APM.collector a = Some dc ->
              Forall (fun cb => cb = APM._on_data_collected) (callbacks dc)) ->
  APM.collect_all cfg t_start loop_start sched a = Some a' ->
  APM.alerts (APM.monitor a') = APM.alerts (APM.monitor a).
Proof.
  intros Hcb Hrun. unfold APM.collect_all in Hrun.
  destruct (APM.collector a) as [dc|] eqn:Ec; [|now injection Hrun as <-].
  specialize (Hcb dc eq_refl).
  set (dc0 := add_callback APM._on_data_collected dc) in Hrun.
  set (m0 := APM.set_start_time t_start
               (APM.set_is_monitoring true (APM.monitor a))) in Hrun.
  assert (Hcb0 : Forall (fun cb => cb = APM._on_data_collected) (callbacks dc0)).
  { subst dc0. simpl. apply Forall_app. split; [exact Hcb|].
    constructor; [reflexivity|constructor]. }
  unfold start_continuous_collection in Hrun.
  destruct (is_collecting dc0) eqn:Ei.
  - injection Hrun as <-. now rewrite stop_monitoring_alerts.
  - cbv beta iota zeta in Hrun.
    destruct (_collection_loop _ _ _ sched _ m0) as [[[tr dc2] m2]|] eqn:E;
      [|discriminate].
    injection Hrun as <-. rewrite stop_monitoring_alerts. simpl.
    unfold _collection_loop in E.
    apply loop_alerts in E; [exact E|exact Hcb0].
Qed.

(** A number metric read by the monitor is checked once. *)
Lemma collect_number_alerts (target : string) (e : Env) (t : Q)
  (a a' : APM.AppPerformanceMonitor C) (dc : DataCollector C APM.Monitor) (v : Q) :
  APM.collector a = Some dc ->
  APM.collect_number format_number cfg target e t a = (Ret v, a') ->
  APM.monitor a' = APM._check_alert format_number cfg t target v (APM.monitor a).
Proof.
  intros Hc H. unfold APM.collect_number in H. rewrite Hc in H.
  destruct (collect_single target e dc) as [[[|q|d]|x] dc']; try discriminate.
  - injection H as <- <-. reflexivity.
  - injection H as <- <-. reflexivity.
Qed.

Lemma collect_battery_alerts (e : Env) (t : Q)
  (a a' : APM.AppPerformanceMonitor C) (dc : DataCollector C APM.Monitor)
  (info : dict) (temperature : Q) :
  APM.collector a = Some dc ->
  APM.collect_battery format_number cfg e t a = (Ret info, a') ->
  info !! "temperature" = Some (PNum temperature) ->
  APM.monitor a' =
    APM._check_alert format_number cfg t "battery_temp" temperature (APM.monitor a).
Proof.
  intros Hc H Ht. unfold APM.collect_battery in H. rewrite Hc in H.
  destruct (collect_single "battery" e dc) as [[[|q|d]|x] dc']; try discriminate.
  - injection H as <- <-. rewrite lookup_empty in Ht. discriminate.
  - destruct (d !! "temperature") as [[temp|s]|] eqn:E; try discriminate.
    + injection H as <- <-. rewrite E in Ht. injection Ht as <-. reflexivity.
    + injection H as <- <-. rewrite E in Ht. discriminate.
Qed.

End Alerts.

(** ** C10: the zero sentinel is checked like any FPS value *)

(** C10. When [collect_single('fps')] gives [None] or 0.0 to
    [AppPerformanceMonitor.collect_fps] and the FPS threshold is positive,
    the call returns 0.0 and appends one below-threshold alert for the
    value 0.0 to the alert list. *)
Theorem fps_sentinel_raises_alert
  {C : Type} {ops : Collector C}
  (format_number : Q -> string) (cfg : Config) (e : Env) (t : Q)
  (a : APM.AppPerformanceMonitor C) (dc dc' : DataCollector C APM.Monitor)
  (r : pyobj) :
  APM.collector a = Some dc ->
  collect_single "fps" e dc = (Ret r, dc') ->
  r = PyNone \/ r = PyFloat 0 ->
  (0 < alert_fps_threshold cfg)%Q ->
  APM.collect_fps format_number cfg e t a =
  (Ret 0%Q,
   {| APM.monitor :=
        APM.set_alerts
          (APM.alerts (APM.monitor a) ++
           [{| APM.alert_timestamp := t; APM.alert_metric := "fps";
               APM.alert_value := 0; APM.alert_threshold := alert_fps_threshold cfg;
               APM.alert_message :=
                 ("FPS below threshold: " ++ format_number 0%Q ++ " < " ++
                  format_number (alert_fps_threshold cfg))%string |}])%list
          (APM.monitor a);
      APM.collector := Some dc' |}).
Proof.
  intros Hc Hs Hr Hpos.
  unfold APM.collect_fps, APM.collect_number. rewrite Hc, Hs.
  assert (Hfire := check_alert_fires format_number cfg t "fps" 0
                     (alert_fps_threshold cfg) (APM.monitor a) eq_refl).
  simpl in Hfire. apply Qlt_bool_iff in Hpos.
  destruct Hr as [-> | ->]; rewrite (Hfire Hpos); reflexivity.
Qed.

Lemma fps_sentinel_raises_alert_witness :
  let e := Fixtures.at_time Fixtures.unreachable 7 in
  exists a',
    APM.collect_fps Fixtures.show_floor default_config e 7 Fixtures.app_monitor
      = (Ret 0%Q, a') /\
    List.map APM.alert_message (APM.alerts (APM.monitor a'))
      = ["FPS below threshold: 0 < 30"].
Proof.
  intros e. eexists. split.
  - apply (fps_sentinel_raises_alert Fixtures.show_floor default_config e 7
             Fixtures.app_monitor
             (new_DataCollector default_config (Android.init "com.example.app"))
             (new_DataCollector default_config (Android.init "com.example.app"))
             (PyFloat 0)).
    + reflexivity.
    + reflexivity.
    + right. reflexivity.
    + reflexivity.
  - reflexivity.
Defined.

(** ** C4: where thresholds are checked *)

(** C4 as stated fails: in a monitoring run of two ticks the second sample
    has a CPU usage above its threshold and an FPS value below its
    threshold, and the alert list is still empty at the end. *)
Lemma loop_tick_appends_no_alert :
  let sched := [Fixtures.reading (Fixtures.proc_stat "100" "10") 0;
                Fixtures.reading (Fixtures.proc_stat "1100" "10") 1;
                Fixtures.stop_at 2] in
  exists a' d,
    APM.collect_all default_config 0 0 sched Fixtures.device_monitor = Some a' /\
    nth_error (APM.performance_data (APM.monitor a')) 1 = Some d /\
    (alert_cpu_threshold default_config < cpu_usage d)%Q /\
    (fps d < alert_fps_threshold default_config)%Q /\
    APM.alerts (APM.monitor a') = [].
Proof.
  intros sched. eexists. eexists.
  split; [vm_compute; reflexivity|].
  split; [reflexivity|].
  split; [reflexivity|]. split; reflexivity.
Qed.

(** C4, amended. The continuous collection loop does not evaluate
    thresholds: a run started by the monitor leaves the alert list as it
    was. Thresholds are checked by the single-shot calls [collect_cpu],
    [collect_memory], [collect_fps] and [collect_battery] of the monitor:
    each such call checks the value it returns, and every check of a CPU,
    memory or battery-temperature value over its threshold, or of an FPS
    value under its threshold, appends a new alert, whatever the list
    already holds. *)
Theorem alerts_from_single_shot_calls
  {C : Type} {ops : Collector C}
  (format_number : Q -> string) (cfg : Config)
  (t_start loop_start : Q) (sched : list TickEnv)
  (a a' : APM.AppPerformanceMonitor C) (dc : DataCollector C APM.Monitor) :
  APM.collector a = Some dc ->
  Forall (fun cb => cb = APM._on_data_collected) (callbacks dc) ->
  APM.collect_all cfg t_start loop_start sched a = Some a' ->
  let check := APM._check_alert format_number cfg in
  let alert t metric value threshold :=
    {| APM.alert_timestamp := t; APM.alert_metric := metric;
       APM.alert_value := value; APM.alert_threshold := threshold;
       APM.alert_message := APM.alert_text format_number metric value threshold |} in
  APM.alerts (APM.monitor a') = APM.alerts (APM.monitor a) /\
  (forall target e t v a1,
     In target ["cpu"; "memory"; "fps"] ->
     APM.collect_number format_number cfg target e t a = (Ret v, a1) ->
     APM.monitor a1 = check t target v (APM.monitor a)) /\
  (forall e t info temperature a1,
     APM.collect_battery format_number cfg e t a = (Ret info, a1) ->
     info !! "temperature" = Some (PNum temperature) ->
     APM.monitor a1 = check t "battery_temp" temperature (APM.monitor a)) /\
  (forall t v m,
     ((alert_cpu_threshold cfg < v)%Q ->
      APM.alerts (check t "cpu" v m)
      = (APM.alerts m ++ [alert t "cpu" v (alert_cpu_threshold cfg)])%list) /\
     ((alert_memory_threshold cfg < v)%Q ->
      APM.alerts (check t "memory" v m)
      = (APM.alerts m ++ [alert t "memory" v (alert_memory_threshold cfg)])%list) /\
     ((v < alert_fps_threshold cfg)%Q ->
      APM.alerts (check t "fps" v m)
      = (APM.alerts m ++ [alert t "fps" v (alert_fps_threshold cfg)])%list) /\
     ((alert_battery_temp_threshold cfg < v)%Q ->
      APM.alerts (check t "battery_temp" v m)
      = (APM.alerts m ++
         [alert t "battery_temp" v (alert_battery_temp_threshold cfg)])%list)).
Proof.
  intros Hc Hcb Hrun check alert.
  split; [|split; [|split]].
  - apply (collect_all_alerts cfg t_start loop_start sched a a'); [|exact Hrun].
    intros dc0 H0. rewrite Hc in H0. injection H0 as <-. exact Hcb.
  - intros target e t v a1 _ H.
    exact (collect_number_alerts format_number cfg target e t a a1 dc v Hc H).
  - intros e t info temperature a1 H Ht.
    exact (collect_battery_alerts format_number cfg e t a a1 dc info temperature
             Hc H Ht).
  - intros t v m. subst check alert. cbv beta.
    repeat split; intros Hv; apply Qlt_bool_iff in Hv.
    + now rewrite (check_alert_fires format_number cfg t "cpu" v _ m eq_refl Hv).
    + now rewrite (check_alert_fires format_number cfg t "memory" v _ m eq_refl Hv).
    + now rewrite (check_alert_fires format_number cfg t "fps" v _ m eq_refl Hv).
    + now rewrite (check_alert_fires format_number cfg t "battery_temp" v _ m
                     eq_refl Hv).
Qed.

Lemma alerts_from_single_shot_calls_witness :
  let sched := [Fixtures.reading (Fixtures.proc_stat "100" "10") 0;
                Fixtures.reading (Fixtures.proc_stat "1100" "10") 1;
                Fixtures.stop_at 2] in
  let e := Fixtures.at_time Fixtures.unreachable 7 in
  (exists a', APM.collect_all default_config 0 0 sched Fixtures.device_monitor = Some a' /\
              APM.alerts (APM.monitor a') = []) /\
  (exists a1 a2,
     APM.collect_fps Fixtures.show_floor default_config e 7 Fixtures.device_monitor
       = (Ret 0%Q, a1) /\
     APM.collect_fps Fixtures.show_floor default_config e 8 a1 = (Ret 0%Q, a2) /\
     List.map APM.alert_timestamp (APM.alerts (APM.monitor a2)) = [7; 8]%Q).
Proof.
  intros sched e.
  destruct (APM.collect_all default_config 0 0 sched Fixtures.device_monitor)
    as [a'|] eqn:Erun; [|vm_compute in Erun; discriminate].
  destruct (alerts_from_single_shot_calls Fixtures.show_floor default_config
              0 0 sched Fixtures.device_monitor a'
              (new_DataCollector default_config (Android.init "")))
    as (Hloop & Hnum & _ & Hfire); [reflexivity|constructor|exact Erun|].
  split.
  - exists a'. split; [reflexivity|exact Hloop].
  - eexists. eexists. split; [reflexivity|]. split; [reflexivity|]. reflexivity.
Defined.

(** * Further properties *)

(** ** Android extractors: failures and what they leave untouched *)

Module ExtractorFacts.
Import Android.

Ltac run_monad :=
  unfold execute_adb;
  unfold run_total, mbind, mget, mret, mmodify, catch, lift_result.

Ltac fails H cmd :=
  let x := fresh "x" in let Hx := fresh "Hx" in
  destruct (H cmd) as [x Hx]; rewrite Hx.

Lemma ensure_pid_silent (e : Env) (c : AndroidCollector) :
  silent e -> ensure_pid e c = (Ret tt, c).
Proof.
  intros H. unfold ensure_pid, get_pid. run_monad. simpl.
  destruct (_ && _) eqn:E; [|reflexivity].
  apply andb_prop in E. destruct E as [E _]. rewrite E. simpl.
  fails H ("shell pidof " ++ package_name c). reflexivity.
Qed.

End ExtractorFacts.

(** X1. When the device fails every command, each of the eight Android
    extractors returns its neutral value and leaves the collector, with its
    pid and its CPU and network baselines, as it was. *)
Theorem transport_failure_is_neutral
  (py_float : string -> option Q) (e : Env) (c : Android.AndroidCollector) :
  silent e ->
  Android.collect_cpu py_float e c = (0%Q, c) /\
  Android.collect_memory e c = (0%Q, c) /\
  Android.collect_memory_detail e c = (∅, c) /\
  Android.collect_network e c = (Android.net_zero, c) /\
  Android.collect_fps py_float e c = (0%Q, c) /\
  Android.collect_battery e c = (∅, c) /\
  Android.collect_gpu e c = (0%Q, c) /\
  Android.collect_thermal e c = (∅, c).
Proof.
  intros H.
  pose proof (ExtractorFacts.ensure_pid_silent e c H) as He.
  assert (Hb : Android.collect_battery e c = (∅, c)).
  { unfold Android.collect_battery, Android.collect_battery_body.
    ExtractorFacts.run_monad. ExtractorFacts.fails H "shell dumpsys battery".
    reflexivity. }
  repeat split.
  - unfold Android.collect_cpu, Android.collect_cpu_body, run_total, mbind.
    rewrite He. ExtractorFacts.run_monad.
    destruct (Android.pid_value c) as [p|].
    + ExtractorFacts.fails H ("shell top -p " ++ p ++ " -n 1"). reflexivity.
    + ExtractorFacts.fails H "shell cat /proc/stat". reflexivity.
  - unfold Android.collect_memory, Android.collect_memory_body, run_total, mbind.
    rewrite He. ExtractorFacts.run_monad.
    destruct (Android.pid_value c) as [p|].
    + ExtractorFacts.fails H ("shell dumpsys meminfo " ++ p). reflexivity.
    + ExtractorFacts.fails H "shell cat /proc/meminfo". reflexivity.
  - unfold Android.collect_memory_detail, Android.collect_memory_detail_body,
      run_total, mbind.
    rewrite He. ExtractorFacts.run_monad.
    destruct (Android.pid_value c) as [p|]; [|reflexivity].
    ExtractorFacts.fails H ("shell dumpsys meminfo " ++ p). reflexivity.
  - unfold Android.collect_network, Android.collect_network_body, run_total, mbind.
    rewrite He. ExtractorFacts.run_monad.
    destruct (Android.pid_value c) as [p|]; [|reflexivity].
    ExtractorFacts.fails H ("shell cat /proc/" ++ p ++ "/status"). reflexivity.
  - unfold Android.collect_fps, Android.collect_fps_body.
    ExtractorFacts.run_monad.
    destruct (PyStr.truthy (Android.package_name c)); simpl; [|reflexivity].
    ExtractorFacts.fails H ("shell dumpsys gfxinfo " ++ Android.package_name c).
    reflexivity.
  - exact Hb.
  - unfold Android.collect_gpu, Android.collect_gpu_body.
    ExtractorFacts.run_monad.
    ExtractorFacts.fails H "shell cat /sys/class/kgsl/kgsl-3d0/gpubusy".
    ExtractorFacts.fails H "shell cat /proc/mali/utilization". reflexivity.
  - unfold Android.collect_thermal, Android.collect_thermal_body.
    ExtractorFacts.run_monad.
    ExtractorFacts.fails H "shell cat /sys/class/thermal/thermal_zone*/temp".
    cbv beta iota. rewrite Hb. reflexivity.
Qed.

Lemma transport_failure_is_neutral_witness :
  let c := Android.set_last_cpu_data (210, 20) (Fixtures.with_pid "4242") in
  let e := Fixtures.at_time Fixtures.unreachable 3 in
  Android.collect_cpu Fixtures.dec_float e c = (0%Q, c) /\
  Android.collect_network e c = (Android.net_zero, c).
Proof.
  intros c e.
  destruct (transport_failure_is_neutral Fixtures.dec_float e c)
    as (Hcpu & _ & _ & Hnet & _).
  - intros command. eexists. reflexivity.
  - split; [exact Hcpu|exact Hnet].
Defined.

(** X2. Once a process id is known it is never looked up again or changed:
    whatever the device answers, [collect_cpu], [collect_memory] and
    [collect_memory_detail] leave the collector as it was (the CPU baseline
    is neither read nor written on the process path), and
    [collect_network] changes [last_network_data] at most. *)
Theorem known_pid_is_kept
  (py_float : string -> option Q) (e : Env) (c : Android.AndroidCollector)
  (p : string) :
  Android.pid_value c = Some p ->
  snd (Android.collect_cpu py_float e c) = c /\
  snd (Android.collect_memory e c) = c /\
  snd (Android.collect_memory_detail e c) = c /\
  (snd (Android.collect_network e c) = c \/
   exists d, snd (Android.collect_network e c)
             = Android.set_last_network_data d c).
Proof.
  intros Hp. pose proof (NetworkFacts.ensure_pid_known e c p Hp) as He.
  repeat split.
  - unfold Android.collect_cpu, Android.collect_cpu_body, run_total, mbind.
    rewrite He. ExtractorFacts.run_monad. rewrite Hp.
    destruct (device e _) as [output|x]; [|reflexivity].
    destruct (Android.top_lines _ _ _) as [[q|x]|]; reflexivity.
  - unfold Android.collect_memory, Android.collect_memory_body, run_total, mbind.
    rewrite He. ExtractorFacts.run_monad. rewrite Hp.
    destruct (device e _) as [output|x]; [|reflexivity].
    destruct (Android.meminfo_total _); reflexivity.
  - unfold Android.collect_memory_detail, Android.collect_memory_detail_body,
      run_total, mbind.
    rewrite He. ExtractorFacts.run_monad. rewrite Hp.
    destruct (device e _) as [output|x]; reflexivity.
  - unfold Android.collect_network, Android.collect_network_body, run_total, mbind.
    rewrite He. ExtractorFacts.run_monad. rewrite Hp.
    destruct (device e _) as [uo|x]; [|now left].
    destruct (Android.find_uid _) as [[u|]|x]; try (now left).
    destruct (PyStr.truthy u); [|now left].
    destruct (device e _) as [ro|x]; [|now left].
    destruct (Android.qtaguid_sum 0 0 _) as [t|x]; [|now left].
    unfold Android.network_delta. ExtractorFacts.run_monad. simpl.
    destruct (Android.last_network_data c) as [last|]; simpl.
    + destruct (Qlt_bool 0 _); simpl; right; eexists; reflexivity.
    + right; eexists; reflexivity.
Qed.

Lemma known_pid_is_kept_witness :
  let c := Fixtures.with_pid "4242" in
  let e := Fixtures.at_time Fixtures.top_device 0 in
  snd (Android.collect_cpu Fixtures.dec_float e c) = c /\
  snd (Android.collect_memory e c) = c.
Proof.
  intros c e.
  destruct (known_pid_is_kept Fixtures.dec_float e c "4242") as (H1 & H2 & _).
  - reflexivity.
  - split; [exact H1|exact H2].
Defined.

(** X3. [collect_fps], [collect_battery], [collect_gpu] and
    [collect_thermal] keep no state: whatever the device answers, the
    collector is left as it was. *)
Theorem stateless_extractors
  (py_float : string -> option Q) (e : Env) (c : Android.AndroidCollector) :
  snd (Android.collect_fps py_float e c) = c /\
  snd (Android.collect_battery e c) = c /\
  snd (Android.collect_gpu e c) = c /\
  snd (Android.collect_thermal e c) = c.
Proof.
  assert (Hb : forall c0, snd (Android.collect_battery e c0) = c0).
  { intros c0. unfold Android.collect_battery, Android.collect_battery_body.
    ExtractorFacts.run_monad.
    destruct (device e _) as [output|x]; [|reflexivity].
    destruct (Android.battery_scan _ _) as [b|x]; [|reflexivity].
    destruct (Android.battery_power b); reflexivity. }
  repeat split.
  - rewrite collect_fps_frames. reflexivity.
  - apply Hb.
  - unfold Android.collect_gpu, Android.collect_gpu_body.
    ExtractorFacts.run_monad.
    destruct (device e "shell cat /sys/class/kgsl/kgsl-3d0/gpubusy") as [o|x].
    + destruct (PyStr.truthy o); [|reflexivity].
      destruct (Android.two_ints _) as [[b t]|x].
      * destruct (0 <? t); reflexivity.
      * destruct (device e _) as [o2|x2]; [|reflexivity].
        destruct (_ && _); [|reflexivity].
        destruct (Android.search_percent o2); reflexivity.
    + destruct (device e _) as [o2|x2]; [|reflexivity].
      destruct (_ && _); [|reflexivity].
      destruct (Android.search_percent o2); reflexivity.
  - unfold Android.collect_thermal, Android.collect_thermal_body.
    ExtractorFacts.run_monad.
    specialize (Hb c).
    destruct (device e _) as [o|x].
    + destruct (Android.zone_temperatures _) as [|t ts]; cbv beta iota;
        destruct (Android.collect_battery e c) as [b c']; simpl in Hb; subst c';
        destruct (b !! "temperature"); reflexivity.
    + cbv beta iota.
      destruct (Android.collect_battery e c) as [b c']; simpl in Hb; subst c'.
      destruct (b !! "temperature"); reflexivity.
Qed.

(** X4. A collector without package name (and so without pid) monitors the
    whole device: [collect_network] is all zeros, [collect_fps] is 0.0 and
    [collect_memory_detail] is empty, whatever the device answers, and the
    collector is unchanged. *)
Theorem device_wide_metrics_are_neutral
  (py_float : string -> option Q) (e : Env) (c : Android.AndroidCollector) :
  Android.package_name c = "" ->
  Android.pid c = None ->
  Android.collect_network e c = (Android.net_zero, c) /\
  Android.collect_fps py_float e c = (0%Q, c) /\
  Android.collect_memory_detail e c = (∅, c).
Proof.
  intros Hn Hp.
  assert (Hv : Android.pid_value c = None)
    by (unfold Android.pid_value; now rewrite Hp).
  assert (He : Android.ensure_pid e c = (Ret tt, c)).
  { unfold Android.ensure_pid. ExtractorFacts.run_monad. now rewrite Hn. }
  repeat split.
  - unfold Android.collect_network, Android.collect_network_body, run_total, mbind.
    rewrite He. ExtractorFacts.run_monad. now rewrite Hv.
  - unfold Android.collect_fps, Android.collect_fps_body.
    ExtractorFacts.run_monad. now rewrite Hn.
  - unfold Android.collect_memory_detail, Android.collect_memory_detail_body,
      run_total, mbind.
    rewrite He. ExtractorFacts.run_monad. now rewrite Hv.
Qed.

Lemma device_wide_metrics_are_neutral_witness :
  let e := Fixtures.at_time (Fixtures.traffic "1000" "3000") 1 in
  Android.collect_network e (Android.init "") = (Android.net_zero, Android.init "") /\
  Android.collect_fps Fixtures.dec_float e (Android.init "") = (0%Q, Android.init "").
Proof.
  intros e.
  destruct (device_wide_metrics_are_neutral Fixtures.dec_float e (Android.init ""))
    as (H1 & H2 & _); try reflexivity.
  split; [exact H1|exact H2].
Defined.

(** ** Battery and thermal readings *)

Module BatteryFacts.
Import Android.

Lemma scanned_empty : battery_scanned ∅.
Proof. repeat split; intros; discriminate. Qed.

Lemma scanned_insert (key : string) (v : pyval) (d : dict) :
  battery_scanned d ->
  key ≠ "power" ->
  (key = "voltage" \/ key = "current" -> exists q, v = PNum q) ->
  battery_scanned (<[key := v]> d).
Proof.
  intros (Hp & Hv & Hc) Hk Hnum. repeat split.
  - rewrite lookup_insert_ne by exact Hk. exact Hp.
  - intros x. destruct (decide (key = "voltage")) as [->|Hne].
    + rewrite lookup_insert_eq. intros [= <-]. apply Hnum. now left.
    + rewrite lookup_insert_ne by exact Hne. apply Hv.
  - intros x. destruct (decide (key = "current")) as [->|Hne].
    + rewrite lookup_insert_eq. intros [= <-]. apply Hnum. now right.
    + rewrite lookup_insert_ne by exact Hne. apply Hc.
Qed.

Lemma battery_scan_scanned (ls : list string) :
  forall d b, battery_scanned d -> battery_scan d ls = Ret b -> battery_scanned b.
Proof.
  induction ls as [|raw rest IH]; intros d b Hd Hs; simpl in Hs.
  - now injection Hs as <-.
  - repeat match type of Hs with
    | (if ?t then _ else _) = _ => destruct t
    | match int_after_colon ?l with _ => _ end = _ =>
        destruct (int_after_colon l) as [v|x]; [|discriminate]
    | match after_colon ?l with _ => _ end = _ =>
        destruct (after_colon l) as [v|x]; [|discriminate]
    end;
    try (apply (IH _ _ Hd Hs));
    (eapply IH; [|exact Hs]; apply scanned_insert;
     [exact Hd|discriminate|
      intros [E|E]; try discriminate E; eexists; reflexivity]).
Qed.

(** A numeric line whose value is not an integer stops the loop. *)
Lemma battery_scan_unreadable (line : string) (after : list string) :
  numeric_battery_line (PyStr.strip line) = true ->
  (exists x, int_after_colon (PyStr.strip line) = Raise x) ->
  forall before d, exists x, battery_scan d (before ++ line :: after) = Raise x.
Proof.
  intros Hnum [x Hx]. induction before as [|l0 before IH]; intros d.
  - simpl. unfold numeric_battery_line in Hnum. rewrite Hx.
    destruct (PyStr.contains "level:" _); [now exists x|].
    destruct (PyStr.contains "temperature:" _); [now exists x|].
    destruct (PyStr.contains "voltage:" _); [now exists x|].
    destruct (PyStr.contains "current now:" _); [now exists x|].
    discriminate.
  - simpl.
    repeat match goal with
    | |- exists _, (if ?t then _ else _) = _ => destruct t
    | |- exists _, match int_after_colon ?l with _ => _ end = _ =>
        destruct (int_after_colon l) as [v|y]; [|now exists y]
    | |- exists _, match after_colon ?l with _ => _ end = _ =>
        destruct (after_colon l) as [v|y]; [|now exists y]
    end; apply IH.
Qed.

End BatteryFacts.

(** X5. [collect_battery] derives the power exactly when it has read both
    a voltage and a current: the result then holds
    [|voltage * current / 1000000|] under ['power'], and otherwise has no
    ['power'] entry. *)
Theorem battery_power_needs_voltage_and_current
  (e : Env) (c : Android.AndroidCollector) :
  let b := fst (Android.collect_battery e c) in
  match b !! "voltage", b !! "current" with
  | Some v, Some i =>
      exists voltage current,
        v = PNum voltage /\ i = PNum current /\
        b !! "power" = Some (PNum (Qabs (voltage * current / 1000000)))
  | _, _ => b !! "power" = None
  end.
Proof.
  unfold Android.collect_battery, Android.collect_battery_body.
  ExtractorFacts.run_monad.
  destruct (device e _) as [output|x]; [|reflexivity].
  destruct (Android.battery_scan ∅ _) as [d|x] eqn:Es; [|reflexivity].
  pose proof (BatteryFacts.battery_scan_scanned _ _ _
                BatteryFacts.scanned_empty Es) as (Hp & Hv & Hc).
  unfold Android.battery_power.
  destruct (d !! "voltage") as [v|] eqn:Ev.
  - destruct (d !! "current") as [i|] eqn:Ei.
    + destruct (Hv v eq_refl) as [qv ->]. destruct (Hc i eq_refl) as [qi ->].
      simpl. rewrite !lookup_insert_ne by discriminate. rewrite Ev, Ei.
      exists qv, qi. rewrite lookup_insert_eq. auto.
    + simpl. rewrite Ev, Ei. exact Hp.
  - simpl. rewrite Ev. exact Hp.
Qed.

(** X6. The battery reading is all or nothing: when one line with a numeric
    marker ([level:], [temperature:], [voltage:], [current now:]) carries
    no integer after its colon, [collect_battery] returns the empty
    dictionary, whatever the other lines hold. *)
Theorem battery_unreadable_line_voids_reading
  (e : Env) (c : Android.AndroidCollector) (output line : string)
  (before after : list string) :
  device e "shell dumpsys battery" = Ret output ->
  Android.lines output = (before ++ line :: after)%list ->
  numeric_battery_line (PyStr.strip line) = true ->
  (exists x, Android.int_after_colon (PyStr.strip line) = Raise x) ->
  Android.collect_battery e c = (∅, c).
Proof.
  intros Hd Hl Hn Hx.
  unfold Android.collect_battery, Android.collect_battery_body.
  ExtractorFacts.run_monad. rewrite Hd, Hl.
  destruct (BatteryFacts.battery_scan_unreadable line after Hn Hx before ∅)
    as [x ->].
  reflexivity.
Qed.

Lemma battery_unreadable_line_voids_reading_witness :
  let output := ("  level: 85" ++ Fixtures.nl ++ "  voltage: 4.2V" ++
                 Fixtures.nl ++ "  temperature: 312")%string in
  let e := Fixtures.at_time (Fixtures.answers "shell dumpsys battery" output) 0 in
  Android.collect_battery e (Android.init "") = (∅, Android.init "").
Proof.
  intros output e.
  apply (battery_unreadable_line_voids_reading e (Android.init "") output
           "  voltage: 4.2V" ["  level: 85"] ["  temperature: 312"]).
  - reflexivity.
  - reflexivity.
  - reflexivity.
  - eexists. reflexivity.
Defined.

(** X7. The battery temperature of [collect_thermal] is the one of
    [collect_battery] on the same device: the ['battery_temp'] entry is
    present exactly when the battery reading has a ['temperature'], with
    the same value. *)
Theorem thermal_battery_temp_is_battery_temperature
  (e : Env) (c : Android.AndroidCollector) :
  fst (Android.collect_thermal e c) !! "battery_temp"
  = fst (Android.collect_battery e c) !! "temperature".
Proof.
  unfold Android.collect_thermal, Android.collect_thermal_body.
  ExtractorFacts.run_monad.
  destruct (device e "shell cat /sys/class/thermal/thermal_zone*/temp") as [o|x].
  - destruct (Android.zone_temperatures _) as [|t ts]; cbv beta iota;
      destruct (Android.collect_battery e c) as [b c']; simpl;
      destruct (b !! "temperature") as [v|] eqn:E; simpl;
      try (now rewrite lookup_insert_eq); reflexivity.
  - cbv beta iota. destruct (Android.collect_battery e c) as [b c']; simpl.
    destruct (b !! "temperature") as [v|] eqn:E; simpl;
      try (now rewrite lookup_insert_eq); reflexivity.
Qed.

(** ** Ranges of the FPS and CPU values *)

Section Ranges.

Variable py_float : string -> option Q.

Lemma frame_scan_skip (line : string) (rest : list string) (acc : list Q) :
  PyStr.contains "Total frames rendered:" line = false ->
  Android.frame_scan py_float false acc (line :: rest) =
  if (120 <=? length acc)%nat then acc
  else Android.frame_scan py_float false acc rest.
Proof. intros H. cbn [Android.frame_scan]. rewrite H. reflexivity. Qed.

Lemma frame_scan_no_marker (ls : list string) :
  Forall (fun l => PyStr.contains "Total frames rendered:" l = false) ls ->
  forall acc, Android.frame_scan py_float false acc ls = acc.
Proof.
  induction 1 as [|line rest Hl _ IH]; intros acc; [reflexivity|].
  rewrite (frame_scan_skip _ _ _ Hl).
  destruct (120 <=? length acc)%nat; [reflexivity|apply IH].
Qed.

Lemma fps_of_frames_value (frames : list Q) :
  frames <> [] -> positive_durations frames ->
  Android.fps_of_frames frames = Some (Qmin (1000 / mean (lastn 60 frames)) 60)
  /\ (0 < mean (lastn 60 frames))%Q.
Proof.
  intros Hne Hpos.
  assert (Hm : (0 < mean (lastn 60 frames))%Q).
  { apply mean_positive; [apply lastn_nonempty; [lia|exact Hne]|].
    now apply lastn_positive. }
  split; [|exact Hm].
  unfold Android.fps_of_frames. destruct frames as [|x l]; [congruence|].
  fold (mean (lastn 60 (x :: l))).
  apply Qlt_bool_iff in Hm. rewrite Hm, cap60_min. reflexivity.
Qed.

End Ranges.

(** X8. The value of [AndroidCollector.collect_fps] always lies between 0
    and 60, and a positive value comes from a retained frame duration:
    when the call retained none, the value is not positive. (A retained
    duration need not give a positive value: on a row that [float] reads
    as an infinity the code returns 0.0.) *)
Theorem collect_fps_range
  (py_float : string -> option Q) (e : Env) (c : Android.AndroidCollector) :
  let v := fst (Android.collect_fps py_float e c) in
  (0 <= v)%Q /\ (v <= 60)%Q /\
  ((0 < v)%Q -> Android.retained_frames py_float e c <> []).
Proof.
  intros v. subst v. rewrite collect_fps_frames. simpl.
  destruct (retained_frames_bound py_float e c) as [_ Hpos].
  destruct (Android.retained_frames py_float e c) as [|x l] eqn:E.
  - simpl. split; [apply Qle_refl|]. split; [discriminate|].
    intros H; exfalso; exact (Qlt_irrefl 0 H).
  - destruct (fps_of_frames_value (x :: l)) as [-> Hm]; [discriminate|exact Hpos|].
    assert (Hq : (0 < 1000 / mean (lastn 60 (x :: l)))%Q).
    { apply Qlt_shift_div_l; [exact Hm|]. rewrite Qmult_0_l. reflexivity. }
    assert (Hmin : (0 < Qmin (1000 / mean (lastn 60 (x :: l))) 60)%Q).
    { apply Q.min_glb_lt; [exact Hq|reflexivity]. }
    split; [now apply Qlt_le_weak|]. split; [apply Q.le_min_r|].
    discriminate.
Qed.

(** X9. Durations are read only after a line that contains
    ["Total frames rendered:"]: when no line of the [gfxinfo] output has
    it, nothing is retained and [collect_fps] returns 0.0. *)
Theorem collect_fps_needs_marker
  (py_float : string -> option Q) (e : Env) (c : Android.AndroidCollector)
  (output : string) :
  device e ("shell dumpsys gfxinfo " ++ Android.package_name c) = Ret output ->
  Forall (fun l => PyStr.contains "Total frames rendered:" l = false)
         (Android.lines output) ->
  Android.retained_frames py_float e c = [] /\
  Android.collect_fps py_float e c = (0%Q, c).
Proof.
  intros Hd Hf.
  assert (Hr : Android.retained_frames py_float e c = []).
  { unfold Android.retained_frames.
    destruct (PyStr.truthy _); [|reflexivity].
    rewrite Hd. unfold Android.frame_times_of.
    now apply frame_scan_no_marker. }
  split; [exact Hr|]. rewrite collect_fps_frames, Hr. reflexivity.
Qed.

Lemma collect_fps_needs_marker_witness :
  let c := Android.init "com.example.app" in
  let e := Fixtures.at_time
             (Fixtures.answers "shell dumpsys gfxinfo com.example.app"
                ("16.0" ++ Fixtures.nl ++ "17.5")) 0 in
  Android.retained_frames Fixtures.dec_float e c = [] /\
  Android.collect_fps Fixtures.dec_float e c = (0%Q, c).
Proof.
  intros c e.
  apply (collect_fps_needs_marker Fixtures.dec_float e c
           ("16.0" ++ Fixtures.nl ++ "17.5")).
  - reflexivity.
  - repeat constructor.
Defined.

(** X10. The global CPU usage is not clamped: for a reading whose total
    counter advanced, the value lies between 0 and 100 exactly when the
    idle counter advanced by no more than the total did. *)
Theorem collect_cpu_range
  (py_float : string -> option Q) (e : Env) (c : Android.AndroidCollector)
  (total1 idle1 total2 idle2 : Z) :
  Android.last_cpu_data c = Some (total1, idle1) ->
  Android.no_pid e c ->
  Android.proc_stat_counters e = Some (total2, idle2) ->
  total1 < total2 ->
  let v := fst (Android.collect_cpu py_float e c) in
  ((0 <= v)%Q <-> idle2 - idle1 <= total2 - total1) /\
  ((v <= 100)%Q <-> 0 <= idle2 - idle1).
Proof.
  intros Hlast Hn Hc Hlt v. subst v.
  rewrite (AndroidFacts.collect_cpu_global _ _ _ _ Hn Hc).
  unfold Android.cpu_delta, mbind, mget, mmodify, mret. simpl.
  rewrite Hlast.
  assert (Hpos : (0 <? total2 - total1) = true) by (apply Z.ltb_lt; lia).
  rewrite Hpos. simpl.
  set (td := total2 - total1) in *. set (id := idle2 - idle1).
  assert (Htd : (0 < inject_Z td)%Q).
  { change 0%Q with (inject_Z 0). rewrite <- Zlt_Qlt. lia. }
  split.
  - split.
    + intros H. apply (Qmult_le_compat_r _ _ (inject_Z td)) in H;
        [|now apply Qlt_le_weak].
      assert (E : (100 * inject_Z (td - id) / inject_Z td * inject_Z td
                   == inject_Z (100 * (td - id)))%Q).
      { rewrite inject_Z_mult. field. intros Hz. rewrite Hz in Htd.
        exact (Qlt_irrefl 0 Htd). }
      rewrite E, Qmult_0_l in H. change 0%Q with (inject_Z 0) in H.
      rewrite <- Zle_Qle in H. lia.
    + intros H. apply Qle_shift_div_l; [exact Htd|].
      rewrite Qmult_0_l. change 100%Q with (inject_Z 100).
      rewrite <- inject_Z_mult. change 0%Q with (inject_Z 0).
      rewrite <- Zle_Qle. lia.
  - split.
    + intros H. apply (Qmult_le_compat_r _ _ (inject_Z td)) in H;
        [|now apply Qlt_le_weak].
      assert (E : (100 * inject_Z (td - id) / inject_Z td * inject_Z td
                   == inject_Z (100 * (td - id)))%Q).
      { rewrite inject_Z_mult. field. intros Hz. rewrite Hz in Htd.
        exact (Qlt_irrefl 0 Htd). }
      rewrite E in H. change 100%Q with (inject_Z 100) in H.
      rewrite <- inject_Z_mult, <- Zle_Qle in H. lia.
    + intros H. apply Qle_shift_div_r; [exact Htd|].
      change 100%Q with (inject_Z 100).
      rewrite <- !inject_Z_mult, <- Zle_Qle. lia.
Qed.

Lemma collect_cpu_range_witness :
  let c := Android.set_last_cpu_data (110, 10) (Android.init "") in
  let e := Fixtures.at_time (Fixtures.proc_stat "190" "5") 1 in
  ~ (fst (Android.collect_cpu Fixtures.dec_float e c) <= 100)%Q.
Proof.
  intros c e.
  destruct (collect_cpu_range Fixtures.dec_float e c 110 10 195 5) as [_ H];
    try reflexivity.
  intros Hle. destruct H as [H _]. specialize (H Hle). lia.
Defined.

(** ** DataCollector: reading the buffer, single metrics, whole samples *)

(** X11. [get_recent_data(count)] returns the last [count] samples when
    [1 <= count <= len(buffer)]; the whole buffer when [count] is 0 or
    exceeds the length; and for a negative [count] the buffer without its
    first [-count] samples. The result is always a suffix of the buffer. *)
Theorem get_recent_data_cases
  {C W : Type} (count : Z) (dc : DataCollector C W) :
  let buffer := data_buffer dc in
  let len := Z.of_nat (length buffer) in
  (1 <= count <= len ->
   get_recent_data count dc = lastn (Z.to_nat count) buffer /\
   Z.of_nat (length (get_recent_data count dc)) = count) /\
  (count = 0 \/ len < count -> get_recent_data count dc = buffer) /\
  (count < 0 -> get_recent_data count dc = skipn (Z.to_nat (- count)) buffer) /\
  (exists dropped, buffer = (dropped ++ get_recent_data count dc)%list).
Proof.
  intros buffer len. unfold get_recent_data, slice_from. fold buffer. fold len.
  split; [|split; [|split]].
  - intros [H1 H2].
    assert (E : (count <=? len) = true) by (apply Z.leb_le; lia).
    assert (E' : (- count <? 0) = true) by (apply Z.ltb_lt; lia).
    rewrite E, E'.
    replace (Z.to_nat (Z.max (len + - count) 0))
      with (length buffer - Z.to_nat count)%nat by lia.
    split; [reflexivity|]. rewrite length_skipn. lia.
  - intros [-> | H].
    + assert (E : (0 <=? len) = true) by (apply Z.leb_le; lia).
      rewrite E. change (- 0) with 0. change (0 <? 0) with false. cbv iota.
      rewrite Z.min_l by lia. reflexivity.
    + assert (E : (count <=? len) = false) by (apply Z.leb_gt; lia).
      rewrite E. reflexivity.
  - intros H.
    assert (E : (count <=? len) = true) by (apply Z.leb_le; lia).
    assert (E' : (- count <? 0) = false) by (apply Z.ltb_ge; lia).
    rewrite E, E'.
    destruct (Z.le_gt_cases (- count) len) as [Hle|Hgt].
    + rewrite Z.min_l by exact Hle. reflexivity.
    + rewrite Z.min_r by lia. rewrite !skipn_all2 by lia. reflexivity.
  - destruct (count <=? len).
    + eexists. symmetry. apply firstn_skipn.
    + exists []. reflexivity.
Qed.

Lemma get_recent_data_cases_witness :
  let d (t : Q) := new_PerformanceData t in
  let dc := set_data_buffer [d 1%Q; d 2%Q; d 3%Q] (Fixtures.running_collector 1000) in
  get_recent_data 2 dc = [d 2%Q; d 3%Q] /\
  get_recent_data 0 dc = [d 1%Q; d 2%Q; d 3%Q] /\
  get_recent_data 7 dc = [d 1%Q; d 2%Q; d 3%Q] /\
  get_recent_data (-1) dc = [d 2%Q; d 3%Q].
Proof.
  intros d dc.
  destruct (get_recent_data_cases 2 dc) as ((H2 & _) & _); [simpl; lia|].
  destruct (get_recent_data_cases 0 dc) as (_ & H0 & _).
  destruct (get_recent_data_cases 7 dc) as (_ & H7 & _).
  destruct (get_recent_data_cases (-1) dc) as (_ & _ & Hn & _).
  split; [exact H2|]. split; [apply H0; now left|].
  split; [apply H7; right; simpl; lia|]. apply Hn. lia.
Defined.

Module IOSFacts.
Import IOS.

Ltac run_monad :=
  unfold execute_ios_command, or_zero;
  unfold run_total, mbind, mget, mret, mmodify, catch, lift_result.

(** [collect_cpu], [collect_memory] and [collect_fps] keep no state. *)
Lemma collect_cpu_state (e : Env) (c : IOSCollector) : snd (collect_cpu e c) = c.
Proof.
  unfold collect_cpu, collect_cpu_body. run_monad.
  destruct (PyStr.truthy _); destruct (device e _) as [o|x]; try reflexivity;
    destruct (first_match _ _ _); reflexivity.
Qed.

Lemma collect_memory_state (e : Env) (c : IOSCollector) :
  snd (collect_memory e c) = c.
Proof.
  unfold collect_memory, collect_memory_body. run_monad.
  destruct (PyStr.truthy _); destruct (device e _) as [o|x]; try reflexivity;
    destruct (first_match _ _ _); reflexivity.
Qed.

End IOSFacts.

(** X12. On an iOS collector, [DataCollector.collect_all] stops at the
    missing [collect_memory_detail]: the sample carries the CPU and memory
    values and the defaults everywhere else, the network, FPS and battery
    extractors are not called, and the collector, with its network
    baseline, is left as it was. *)
Theorem ios_collect_all_stops_after_memory
  (percent_of : string -> Z) (stamp : Q) (e : Env) (c : IOS.IOSCollector) :
  collect_all (ops := ios_collector percent_of) stamp e c =
  (set_memory_usage (fst (IOS.collect_memory e c))
     (set_cpu_usage (fst (IOS.collect_cpu e c)) (new_PerformanceData stamp)),
   c).
Proof.
  unfold collect_all, collect_all_body, run_total, mbind, on_collector, assign,
    mmodify, call. simpl.
  pose proof (IOSFacts.collect_cpu_state e c) as H1.
  destruct (IOS.collect_cpu e c) as [cpu c1]. simpl in *. subst c1.
  pose proof (IOSFacts.collect_memory_state e c) as H2.
  destruct (IOS.collect_memory e c) as [mem c2]. simpl in *. subst c2.
  reflexivity.
Qed.

(** X13. For an Android collector, [collect_single] returns [None] exactly
    for the targets that are none of the eight metrics. *)
Theorem android_collect_single_none_iff_unknown
  {W : Type} (py_float : string -> option Q) (target : string) (e : Env)
  (dc : DataCollector Android.AndroidCollector W) :
  fst (collect_single (ops := android_collector py_float) target e dc)
    = Ret PyNone
  <-> ~ known_target target.
Proof.
  split.
  - intros H Hk. unfold known_target in Hk. simpl in Hk.
    unfold collect_single, catch, on_platform, collect_single_body in H.
    repeat (destruct Hk as [<-|Hk];
            [simpl in H; unfold mbind, mret in H;
             match type of H with
             | context [let '(_, _) := ?f ?e0 ?c0 in _] =>
                 destruct (f e0 c0)
             end; discriminate|]).
    exact Hk.
  - intros Hk. unfold collect_single, catch, on_platform.
    rewrite (unknown_target_raises target e (collector dc) Hk). reflexivity.
Qed.

(** X14. For an iOS collector, [collect_single] also returns [None] for
    [memory_detail], [gpu] and [thermal], which [IOSCollector] does not
    implement: the [AttributeError] is handled like an unknown target, and
    the collector is unchanged. *)
Theorem ios_collect_single_missing_metric
  {W : Type} (percent_of : string -> Z) (target : string) (e : Env)
  (dc : DataCollector IOS.IOSCollector W) :
  In target ["memory_detail"; "gpu"; "thermal"] ->
  collect_single (ops := ios_collector percent_of) target e dc = (Ret PyNone, dc).
Proof.
  intros H. simpl in H.
  destruct H as [<-|[<-|[<-|[]]]]; destruct dc; reflexivity.
Qed.

Lemma ios_collect_single_missing_metric_witness :
  let dc : DataCollector IOS.IOSCollector unit :=
    new_DataCollector default_config (IOS.init "com.example.app") in
  collect_single (ops := ios_collector (fun _ => 0%Z)) "gpu"
    (Fixtures.at_time Fixtures.unreachable 0) dc = (Ret PyNone, dc).
Proof.
  intros dc. apply (ios_collect_single_missing_metric (fun _ => 0%Z) "gpu").
  simpl. tauto.
Defined.

(** ** The loop and its subscribers *)

Section Subscribers.

Context {C : Type} {ops : Collector C}.
Implicit Types (dc : DataCollector C APM.Monitor) (m : APM.Monitor).

(** [n] registrations of the callback store the sample [n] times. *)
Lemma run_callbacks_stores (cbs : list (PerformanceData -> M APM.Monitor unit))
  (data : PerformanceData) :
  Forall (fun cb => cb = APM._on_data_collected) cbs ->
  forall m,
    APM.performance_data (run_callbacks cbs data m)
    = (APM.performance_data m ++ repeat data (length cbs))%list.
Proof.
  induction 1 as [|cb cbs Hcb _ IH]; intros m; simpl.
  - now rewrite app_nil_r.
  - rewrite IH. subst cb. simpl. now rewrite <- app_assoc.
Qed.

Lemma tick_stores (t : TickEnv) dc m :
  Forall (fun cb => cb = APM._on_data_collected) (callbacks dc) ->
  APM.performance_data (snd (tick t dc m)) =
    (APM.performance_data m ++
     repeat (fst (fst (tick t dc m))) (length (callbacks dc)))%list.
Proof.
  intros Hcb. unfold tick. destruct (collect_all _ _ _) as [data c']. simpl.
  now apply run_callbacks_stores.
Qed.

Lemma loop_stores interval duration start_time sched :
  forall now dc m samples dc' m',
    Forall (fun cb => cb = APM._on_data_collected) (callbacks dc) ->
    loop_passes interval duration start_time now sched dc m
      = Some (samples, dc', m') ->
    callbacks dc' = callbacks dc /\
    APM.performance_data m' =
      (APM.performance_data m ++
       flat_map (fun d => repeat d (length (callbacks dc))) samples)%list.
Proof.
  induction sched as [|t rest IH]; intros now dc m samples dc' m' Hcb Hrun.
  - simpl in Hrun. destruct (is_collecting dc); [discriminate|].
    injection Hrun as <- <- <-. simpl. now rewrite app_nil_r.
  - rewrite loop_cons in Hrun.
    assert (Hexit : forall x, Some (@nil PerformanceData, loop_exit dc, x)
                              = Some (samples, dc', m') ->
                    callbacks dc' = callbacks dc /\
                    APM.performance_data m' =
                    (APM.performance_data x ++
                     flat_map (fun d => repeat d (length (callbacks dc))) samples)%list).
    { intros x Hx. injection Hx as <- <- <-. simpl. now rewrite app_nil_r. }
    destruct (is_collecting dc); [|now apply Hexit].
    destruct (stop_requested t); [now apply Hexit|].
    destruct (duration_elapsed _ _ _); [now apply Hexit|].
    clear Hexit.
    destruct (tick_buffer t dc m) as (_ & _ & _ & _ & Hc).
    pose proof (tick_stores t dc m Hcb) as Hm1.
    destruct (tick t dc m) as [[data dc1] m1]. simpl in Hc, Hm1.
    destruct (pause interval t _) as [[[]|x] now'].
    + destruct (loop_passes _ _ _ now' rest dc1 m1) as [[[tr dc2] m2]|] eqn:E;
        [|discriminate].
      injection Hrun as <- <- <-.
      destruct (IH now' dc1 m1 tr dc2 m2) as [Hc2 Hp2]; [|exact E|].
      * rewrite Hc. exact Hcb.
      * split; [congruence|].
        rewrite Hp2, Hm1, Hc. simpl. now rewrite <- app_assoc.
    + injection Hrun as <- <- <-. simpl. split; [exact Hc|].
      rewrite Hm1, app_nil_r. reflexivity.
Qed.

End Subscribers.

(** X15. The collection loop hands every sample to every registration and
    removes none: with [n] registrations of the monitor's callback
    [_on_data_collected], the loop leaves the [n] registrations in place
    and appends every sample it assembles [n] times to
    [performance_data], in the order of assembly. *)
Theorem loop_feeds_every_registration
  {C : Type} {ops : Collector C}
  (interval : Q) (duration : option Q) (start_time : Q) (sched : list TickEnv)
  (dc dc' : DataCollector C APM.Monitor) (m m' : APM.Monitor)
  (samples : list PerformanceData) :
  Forall (fun cb => cb = APM._on_data_collected) (callbacks dc) ->
  _collection_loop interval duration start_time sched dc m
    = Some (samples, dc', m') ->
  callbacks dc' = callbacks dc /\
  APM.performance_data m' =
    (APM.performance_data m ++
     flat_map (fun d => repeat d (length (callbacks dc))) samples)%list.
Proof.
  intros Hcb Hrun. exact (loop_stores _ _ _ _ _ _ _ _ _ _ Hcb Hrun).
Qed.

Lemma loop_feeds_every_registration_witness :
  let dc : DataCollector Android.AndroidCollector APM.Monitor :=
    fst (start_continuous_collection 1 None
           (add_callback APM._on_data_collected
              (add_callback APM._on_data_collected
                 (new_DataCollector default_config (Android.init ""))))) in
  let sched := [Fixtures.pass 1; Fixtures.pass 2; Fixtures.stop_at 3] in
  exists samples dc' m',
    _collection_loop 1 None 0 sched dc (APM.new_Monitor "" 0)
      = Some (samples, dc', m') /\
    length (callbacks dc') = 2%nat /\
    List.map timestamp (APM.performance_data m') = [1; 1; 2; 2]%Q.
Proof.
  intros dc sched.
  destruct (_collection_loop 1 None 0 sched dc (APM.new_Monitor "" 0))
    as [[[samples dc'] m']|] eqn:E; [|vm_compute in E; discriminate].
  assert (Hs : List.map timestamp samples = [1; 2]%Q).
  { pose proof E as E'. vm_compute in E'. injection E' as <- _ _. reflexivity. }
  destruct (loop_feeds_every_registration 1 None 0 sched dc dc'
              (APM.new_Monitor "" 0) m' samples) as [Hc Hp].
  - repeat constructor.
  - exact E.
  - exists samples, dc', m'. split; [reflexivity|]. split; [now rewrite Hc|].
    rewrite Hp. simpl.
    destruct samples as [|s1 [|s2 [|s3 l]]]; try discriminate.
    injection Hs as H1 H2. simpl. now rewrite H1, H2.
Defined.

(** X16. A subscriber keeps what the buffer drops: with the one
    registration of [_on_data_collected], an empty buffer and an empty
    [performance_data], the loop leaves every sample it assembled in
    [performance_data], once and in order, while the buffer holds the last
    [max_buffer_size] of them. *)
Theorem subscriber_keeps_every_sample
  {C : Type} {ops : Collector C}
  (interval : Q) (duration : option Q) (start_time : Q) (sched : list TickEnv)
  (dc dc' : DataCollector C APM.Monitor) (m m' : APM.Monitor)
  (samples : list PerformanceData) :
  callbacks dc = [APM._on_data_collected] ->
  data_buffer dc = [] ->
  APM.performance_data m = [] ->
  0 <= max_buffer_size dc ->
  _collection_loop interval duration start_time sched dc m
    = Some (samples, dc', m') ->
  APM.performance_data m' = samples /\
  data_buffer dc' = lastn (Z.to_nat (max_buffer_size dc)) samples.
Proof.
  intros Hcb Hbuf Hp Hmax Hrun.
  destruct (loop_stores interval duration start_time sched start_time
              dc m samples dc' m') as [_ Hstore].
  { rewrite Hcb. repeat constructor. }
  { exact Hrun. }
  destruct (loop_buffer interval duration start_time sched start_time
              dc m samples dc' m') as [_ Hlast].
  { exact Hmax. }
  { rewrite Hbuf. simpl. lia. }
  { exact Hrun. }
  split.
  - rewrite Hstore, Hp, Hcb. simpl.
    clear. induction samples as [|d l IH]; simpl; congruence.
  - rewrite Hlast, Hbuf. reflexivity.
Qed.

Lemma subscriber_keeps_every_sample_witness :
  let dc : DataCollector Android.AndroidCollector APM.Monitor :=
    fst (start_continuous_collection 1 None
           (add_callback APM._on_data_collected
              (new_DataCollector (Fixtures.config_with_buffer 1)
                 (Android.init "")))) in
  let sched := [Fixtures.pass 1; Fixtures.pass 2; Fixtures.stop_at 3] in
  exists samples dc' m',
    _collection_loop 1 None 0 sched dc (APM.new_Monitor "" 0)
      = Some (samples, dc', m') /\
    List.map timestamp (APM.performance_data m') = [1; 2]%Q /\
    List.map timestamp (data_buffer dc') = [2]%Q.
Proof.
  intros dc sched.
  destruct (_collection_loop 1 None 0 sched dc (APM.new_Monitor "" 0))
    as [[[samples dc'] m']|] eqn:E; [|vm_compute in E; discriminate].
  assert (Hs : List.map timestamp samples = [1; 2]%Q).
  { pose proof E as E'. vm_compute in E'. injection E' as <- _ _. reflexivity. }
  destruct (subscriber_keeps_every_sample 1 None 0 sched dc dc'
              (APM.new_Monitor "" 0) m' samples) as [Hp Hb];
    [reflexivity|reflexivity|reflexivity|vm_compute; congruence|exact E|].
  exists samples, dc', m'. split; [reflexivity|]. split; [now rewrite Hp|].
  rewrite Hb.
  destruct samples as [|s1 [|s2 [|s3 l]]]; try discriminate.
  injection Hs as _ H2.
  change (lastn (Z.to_nat (max_buffer_size dc)) [s1; s2]) with [s2].
  simpl. now rewrite H2.
Defined.

(** X17. [stop_monitoring] is guarded by [is_monitoring]: on a monitor
    that is not monitoring it changes nothing, even when its collector is
    collecting; after any call the monitor is not monitoring, so a second
    call changes nothing. *)
Theorem stop_monitoring_is_guarded
  {C : Type} (a : APM.AppPerformanceMonitor C) :
  (APM.is_monitoring (APM.monitor a) = false ->
   APM.stop_monitoring a = (Ret tt, a)) /\
  APM.is_monitoring (APM.monitor (snd (APM.stop_monitoring a))) = false /\
  APM.stop_monitoring (snd (APM.stop_monitoring a))
    = (Ret tt, snd (APM.stop_monitoring a)).
Proof.
  assert (Hidle : forall b : APM.AppPerformanceMonitor C,
             APM.is_monitoring (APM.monitor b) = false ->
             APM.stop_monitoring b = (Ret tt, b)).
  { intros b Hb. unfold APM.stop_monitoring, mbind, mget, mret. simpl.
    rewrite Hb. reflexivity. }
  assert (Hoff : APM.is_monitoring (APM.monitor (snd (APM.stop_monitoring a)))
                 = false).
  { unfold APM.stop_monitoring, mbind, mget, mret. simpl.
    destruct (APM.is_monitoring (APM.monitor a)) eqn:E; simpl; [|exact E].
    destruct (APM.collector a) as [dc|]; [|reflexivity].
    destruct (stop_continuous_collection dc) as [r dc']. reflexivity. }
  split; [apply Hidle|]. split; [exact Hoff|]. apply Hidle, Hoff.
Qed.

Lemma stop_monitoring_is_guarded_witness :
  let dc : DataCollector Android.AndroidCollector APM.Monitor :=
    fst (start_continuous_collection 1 None
           (new_DataCollector default_config (Android.init ""))) in
  let a := {| APM.monitor := APM.new_Monitor "" 0; APM.collector := Some dc |} in
  is_collecting dc = true /\ APM.stop_monitoring a = (Ret tt, a).
Proof.
  intros dc a. destruct (stop_monitoring_is_guarded a) as [H _].
  split; [reflexivity|]. apply H. reflexivity.
Defined.

(** ** PerformanceService: the monitor registry *)

Section Registry.

Context {C : Type} {ops : Collector C}.
Implicit Types (s : Service.PerformanceService C).
Implicit Types (l : list (string * APM.AppPerformanceMonitor C)).

Lemma find_none_not_in l (monitor_id : string) :
  List.find (fun p => String.eqb (fst p) monitor_id) l = None <->
  ~ In monitor_id (List.map fst l).
Proof.
  induction l as [|[k m] l IH]; simpl.
  - split; [intros _ []|reflexivity].
  - destruct (String.eqb_spec k monitor_id) as [->|Hne].
    + split; [discriminate|intros H; exfalso; apply H; now left].
    + rewrite IH. split.
      * intros H [E|Hin]; [congruence|exact (H Hin)].
      * intros H Hin. apply H. now right.
Qed.

Lemma find_after l l' (monitor_id : string) :
  List.find (fun p => String.eqb (fst p) monitor_id) l = None ->
  List.find (fun p => String.eqb (fst p) monitor_id) (l ++ l')%list
  = List.find (fun p => String.eqb (fst p) monitor_id) l'.
Proof.
  induction l as [|[k m] l IH]; simpl; [reflexivity|].
  destruct (String.eqb k monitor_id); [discriminate|exact IH].
Qed.

Lemma get_monitor_none s (monitor_id : string) :
  Service.get_monitor monitor_id s = None <->
  ~ In monitor_id (Service.list_monitors s).
Proof.
  unfold Service.get_monitor, Service.list_monitors.
  rewrite <- find_none_not_in.
  destruct (List.find _ _); simpl; split; congruence.
Qed.

Lemma remove_entry_keys (monitor_id : string) l :
  List.map fst (Service.remove_entry monitor_id l)
  = List.filter (fun k => negb (String.eqb k monitor_id)) (List.map fst l).
Proof.
  induction l as [|[k m] l IH]; simpl; [reflexivity|].
  destruct (String.eqb k monitor_id); simpl; congruence.
Qed.

Lemma replace_entry_keys (monitor_id : string) m l :
  List.map fst (Service.replace_entry monitor_id m l) = List.map fst l.
Proof.
  induction l as [|[k m0] l IH]; simpl; [reflexivity|].
  destruct (String.eqb k monitor_id); simpl; congruence.
Qed.

Lemma NoDup_without (monitor_id : string) (ids : list string) :
  NoDup ids ->
  NoDup (List.filter (fun k => negb (String.eqb k monitor_id)) ids).
Proof.
  induction 1 as [|k ids Hk Hnd IH]; simpl; [constructor|].
  destruct (String.eqb k monitor_id); simpl; [exact IH|].
  constructor; [|exact IH].
  rewrite list_elem_of_In, List.filter_In. rewrite list_elem_of_In in Hk.
  tauto.
Qed.

Lemma remove_entry_find (monitor_id other : string) l :
  List.find (fun p => String.eqb (fst p) other)
            (Service.remove_entry monitor_id l)
  = if String.eqb other monitor_id then None
    else List.find (fun p => String.eqb (fst p) other) l.
Proof.
  induction l as [|[k m] l IH]; simpl.
  - now destruct (String.eqb other monitor_id).
  - destruct (String.eqb_spec k monitor_id) as [->|Hne]; simpl.
    + rewrite IH. destruct (String.eqb_spec other monitor_id) as [->|Hno];
        [reflexivity|].
      destruct (String.eqb_spec monitor_id other); [congruence|reflexivity].
    + destruct (String.eqb_spec k other) as [->|Hko].
      * destruct (String.eqb_spec other monitor_id); [congruence|reflexivity].
      * exact IH.
Qed.

Lemma remove_entry_absent (monitor_id : string) l :
  ~ In monitor_id (List.map fst l) -> Service.remove_entry monitor_id l = l.
Proof.
  induction l as [|[k m] l IH]; simpl; intros H; [reflexivity|].
  destruct (String.eqb_spec k monitor_id) as [->|Hne].
  - exfalso. apply H. now left.
  - simpl. f_equal. apply IH. intros Hin. apply H. now right.
Qed.

Lemma start_monitor_ok (monitor_id : string) created s :
  service_ok s -> service_ok (snd (Service.start_monitor monitor_id created s)).
Proof.
  intros [Hnd Hrun]. unfold Service.start_monitor.
  destruct (Service.get_monitor monitor_id s) eqn:E; [now split|].
  destruct created as [m|x]; [|now split].
  apply get_monitor_none in E. split; simpl.
  - unfold Service.list_monitors in *. simpl. rewrite List.map_app. simpl.
    apply NoDup_app. split; [exact Hnd|]. split.
    + intros k Hk Hk'. apply list_elem_of_In in Hk, Hk'.
      destruct Hk' as [<-|[]]. exact (E Hk).
    + apply NoDup_singleton.
  - intros _ H. apply app_eq_nil in H. destruct H as [_ H]. discriminate.
Qed.

Lemma stop_monitor_ok (monitor_id : string) s :
  service_ok s -> service_ok (snd (Service.stop_monitor monitor_id s)).
Proof.
  intros [Hnd Hrun]. unfold Service.stop_monitor.
  destruct (Service.get_monitor monitor_id s) as [m|]; [|now split].
  destruct (APM.stop_monitoring m) as [[u|x] m']; split; simpl.
  - unfold Service.list_monitors in *. simpl. rewrite remove_entry_keys.
    now apply NoDup_without.
  - destruct (Service.remove_entry monitor_id (Service.monitors s));
      [discriminate|]. intros _. discriminate.
  - unfold Service.list_monitors in *. simpl. now rewrite replace_entry_keys.
  - intros H Hnil. apply Hrun in H. apply H.
    destruct (Service.monitors s); [reflexivity|discriminate].
Qed.

(** Stopping the identifiers of the registry one after the other. *)
Lemma stop_each_empties l :
  NoDup (List.map fst l) ->
  (forall k m, In (k, m) l -> fst (APM.stop_monitoring m) = Ret tt) ->
  forall running,
    Service.monitors
      (fold_left (fun acc k => snd (Service.stop_monitor k acc)) (List.map fst l)
         {| Service.monitors := l; Service.is_running := running |}) = [].
Proof.
  induction l as [|[k m] l IH]; intros Hnd Hstop running; [reflexivity|].
  simpl in Hnd. apply NoDup_cons in Hnd. destruct Hnd as [Hk Hnd'].
  rewrite list_elem_of_In in Hk.
  cbn [List.map fst fold_left].
  unfold Service.stop_monitor at 2. unfold Service.get_monitor.
  cbn [Service.monitors List.find fst]. rewrite String.eqb_refl.
  cbn [option_map snd].
  pose proof (Hstop k m (or_introl eq_refl)) as Hm.
  destruct (APM.stop_monitoring m) as [[[]|x] m']; [|discriminate].
  cbn [snd Service.monitors Service.remove_entry List.filter fst].
  rewrite String.eqb_refl. cbn [negb].
  fold (Service.remove_entry k l). rewrite (remove_entry_absent k l Hk).
  apply IH; [exact Hnd'|].
  intros k0 m0 Hin. apply (Hstop k0 m0). now right.
Qed.

End Registry.

(** X18. The registry keeps its invariant: the identifiers of the monitors
    are distinct and the service is running only while it holds a monitor.
    The invariant holds initially and after [start_monitor], [stop_monitor]
    and [stop_all], whatever their arguments and outcomes. *)
Theorem service_invariant
  {C : Type} {ops : Collector C}
  (monitor_id : string) (created : result (APM.AppPerformanceMonitor C))
  (s : Service.PerformanceService C) :
  service_ok s ->
  service_ok (Service.new_service (C := C)) /\
  service_ok (snd (Service.start_monitor monitor_id created s)) /\
  service_ok (snd (Service.stop_monitor monitor_id s)) /\
  service_ok (Service.stop_all s).
Proof.
  intros Hs. split; [|split; [|split]].
  - split; [constructor|discriminate].
  - now apply start_monitor_ok.
  - now apply stop_monitor_ok.
  - unfold Service.stop_all.
    assert (H : forall ids (acc : Service.PerformanceService C),
                service_ok acc ->
                service_ok (fold_left
                              (fun acc k => snd (Service.stop_monitor k acc))
                              ids acc)).
    { induction ids as [|k ids IH]; intros acc Hacc; [exact Hacc|].
      simpl. apply IH. now apply stop_monitor_ok. }
    destruct (H (Service.list_monitors s) s Hs) as [Hnd _].
    split; [exact Hnd|discriminate].
Qed.

Lemma service_invariant_witness :
  let s := snd (Service.start_monitor "m1" (Ret Fixtures.device_monitor)
                  Service.new_service) in
  service_ok s /\
  service_ok (snd (Service.stop_monitor "m1" s)) /\
  service_ok (Service.stop_all s).
Proof.
  intros s.
  assert (Hs : service_ok s).
  { split; [apply (bool_decide_unpack _); reflexivity|discriminate]. }
  destruct (service_invariant "m1" (Ret Fixtures.app_monitor) s Hs)
    as (_ & _ & Hstop & Hall).
  split; [exact Hs|]. split; [exact Hstop|exact Hall].
Defined.

(** X19. [start_monitor] with an identifier that is already registered
    returns [False] and changes nothing; no monitor is constructed, so the
    outcome of the constructor plays no part. With a new identifier and a
    constructor that succeeds it returns [True], the monitor is found
    under the identifier and the service is running. *)
Theorem start_monitor_registers_once
  {C : Type} {ops : Collector C}
  (monitor_id : string) (created : result (APM.AppPerformanceMonitor C))
  (m : APM.AppPerformanceMonitor C) (s : Service.PerformanceService C) :
  (In monitor_id (Service.list_monitors s) ->
   Service.start_monitor monitor_id created s = (false, s)) /\
  (~ In monitor_id (Service.list_monitors s) ->
   let '(started, s') := Service.start_monitor monitor_id (Ret m) s in
   started = true /\
   Service.get_monitor monitor_id s' = Some m /\
   Service.is_running s' = true /\
   Service.list_monitors s' = (Service.list_monitors s ++ [monitor_id])%list).
Proof.
  split.
  - intros Hin. unfold Service.start_monitor.
    destruct (Service.get_monitor monitor_id s) eqn:E; [reflexivity|].
    apply get_monitor_none in E. contradiction.
  - intros Hnin. unfold Service.start_monitor.
    assert (E : Service.get_monitor monitor_id s = None)
      by now apply get_monitor_none.
    rewrite E. split; [reflexivity|]. split; [|split; [reflexivity|]].
    + unfold Service.get_monitor in *. simpl.
      destruct (List.find _ (Service.monitors s)) eqn:Ef; [discriminate|].
      rewrite (find_after _ _ _ Ef). simpl. now rewrite String.eqb_refl.
    + unfold Service.list_monitors. simpl. now rewrite List.map_app.
Qed.

Lemma start_monitor_registers_once_witness :
  let s := snd (Service.start_monitor "m1" (Ret Fixtures.device_monitor)
                  Service.new_service) in
  Service.list_monitors s = ["m1"] /\
  Service.start_monitor "m1" (Ret Fixtures.app_monitor) s = (false, s).
Proof.
  intros s.
  destruct (start_monitor_registers_once "m1" (Ret Fixtures.app_monitor)
              Fixtures.app_monitor s) as [H _].
  split; [reflexivity|]. apply H. now left.
Defined.

(** X20. A [stop_monitor] that returns [True] removes the monitor of that
    identifier and no other: the identifier is no longer found, every
    other identifier gives what it gave before, and the identifiers left
    are the former ones without it, in their order. An identifier that is
    not registered gives [False] and changes nothing. *)
Theorem stop_monitor_removes_one
  {C : Type} {ops : Collector C}
  (monitor_id : string) (s : Service.PerformanceService C) :
  (~ In monitor_id (Service.list_monitors s) ->
   Service.stop_monitor monitor_id s = (false, s)) /\
  (fst (Service.stop_monitor monitor_id s) = true ->
   let s' := snd (Service.stop_monitor monitor_id s) in
   Service.get_monitor monitor_id s' = None /\
   (forall other, other <> monitor_id ->
                  Service.get_monitor other s' = Service.get_monitor other s) /\
   Service.list_monitors s' =
     List.filter (fun k => negb (String.eqb k monitor_id))
                 (Service.list_monitors s)).
Proof.
  split.
  - intros H. apply get_monitor_none in H. unfold Service.stop_monitor.
    now rewrite H.
  - unfold Service.stop_monitor.
    destruct (Service.get_monitor monitor_id s) as [m|]; [|discriminate].
    destruct (APM.stop_monitoring m) as [[u|x] m']; [|discriminate].
    intros _. simpl. unfold Service.get_monitor, Service.list_monitors. simpl.
    split; [|split].
    + rewrite remove_entry_find, String.eqb_refl. reflexivity.
    + intros other Hne. rewrite remove_entry_find.
      destruct (String.eqb_spec other monitor_id); [contradiction|reflexivity].
    + apply remove_entry_keys.
Qed.

Lemma stop_monitor_removes_one_witness :
  let s1 := snd (Service.start_monitor "m1" (Ret Fixtures.device_monitor)
                   Service.new_service) in
  let s2 := snd (Service.start_monitor "m2" (Ret Fixtures.app_monitor) s1) in
  let s' := snd (Service.stop_monitor "m1" s2) in
  Service.get_monitor "m1" s' = None /\
  Service.list_monitors s' = ["m2"].
Proof.
  intros s1 s2 s'.
  destruct (stop_monitor_removes_one "m1" s2) as [_ H].
  destruct (H eq_refl) as (Hg & _ & Hl).
  split; [exact Hg|]. exact Hl.
Defined.

(** X21. [stop_all] always leaves the service not running; when the stop
    of every registered monitor returns, the registry is empty
    afterwards. *)
Theorem stop_all_empties_registry
  {C : Type} {ops : Collector C} (s : Service.PerformanceService C) :
  NoDup (Service.list_monitors s) ->
  (forall k m, In (k, m) (Service.monitors s) ->
               fst (APM.stop_monitoring m) = Ret tt) ->
  Service.stop_all s = Service.new_service.
Proof.
  intros Hnd Hstop. unfold Service.stop_all, Service.new_service.
  destruct s as [l running]. unfold Service.list_monitors in *. simpl in *.
  now rewrite (stop_each_empties l Hnd Hstop running).
Qed.

Lemma stop_all_empties_registry_witness :
  let s1 := snd (Service.start_monitor "m1" (Ret Fixtures.device_monitor)
                   Service.new_service) in
  let s2 := snd (Service.start_monitor "m2" (Ret Fixtures.app_monitor) s1) in
  Service.stop_all s2 = Service.new_service.
Proof.
  intros s1 s2. apply (stop_all_empties_registry s2).
  - apply (bool_decide_unpack _). reflexivity.
  - intros k m [E|[E|[]]]; injection E as <- <-; reflexivity.
Defined.

(** ** Config: dotted keys *)

Section DottedKeys.

Context {A : Type}.
Implicit Types (config : gmap string (ConfigStore.value A)).
Implicit Types (v : ConfigStore.value A).

Lemma split_on_cons (sep : ascii) (key : string) :
  exists k rest, PyStr.split_on sep key = k :: rest.
Proof.
  unfold PyStr.split_on. generalize (@nil ascii).
  induction (PyStr.chars key) as [|c l IH]; intros cur; simpl.
  - eauto.
  - destruct (Ascii.eqb c sep); eauto.
Qed.

Lemma set_path_cons (k k' : string) rest v config :
  ConfigStore.set_path (k :: k' :: rest) v config =
  match config !! k with
  | None =>
      let '(r, child) := ConfigStore.set_path (k' :: rest) v ∅ in
      (r, <[k := ConfigStore.Dict child]> config)
  | Some (ConfigStore.Dict child) =>
      let '(r, child') := ConfigStore.set_path (k' :: rest) v child in
      (r, <[k := ConfigStore.Dict child']> config)
  | Some (ConfigStore.Leaf _) => (Raise TypeError, config)
  end.
Proof. reflexivity. Qed.

Lemma set_path_empty (k : string) rest v :
  fst (ConfigStore.set_path (k :: rest) v ∅) = Ret tt.
Proof.
  revert k. induction rest as [|k' rest IH]; intros k; [reflexivity|].
  rewrite set_path_cons, lookup_empty.
  specialize (IH k'). destruct (ConfigStore.set_path (k' :: rest) v ∅).
  exact IH.
Qed.

Lemma set_path_raise (k : string) rest v config x :
  fst (ConfigStore.set_path (k :: rest) v config) = Raise x ->
  x = TypeError /\ snd (ConfigStore.set_path (k :: rest) v config) = config.
Proof.
  revert k config. induction rest as [|k' rest IH]; intros k config;
    [discriminate|].
  rewrite set_path_cons. destruct (config !! k) as [[a|child]|] eqn:E.
  - simpl. intros H. split; [congruence|reflexivity].
  - specialize (IH k' child).
    destruct (ConfigStore.set_path (k' :: rest) v child) as [r child'].
    simpl in *. intros H. destruct (IH H) as [-> ->].
    split; [reflexivity|]. now apply insert_id.
  - pose proof (set_path_empty k' rest v) as H0.
    destruct (ConfigStore.set_path (k' :: rest) v ∅) as [r child].
    simpl in *. congruence.
Qed.

Lemma set_path_found (k : string) rest v config :
  fst (ConfigStore.set_path (k :: rest) v config) = Ret tt ->
  ConfigStore.lookup_path (k :: rest)
    (ConfigStore.Dict (snd (ConfigStore.set_path (k :: rest) v config)))
  = Some v.
Proof.
  revert k config. induction rest as [|k' rest IH]; intros k config.
  - intros _. simpl. now rewrite lookup_insert_eq.
  - rewrite set_path_cons. destruct (config !! k) as [[a|child]|] eqn:E.
    + discriminate.
    + specialize (IH k' child).
      destruct (ConfigStore.set_path (k' :: rest) v child) as [r child'].
      simpl in *. intros H. rewrite lookup_insert_eq. exact (IH H).
    + specialize (IH k' ∅).
      destruct (ConfigStore.set_path (k' :: rest) v ∅) as [r child].
      simpl in *. intros H. rewrite lookup_insert_eq. exact (IH H).
Qed.

End DottedKeys.

(** X22. What [set] stored is what [get] returns: after a [set] that
    returned, [get] with the same dotted key gives the value, whatever
    default is passed. *)
Theorem config_get_after_set
  {A : Type} (key : string) (v default : ConfigStore.value A)
  (config : gmap string (ConfigStore.value A)) :
  fst (ConfigStore.set key v config) = Ret tt ->
  ConfigStore.get key default (snd (ConfigStore.set key v config)) = v.
Proof.
  unfold ConfigStore.set, ConfigStore.get.
  destruct (split_on_cons "." key) as (k & rest & ->).
  intros H. now rewrite (set_path_found k rest v config H).
Qed.

Lemma config_get_after_set_witness :
  ConfigStore.get "server.port" (ConfigStore.Leaf 0%Z)
    (snd (ConfigStore.set "server.port" (ConfigStore.Leaf 9090%Z) Fixtures.small_config))
  = ConfigStore.Leaf 9090%Z.
Proof.
  apply (config_get_after_set "server.port"). vm_compute. reflexivity.
Defined.

(** X23. A [set] that raises raised [TypeError] and left the
    configuration as it was: the only failure is a dotted key that leads
    through a value that is not a dictionary, and nothing is created on
    the way to it. *)
Theorem config_set_failure_changes_nothing
  {A : Type} (key : string) (v : ConfigStore.value A)
  (config : gmap string (ConfigStore.value A)) (x : exn) :
  fst (ConfigStore.set key v config) = Raise x ->
  x = TypeError /\ snd (ConfigStore.set key v config) = config.
Proof.
  unfold ConfigStore.set.
  destruct (split_on_cons "." key) as (k & rest & ->).
  apply set_path_raise.
Qed.

Lemma config_set_failure_changes_nothing_witness :
  fst (ConfigStore.set "server.port.tls" (ConfigStore.Leaf 1%Z) Fixtures.small_config)
  = Raise TypeError /\
  snd (ConfigStore.set "server.port.tls" (ConfigStore.Leaf 1%Z) Fixtures.small_config)
  = Fixtures.small_config.
Proof.
  split; [vm_compute; reflexivity|].
  apply (config_set_failure_changes_nothing "server.port.tls"
           (ConfigStore.Leaf 1%Z) Fixtures.small_config TypeError).
  vm_compute. reflexivity.
Defined.

(** ** iOS network speed *)

(** X25. Two iOS [collect_network] calls that both reach the device, the
    second at a later time: the second returns the totals of its own
    output and, as speeds, the difference of the totals of the two calls
    divided by the time between them, whatever baseline the collector
    held before the first call; there is no guard on the sign of the
    difference. The baseline left behind is that of the second call. *)
Theorem ios_network_speed_between_calls
  (e1 e2 : Env) (out1 out2 : string) (c : IOS.IOSCollector) :
  device e1 "network_info" = Ret out1 ->
  device e2 "network_info" = Ret out2 ->
  (now e1 < now e2)%Q ->
  let '(rx1, tx1) := IOS.network_totals 0 0 (IOS.lines out1) in
  let '(rx2, tx2) := IOS.network_totals 0 0 (IOS.lines out2) in
  let dt := (now e2 - now e1)%Q in
  IOS.collect_network e2 (snd (IOS.collect_network e1 c)) =
  (Android.net_usage ((rx2 - rx1) / dt) ((tx2 - tx1) / dt) rx2 tx2,
   IOS.set_last_network_data
     {| IOS.rx_total := rx2; IOS.tx_total := tx2; IOS.timestamp := now e2 |} c).
Proof.
  intros H1 H2 Hlt.
  unfold IOS.collect_network, IOS.collect_network_body.
  IOSFacts.run_monad. rewrite H1, H2.
  destruct (IOS.network_totals 0 0 (IOS.lines out1)) as [rx1 tx1].
  destruct (IOS.network_totals 0 0 (IOS.lines out2)) as [rx2 tx2].
  cbn [snd fst IOS.last_network_data IOS.set_last_network_data
       IOS.timestamp IOS.rx_total IOS.tx_total IOS.package_name].
  assert (E : Qlt_bool 0 (now e2 - now e1) = true).
  { apply Qlt_bool_iff. lra. }
  rewrite E. reflexivity.
Qed.

Lemma ios_network_speed_between_calls_witness :
  let e1 := Fixtures.at_time
              (Fixtures.answers "network_info"
                 ("RX: 4096" ++ Fixtures.nl ++ "TX: 2048")) 1 in
  let e2 := Fixtures.at_time
              (Fixtures.answers "network_info"
                 ("RX: 2048" ++ Fixtures.nl ++ "TX: 2048")) 3 in
  let c := IOS.init "com.example.app" in
  (now e1 < now e2)%Q /\
  IOS.collect_network e2 (snd (IOS.collect_network e1 c)) =
  (Android.net_usage ((2048 / 1024 - 4096 / 1024) / (3 - 1))
     ((2048 / 1024 - 2048 / 1024) / (3 - 1)) (2048 / 1024) (2048 / 1024),
   IOS.set_last_network_data
     {| IOS.rx_total := 2048 / 1024; IOS.tx_total := 2048 / 1024;
        IOS.timestamp := 3 |} c).
Proof.
  intros e1 e2 c. split; [reflexivity|].
  exact (ios_network_speed_between_calls e1 e2 _ _ c eq_refl eq_refl eq_refl).
Defined.

(** X26. When the device fails every command, each of the five iOS
    extractors returns its neutral value and leaves the collector, with
    its network baseline, as it was. *)
Theorem ios_transport_failure_is_neutral
  (percent_of : string -> Z) (e : Env) (c : IOS.IOSCollector) :
  silent e ->
  IOS.collect_cpu e c = (0%Q, c) /\
  IOS.collect_memory e c = (0%Q, c) /\
  IOS.collect_network e c = (Android.net_zero, c) /\
  IOS.collect_fps e c = (0%Q, c) /\
  IOS.collect_battery percent_of e c = (∅, c).
Proof.
  intros H. repeat split.
  - unfold IOS.collect_cpu, IOS.collect_cpu_body. IOSFacts.run_monad.
    destruct (PyStr.truthy _).
    + ExtractorFacts.fails H ("proc_info " ++ IOS.package_name c). reflexivity.
    + ExtractorFacts.fails H "sysinfo". reflexivity.
  - unfold IOS.collect_memory, IOS.collect_memory_body. IOSFacts.run_monad.
    destruct (PyStr.truthy _).
    + ExtractorFacts.fails H ("proc_info " ++ IOS.package_name c). reflexivity.
    + ExtractorFacts.fails H "sysinfo". reflexivity.
  - unfold IOS.collect_network, IOS.collect_network_body. IOSFacts.run_monad.
    ExtractorFacts.fails H "network_info". reflexivity.
  - unfold IOS.collect_fps, IOS.collect_fps_body. IOSFacts.run_monad.
    destruct (PyStr.truthy _); [|reflexivity].
    ExtractorFacts.fails H ("fps " ++ IOS.package_name c). reflexivity.
  - unfold IOS.collect_battery, IOS.collect_battery_body. IOSFacts.run_monad.
    ExtractorFacts.fails H "battery". reflexivity.
Qed.

Lemma ios_transport_failure_is_neutral_witness :
  let c := IOS.set_last_network_data
             {| IOS.rx_total := 4; IOS.tx_total := 2; IOS.timestamp := 1 |}
             (IOS.init "com.example.app") in
  let e := Fixtures.at_time Fixtures.unreachable 3 in
  IOS.collect_network e c = (Android.net_zero, c).
Proof.
  intros c e.
  destruct (ios_transport_failure_is_neutral (fun _ => 0%Z) e c)
    as (_ & _ & Hnet & _).
  - intros command. eexists. reflexivity.
  - exact Hnet.
Defined.

(** ** The summary of a monitoring run *)

Lemma positive_values_skips (f : PerformanceData -> Q)
  (data : list PerformanceData) (d : PerformanceData) :
  (f d <= 0)%Q ->
  APM.positive_values f (data ++ [d])%list = APM.positive_values f data.
Proof.
  intros H. unfold APM.positive_values.
  rewrite List.map_app, List.filter_app. simpl.
  assert (E : Qlt_bool 0 (f d) = false) by (apply Qlt_bool_false_iff; exact H).
  rewrite E. apply app_nil_r.
Qed.

(** X27. A sample whose CPU, memory and FPS values are zero or below, as
    a sample taken while the device does not answer is, counts as a data
    point of [get_summary] but does not enter its statistics: appended
    to the samples of a monitor that has some, it raises [data_points] by
    one and leaves every other entry of the summary as it was. *)
Theorem summary_ignores_nonpositive_readings
  (t : Q) (m : APM.Monitor) (d : PerformanceData) (s : APM.Summary) :
  (cpu_usage d <= 0)%Q -> (memory_usage d <= 0)%Q -> (fps d <= 0)%Q ->
  APM.get_summary t m = Some s ->
  APM.get_summary t
    (APM.set_performance_data (APM.performance_data m ++ [d])%list m)
  = Some {| APM.summary_package_name := APM.summary_package_name s;
            APM.summary_duration := APM.summary_duration s;
            APM.data_points := S (APM.data_points s);
            APM.alerts_count := APM.alerts_count s;
            APM.stats_cpu := APM.stats_cpu s;
            APM.stats_memory := APM.stats_memory s;
            APM.stats_fps := APM.stats_fps s |}.
Proof.
  intros Hc Hm Hf. unfold APM.get_summary.
  destruct (APM.performance_data m) as [|d0 data] eqn:E; [discriminate|].
  intros [= <-]. cbn [APM.set_performance_data APM.performance_data
                      APM.package_name APM.start_time APM.alerts].
  cbn [app].
  change (d0 :: (data ++ [d])%list) with ((d0 :: data) ++ [d])%list.
  rewrite !positive_values_skips by assumption.
  cbn [APM.summary_package_name APM.summary_duration APM.data_points
       APM.alerts_count APM.stats_cpu APM.stats_memory APM.stats_fps].
  rewrite length_app. simpl length.
  replace (S (length data) + 1)%nat with (S (S (length data))) by lia.
  reflexivity.
Qed.

Lemma summary_ignores_nonpositive_readings_witness :
  let good := set_cpu_usage 40 (new_PerformanceData 1) in
  let m := APM.set_performance_data [good] (APM.new_Monitor "com.example.app" 0) in
  option_map APM.data_points
    (APM.get_summary 5
       (APM.set_performance_data
          (APM.performance_data m ++ [new_PerformanceData 2])%list m)) = Some 2%nat /\
  option_map APM.stats_cpu
    (APM.get_summary 5
       (APM.set_performance_data
          (APM.performance_data m ++ [new_PerformanceData 2])%list m))
  = option_map APM.stats_cpu (APM.get_summary 5 m).
Proof.
  intros good m.
  rewrite (summary_ignores_nonpositive_readings 5 m (new_PerformanceData 2)
             _ ltac:(discriminate) ltac:(discriminate) ltac:(discriminate)
             eq_refl).
  split; reflexivity.
Defined.
